(** * Gerrychain_FRA: ensemble outlier analysis, chain loop and data loader

    A shallow embedding of the analysis scripts of the repository

      - [scripts/real_data/single_state_detection.py]     (module [SingleState])
      - [scripts/real_data/multi_state_detection.py]      (module [MultiState])
      - [scripts/real_data/single_state_detection_v2.py]  (module [SingleStateV2])
      - [scripts/real_data/real_data_simple.py]           (module [RealDataSimple])
      - [gerrymandering_detection.py]                     (module [GerrymanderingDetection])

    and, for the analysis around them, the modules [SingleStateAnalysis],
    [MultiStateAnalysis] and [SingleStateV2Config] ([analyze_state] and
    its tables), [GerrymanderedMap] ([create_gerrymandered_districts]),
    [RealDataSimpleEnsemble] and [GerrymanderingDetectionEnsemble] (the
    short ensembles), [SingleStateV2Columns], [SingleStateColumns] and
    [MultiStateColumns] ([detect_data_columns]), and
    [RealDataSimpleAnalysis] ([analyze_real_data]).

    Conventions of the embedding.

      - Python [int] is [Z].  Python [float] (and numpy's float64) is
        idealised as an exact rational [Q]: rounding error of binary64 is
        not modelled.  Equality of such numbers is [Qeq] ([==]).
      - A Python exception is [None] in the option monad; [print] appends
        an [Event] to a log that the functions thread explicitly.
      - A [Partition] carries, per district, the values of its three
        [Tally] updaters; gerrychain keeps those dictionaries on exactly
        the keys of [partition.parts].
      - A networkx graph is its adjacency dictionary. *)

From Stdlib Require Import ZArith QArith Qround Qabs Qminmax Lqa Lia.
From stdpp Require Import gmap strings list sorting.

Local Open Scope Z_scope.

(** ** Python arithmetic *)

(** [a < b] on numbers. *)
Definition Qltb (a b : Q) : bool := negb (Qle_bool b a).

(** [a / b] on floats: raises [ZeroDivisionError] when [b] is zero. *)
Definition py_truediv (a b : Q) : option Q :=
  if Qeq_bool b 0 then None else Some (a / b)%Q.

(** [a % b] on ints: raises [ZeroDivisionError] when [b] is zero; the
    result has the sign of the divisor, as [Z.modulo]. *)
Definition py_mod (a b : Z) : option Z :=
  if b =? 0 then None else Some (a mod b).

(** [a // b] on ints (floor division), with the same exception. *)
Definition py_floordiv (a b : Z) : option Z :=
  if b =? 0 then None else Some (a / b).

(** [sum(1 for x in l if p(x))]: [sum] starts from 0 and adds a 1 for
    every element the generator lets through. *)
Definition sum_ones {A} (p : A -> bool) (l : list A) : Z :=
  fold_left (fun acc x => if p x then acc + 1 else acc) l 0.

(** [sum(l)] on numbers. *)
Definition py_sum (l : list Q) : Q :=
  fold_left Qplus l 0%Q.

(** [len(l)] *)
Definition len {A} (l : list A) : Z := Z.of_nat (length l).

(** [abs(x)] *)
Definition py_abs (x : Q) : Q := Qabs x.

(** [int(x)] on a float: truncation towards zero.  The tallies of the
    embedding are numbers: [int(nan)], which raises [ValueError], has no
    counterpart here. *)
Definition py_int (x : Q) : Z := Z.quot (Qnum x) (Zpos (Qden x)).

(** The integer nearest to [x], ties to the even one. *)
Definition round_half_even (x : Q) : Z :=
  let f := Qfloor x in
  match (x - inject_Z f ?= 1 # 2)%Q with
  | Lt => f
  | Gt => f + 1
  | Eq => if Z.even f then f else f + 1
  end.

(** [round(x, ndigits)] on a float, on the exact value: a tie goes to
    the even neighbour.  Python rounds the binary64 value, which can lie
    on the other side of a tie of the exact value, so that the last
    digit of a rounded entry can differ; none of the properties stated
    of the records is about the value of a rounded entry. *)
Definition py_round (x : Q) (ndigits : Z) : Q :=
  (inject_Z (round_half_even (x * inject_Z (10 ^ ndigits))) / inject_Z (10 ^ ndigits))%Q.

(** [min(l)] and [max(l)]: [ValueError] on an empty list. *)
Definition py_min (l : list Z) : option Z :=
  match l with
  | [] => None
  | x :: l' => Some (fold_left Z.min l' x)
  end.

Definition py_max (l : list Z) : option Z :=
  match l with
  | [] => None
  | x :: l' => Some (fold_left Z.max l' x)
  end.

(** [np.mean(l)].  On an empty list numpy gives [nan] (with a warning);
    the scripts only take the mean of lists that have an element. *)
Definition np_mean (l : list Q) : Q :=
  (py_sum l / inject_Z (len l))%Q.

(** [np.sqrt], idealised: the rational square root where there is one,
    otherwise the root cut after 16 decimal places. *)
Definition np_sqrt (x : Q) : Q :=
  Z.sqrt (Qnum x * Zpos (Qden x) * 10 ^ 32) # (Qden x * 10 ^ 16).

(** [np.std(l)]: the population formula
    [sqrt(mean(abs(l - mean(l)) ** 2))]. *)
Definition np_std (l : list Q) : Q :=
  let m := np_mean l in
  np_sqrt (np_mean (map (fun x => (py_abs (x - m) * py_abs (x - m))%Q) l)).

(** ** Ensemble statistics shared by the three [analyze_state] functions *)

(** [below_initial = sum(1 for x in dem_wins_list if x < initial_dem_wins)] *)
Definition below_initial (dem_wins_list : list Z) (initial_dem_wins : Z) : Z :=
  sum_ones (fun x => x <? initial_dem_wins) dem_wins_list.

(** [equal_initial = sum(1 for x in dem_wins_list if x == initial_dem_wins)] *)
Definition equal_initial (dem_wins_list : list Z) (initial_dem_wins : Z) : Z :=
  sum_ones (fun x => x =? initial_dem_wins) dem_wins_list.

(** [percentile = ((below_initial + 0.5 * equal_initial) / len(dem_wins_list)) * 100] *)
Definition percentile (dem_wins_list : list Z) (initial_dem_wins : Z) : option Q :=
  let below := below_initial dem_wins_list initial_dem_wins in
  let equal := equal_initial dem_wins_list initial_dem_wins in
  r ← py_truediv (inject_Z below + (1 # 2) * inject_Z equal)%Q
                 (inject_Z (len dem_wins_list));
  Some (r * 100)%Q.

(** ** Partitions and district winners *)

(** One district of a partition with the values of the updaters
    ["population"], ["dem_votes"] and ["rep_votes"] at that district. *)
Record DistrictTally := {
  district : Z;
  population : Q;
  dem_votes : Q;
  rep_votes : Q
}.

#[global] Instance Q_eq_dec : EqDecision Q.
Proof. solve_decision. Defined.

#[global] Instance DistrictTally_eq_dec : EqDecision DistrictTally.
Proof. solve_decision. Defined.

(** The districts are listed in the order of [partition.parts.keys()]. *)
Abbreviation Partition := (list DistrictTally).

Inductive Party := DEM | REP.

(** ["DEM" if dem_votes > rep_votes else "REP"] *)
Definition winner_of (dem rep : Q) : Party :=
  if Qltb rep dem then DEM else REP.

(** [sum(1 for district in partition.parts.keys()
          if partition["dem_votes"][district] > partition["rep_votes"][district])] *)
Definition dem_wins (partition : Partition) : Z :=
  sum_ones (fun d => Qltb (rep_votes d) (dem_votes d)) partition.

(** ** Printed output and exceptions *)

(** What the loaders and [run_ensemble] print, one constructor per
    [print] statement (or block of consecutive statements). *)
Inductive Event :=
| WarnNotContiguous      (* "Warning: Initial partition is not contiguous" ... *)
| RelaxingContiguity     (* "Relaxing contiguity constraint for this analysis" ... *)
| SkippingContiguity     (* "Skipping contiguity constraint for ensemble" ... *)
| UsingContiguity        (* "Using contiguity constraint (standard ...)" *)
| WithoutContiguity      (* "Running ensemble without contiguity constraint" *)
| UsingReCom (with_contiguity : bool)
                         (* "Using ReCom proposal with [contiguity and] ..." *)
| ProgressStart          (* "Progress: " *)
| Progress (pct : Z)     (* "{pct}%..." *)
| Done                   (* " Done!" *)
| WarnIdenticalResults   (* "WARNING: Ensemble produced identical results every time!" ... *)
| ErrorRunningEnsemble   (* "ERROR running ensemble: ..." *)
| Loading                (* "Loading {shapefile_path}..." *)
| RemovingIsolated (n : Z) (* "Removing {n} isolated nodes..." *)
| Loaded (n : Z)         (* "Loaded {n} precincts" *)
| AvailableColumns       (* "Available data columns (first 10):" ... *)
| ErrorLoading.          (* "ERROR loading data: ..." *)

(** A computation that prints and may raise: it maps the output so far
    to its value ([None] when an exception escaped) and the output
    after it. *)
Definition Run (A : Type) : Type := list Event -> option A * list Event.

Definition run_ret {A} (a : A) : Run A := fun out => (Some a, out).

Definition run_bind {A B} (f : A -> Run B) (m : Run A) : Run B :=
  fun out =>
    match m out with
    | (Some a, out') => f a out'
    | (None, out') => (None, out')
    end.

#[global] Instance Run_ret : MRet Run := @run_ret.
#[global] Instance Run_bind : MBind Run := @run_bind.

Definition print (e : Event) : Run unit := fun out => (Some tt, out ++ [e]).

(** An operation of the option monad (a division, a lookup) inside [Run]. *)
Definition lift {A} (o : option A) : Run A := fun out => (o, out).

(** [try: body / except Exception as e: handler; return None].  The
    value [None] of the result is the [None] the function returns. *)
Definition try_except {A} (body : Run A) (handler : Run unit) : Run A :=
  fun out =>
    match body out with
    | (Some a, out') => (Some a, out')
    | (None, out') => (None, snd (handler out'))
    end.

(** [for i, x in enumerate(xs): acc = body(i, x, acc)], from index [i]. *)
Fixpoint for_enumerate {A S} (body : Z -> A -> S -> Run S) (i : Z) (xs : list A) (acc : S)
  : Run S :=
  match xs with
  | [] => mret acc
  | x :: xs' => acc' ← body i x acc; for_enumerate body (i + 1) xs' acc'
  end.

(** ** The dual graph *)

(** A networkx graph as its adjacency dictionary [graph._adj]: every
    node is a key, its value the set of its neighbours. *)
Abbreviation Graph := (gmap Z (gset Z)).

(** [graph.nodes()]; nothing below depends on the order of the nodes. *)
Definition nodes (graph : Graph) : list Z := (map_to_list graph).*1.

(** [graph.degree(node)]: the number of neighbours, a self-loop counting
    twice. *)
Definition degree (graph : Graph) (node : Z) : Z :=
  let nbrs := default ∅ (graph !! node) in
  Z.of_nat (size nbrs) + (if bool_decide (node ∈ nbrs) then 1 else 0).

(** One round of the loop of networkx's [remove_nodes_from]: a node that
    is not in the graph is skipped; otherwise it is taken out of the
    adjacency of each of its neighbours and then dropped (networkx keeps
    the adjacency symmetric, so each neighbour has the entry). *)
Definition remove_node (graph : Graph) (n : Z) : Graph :=
  match graph !! n with
  | None => graph
  | Some nbrs =>
      delete n (set_fold (fun u adj => alter (fun s => s ∖ {[n]}) u adj) graph nbrs)
  end.

(** [graph.remove_nodes_from(nodes)] *)
Definition remove_nodes_from (graph : Graph) (ns : list Z) : Graph :=
  fold_left remove_node ns graph.

(** [[node for node in graph.nodes() if graph.degree(node) == 0]] *)
Definition isolated_nodes (graph : Graph) : list Z :=
  filter (fun node => degree graph node = 0) (nodes graph).

(** ** The gerrychain library *)

(** [gerrychain.proposals]: the proposal functions the scripts pass to
    [MarkovChain].  [ReCom] is [partial(recom, pop_col=..., pop_target=...,
    epsilon=..., node_repeats=...)]; the population column is already
    resolved in [DistrictTally]. *)
Inductive Proposal :=
| propose_random_flip
| recom (pop_target epsilon : Q) (node_repeats : Z).

(** [gerrychain.constraints]: the constraints the scripts use. *)
Inductive Constraint :=
| contiguous
| single_flip_contiguous
| within_percent_of_ideal_population (initial_partition : Partition) (epsilon : Q).

#[global] Instance Constraint_eq_dec : EqDecision Constraint.
Proof. solve_decision. Defined.

(** What the scripts take from gerrychain without defining it: the
    source of randomness, what a proposal does to a partition, and
    whether a constraint holds of a partition (contiguity is a property
    of the dual graph behind the partition). *)
Class Gerrychain := {
  Rng : Type;
  propose : Proposal -> Rng -> Partition -> Partition * Rng;
  holds : Constraint -> Partition -> bool
}.

(** Modelled from the spec: the ChainDriver of section 4.6, which the
    scripts use under the name [MarkovChain] (gerrychain's class is not
    among the repository's sources).  Configuration: proposal, ordered
    constraints, acceptance function [(current, candidate) -> bool],
    initial state, total step count. *)
Record MarkovChain := {
  proposal : Proposal;
  constraints : list Constraint;
  accept : Partition -> Partition -> bool;
  initial_state : Partition;
  total_steps : Z
}.

Section ChainDriver.
Context `{Gerrychain}.

(** Modelled from the spec: one step of the ChainDriver.  One candidate
    is generated by the proposal; if any constraint fails the current
    state is repeated as this step's output; otherwise the acceptance
    function decides between candidate and current state. *)
Definition chain_step (chain : MarkovChain) (current : Partition) (rng : Rng)
  : Partition * Rng :=
  let (candidate, rng') := propose (proposal chain) rng current in
  if forallb (fun c => holds c candidate) (constraints chain) then
    if accept chain current candidate then (candidate, rng') else (current, rng')
  else (current, rng').

(** Modelled from the spec: the outputs of [n] consecutive steps, in
    order. *)
Fixpoint chain_outputs (chain : MarkovChain) (n : nat) (current : Partition) (rng : Rng)
  : list Partition :=
  match n with
  | O => []
  | S n' =>
      let (next, rng') := chain_step chain current rng in
      next :: chain_outputs chain n' next rng'
  end.

(** Modelled from the spec: iterating over the chain emits the outputs
    of [total_steps] steps from the initial state. *)
Definition chain_iter (chain : MarkovChain) (rng : Rng) : list Partition :=
  chain_outputs chain (Z.to_nat (total_steps chain)) (initial_state chain) rng.
End ChainDriver.

(** ** scripts/real_data/single_state_detection.py *)
Module SingleState.

(** [load_state_data]; [from_file] is what [Graph.from_file] (or, after
    the repair of invalid geometries, [Graph.from_geodataframe])
    gives, [None] when it raises. *)
Definition load_state_data (from_file : option Graph) : Run Graph :=
  try_except
    (_ ← print Loading;
     graph ← lift from_file;
     let isolated_nodes := isolated_nodes graph in
     graph ← (if bool_decide (isolated_nodes = [])
              then mret graph
              else _ ← print (RemovingIsolated (len isolated_nodes));
                   mret (remove_nodes_from graph isolated_nodes));
     _ ← print (Loaded (len (nodes graph)));
     mret graph)
    (print ErrorLoading).

Section WithGerrychain.
Context `{Gerrychain}.

(** The body of the [for i, partition in enumerate(chain)] loop. *)
Definition ensemble_step (num_steps : Z) (i : Z) (partition : Partition)
    (dem_wins_list : list Z) : Run (list Z) :=
  (* if (i + 1) % (num_steps // 10) == 0: print(f"{(i+1)*100//num_steps}%...") *)
  m ← lift (py_mod (i + 1) (num_steps / 10));
  _ ← (if m =? 0
       then q ← lift (py_floordiv ((i + 1) * 100) num_steps); print (Progress q)
       else mret tt);
  mret (dem_wins_list ++ [dem_wins partition]).

(** The first part of [run_ensemble], up to the construction of the
    chain. *)
Definition run_ensemble_chain (initial_partition : Partition) (num_steps : Z)
    (use_contiguity : bool) : Run MarkovChain :=
  let is_contiguous := holds contiguous initial_partition in
  use_contiguity ←
    (if use_contiguity && negb is_contiguous
     then _ ← print WarnNotContiguous; _ ← print RelaxingContiguity; mret false
     else mret use_contiguity);
  constraints ←
    (if use_contiguity : bool
     then _ ← print UsingContiguity; mret [single_flip_contiguous]
     else _ ← print WithoutContiguity; mret []);
  mret {| proposal := propose_random_flip;
          constraints := constraints;
          accept := fun _ _ => true;
          initial_state := initial_partition;
          total_steps := num_steps |}.

Definition run_ensemble (initial_partition : Partition) (num_steps : Z)
    (use_contiguity : bool) (rng : Rng) : Run (list Z) :=
  try_except
    (chain ← run_ensemble_chain initial_partition num_steps use_contiguity;
     _ ← print ProgressStart;
     dem_wins_list ← for_enumerate (ensemble_step num_steps) 0 (chain_iter chain rng) [];
     _ ← print Done;
     mret dem_wins_list)
    (print ErrorRunningEnsemble).
End WithGerrychain.

(** [is_outlier = percentile < 5 or percentile > 95] *)
Definition is_outlier (percentile : Q) : bool :=
  Qltb percentile 5 || Qltb 95 percentile.

(** [z_score = (initial_dem_wins - mean_dem) / std_dem if std_dem > 0 else 0] *)
Definition z_score (initial_dem_wins : Z) (mean_dem std_dem : Q) : option Q :=
  if Qltb 0 std_dem
  then py_truediv (inject_Z initial_dem_wins - mean_dem)%Q std_dem
  else Some 0%Q.
End SingleState.

(** ** scripts/real_data/multi_state_detection.py *)
Module MultiState.

(** [load_state_data]; [from_file] is what [Graph.from_file] gives,
    [None] when it raises. *)
Definition load_state_data (from_file : option Graph) : Run Graph :=
  try_except
    (_ ← print Loading;
     graph ← lift from_file;
     let isolated_nodes := isolated_nodes graph in
     let graph := if bool_decide (isolated_nodes = [])
                  then graph
                  else remove_nodes_from graph isolated_nodes in
     _ ← print (Loaded (len (nodes graph)));
     mret graph)
    (print ErrorLoading).

Section WithGerrychain.
Context `{Gerrychain}.

Definition run_ensemble (initial_partition : Partition) (num_steps : Z) (rng : Rng)
  : Run (list Z) :=
  try_except
    (let chain := {| proposal := propose_random_flip;
                     constraints := [single_flip_contiguous];
                     accept := fun _ _ => true;
                     initial_state := initial_partition;
                     total_steps := num_steps |} in
     for_enumerate (fun _ partition dem_wins_list =>
                      mret (dem_wins_list ++ [dem_wins partition]))
                   0 (chain_iter chain rng) [])
    (print ErrorRunningEnsemble).
End WithGerrychain.

(** [is_outlier = percentile < 5 or percentile > 95] *)
Definition is_outlier (percentile : Q) : bool :=
  Qltb percentile 5 || Qltb 95 percentile.
End MultiState.

(** ** scripts/real_data/single_state_detection_v2.py *)
Module SingleStateV2.

(** [load_state_data]; [from_file] is what [Graph.from_file] (or, after
    the repair of invalid geometries, [Graph.from_geodataframe])
    gives, [None] when it raises. *)
Definition load_state_data (from_file : option Graph) : Run Graph :=
  try_except
    (_ ← print Loading;
     graph ← lift from_file;
     let isolated_nodes := isolated_nodes graph in
     graph ← (if bool_decide (isolated_nodes = [])
              then mret graph
              else _ ← print (RemovingIsolated (len isolated_nodes));
                   mret (remove_nodes_from graph isolated_nodes));
     _ ← print (Loaded (len (nodes graph)));
     mret graph)
    (print ErrorLoading).

(** [OUTLIER_THRESHOLD = 10  # Flag if < 10th or > 90th percentile (was 5%)] *)
Definition OUTLIER_THRESHOLD : Q := 10.

(** The dictionary built per district by [get_district_statistics] and
    by [calculate_ensemble_average_map] (same keys in both). *)
Record DistrictStats := {
  st_district : Z;
  st_dem_votes : Q;
  st_rep_votes : Q;
  st_total_votes : Q;
  st_dem_pct : Q;
  st_rep_pct : Q;
  st_winner : Party;
  st_margin : Q;
  st_margin_pct : Q;
  st_population : Q
}.

(** The order of [sorted(partition.parts.keys())]. *)
Definition district_le (a b : DistrictTally) : Prop := district a <= district b.

#[global] Instance district_le_dec : RelDecision district_le.
Proof. intros a b. unfold district_le. apply _. Defined.

Definition sorted_by_district (partition : Partition) : Partition :=
  merge_sort district_le partition.

(** The body of the loop of [get_district_statistics]. *)
Definition district_statistics (d : DistrictTally) : option DistrictStats :=
  let dem_votes := dem_votes d in
  let rep_votes := rep_votes d in
  let total_votes := (dem_votes + rep_votes)%Q in
  pcts ← (if Qltb 0 total_votes
          then dem ← py_truediv dem_votes total_votes;
               rep ← py_truediv rep_votes total_votes;
               Some ((dem * 100)%Q, (rep * 100)%Q)
          else Some (0%Q, 0%Q));
  let winner := winner_of dem_votes rep_votes in
  let margin := py_abs (dem_votes - rep_votes) in
  margin_pct ← (if Qltb 0 total_votes
                then r ← py_truediv margin total_votes; Some (r * 100)%Q
                else Some 0%Q);
  Some {| st_district := district d;
          st_dem_votes := dem_votes;
          st_rep_votes := rep_votes;
          st_total_votes := total_votes;
          st_dem_pct := pcts.1;
          st_rep_pct := pcts.2;
          st_winner := winner;
          st_margin := margin;
          st_margin_pct := margin_pct;
          st_population := population d |}.

Definition get_district_statistics (partition : Partition) : option (list DistrictStats) :=
  mapM district_statistics (sorted_by_district partition).

(** The order of [sorted(avg_stats.keys())]. *)
Definition key_le {V} (a b : Z * V) : Prop := a.1 <= b.1.

#[global] Instance key_le_dec {V} : RelDecision (@key_le V).
Proof. intros a b. unfold key_le. apply _. Defined.

(** The three lists [avg_stats[district]] accumulates. *)
Record Samples := {
  s_dem_votes : list Q;
  s_rep_votes : list Q;
  s_population : list Q
}.

(** [avg_stats[district]['dem_votes'].append(...)] and the two others *)
Definition append_sample (d : DistrictTally) (s : Samples) : Samples :=
  {| s_dem_votes := s_dem_votes s ++ [dem_votes d];
     s_rep_votes := s_rep_votes s ++ [rep_votes d];
     s_population := s_population s ++ [population d] |}.

(** The first two loops of [calculate_ensemble_average_map]: the
    dictionary [avg_stats], keyed by the districts of the first sample. *)
Definition collect_samples (partitions_sample : list Partition) : gmap Z Samples :=
  let all_districts := map district (default [] (head partitions_sample)) in
  let avg_stats : gmap Z Samples :=
    fold_left (fun m k => <[k := {| s_dem_votes := []; s_rep_votes := [];
                                    s_population := [] |}]> m)
              all_districts ∅ in
  fold_left (fun m partition =>
               fold_left (fun m d =>
                            (* if district in avg_stats: ... append *)
                            alter (append_sample d) (district d) m)
                         partition m)
            partitions_sample avg_stats.

(** The body of the loop "Calculate averages". *)
Definition average_statistics (entry : Z * Samples) : option DistrictStats :=
  let dem_avg := np_mean (s_dem_votes entry.2) in
  let rep_avg := np_mean (s_rep_votes entry.2) in
  let total_avg := (dem_avg + rep_avg)%Q in
  dem_pct ← (if Qltb 0 total_avg
             then r ← py_truediv dem_avg total_avg; Some (r * 100)%Q else Some 0%Q);
  rep_pct ← (if Qltb 0 total_avg
             then r ← py_truediv rep_avg total_avg; Some (r * 100)%Q else Some 0%Q);
  let winner := winner_of dem_avg rep_avg in
  let margin := py_abs (dem_avg - rep_avg) in
  margin_pct ← (if Qltb 0 total_avg
                then r ← py_truediv margin total_avg; Some (r * 100)%Q else Some 0%Q);
  Some {| st_district := entry.1;
          st_dem_votes := dem_avg;
          st_rep_votes := rep_avg;
          st_total_votes := total_avg;
          st_dem_pct := dem_pct;
          st_rep_pct := rep_pct;
          st_winner := winner;
          st_margin := margin;
          st_margin_pct := margin_pct;
          st_population := np_mean (s_population entry.2) |}.

(** The outer option is the exception, the inner one the [None] the
    function returns for an empty sample. *)
Definition calculate_ensemble_average_map (partitions_sample : list Partition)
  : option (option (list DistrictStats)) :=
  match partitions_sample with
  | [] => Some None
  | _ =>
      let avg_stats := collect_samples partitions_sample in
      result ← mapM average_statistics
                    (merge_sort key_le (map_to_list avg_stats));
      Some (Some result)
  end.

Section WithGerrychain.
Context `{Gerrychain}.

(** The body of the [for i, partition in enumerate(chain)] loop; the
    accumulator is [(dem_wins_list, partitions_sample)]. *)
Definition ensemble_step (num_steps sample_interval : Z) (i : Z) (partition : Partition)
    (acc : list Z * list Partition) : Run (list Z * list Partition) :=
  (* if (i + 1) % (num_steps // 10) == 0: print(f"{(i+1)*100//num_steps}%...") *)
  m ← lift (py_mod (i + 1) (num_steps / 10));
  _ ← (if m =? 0
       then q ← lift (py_floordiv ((i + 1) * 100) num_steps); print (Progress q)
       else mret tt);
  let dem_wins_list := acc.1 ++ [dem_wins partition] in
  (* if i % sample_interval == 0: partitions_sample.append(partition) *)
  k ← lift (py_mod i sample_interval);
  mret (dem_wins_list, if k =? 0 then acc.2 ++ [partition] else acc.2).

(** The first part of [run_ensemble], up to the construction of the
    chain. *)
Definition run_ensemble_chain (initial_partition : Partition) (num_steps : Z)
    (epsilon : Q) : Run MarkovChain :=
  let use_contiguity := holds contiguous initial_partition in
  _ ← (if negb use_contiguity
       then _ ← print WarnNotContiguous; print SkippingContiguity
       else mret tt);
  let total_pop := py_sum (map population initial_partition) in
  let num_districts := len initial_partition in
  ideal_pop ← lift (py_truediv total_pop (inject_Z num_districts));
  let constraints :=
    [within_percent_of_ideal_population initial_partition epsilon]
    ++ (if use_contiguity then [contiguous] else []) in
  let chain := {| proposal := recom ideal_pop epsilon 2;
                  constraints := constraints;
                  accept := fun _ _ => true;
                  initial_state := initial_partition;
                  total_steps := num_steps |} in
  _ ← print (UsingReCom use_contiguity);
  mret chain.

Definition run_ensemble (initial_partition : Partition) (num_steps : Z) (epsilon : Q)
    (rng : Rng) : Run (list Z * list Partition) :=
  try_except
    (chain ← run_ensemble_chain initial_partition num_steps epsilon;
     let sample_interval := Z.max 1 (num_steps / 100) in
     _ ← print ProgressStart;
     r ← for_enumerate (ensemble_step num_steps sample_interval) 0
                       (chain_iter chain rng) ([], []);
     _ ← print Done;
     (* if len(set(dem_wins_list)) == 1: print the warning *)
     _ ← (if Z.of_nat (size (list_to_set r.1 : gset Z)) =? 1
          then print WarnIdenticalResults
          else mret tt);
     mret r)
    (print ErrorRunningEnsemble).
End WithGerrychain.

(** [percentile_outlier = percentile < OUTLIER_THRESHOLD
                          or percentile > (100 - OUTLIER_THRESHOLD)] *)
Definition percentile_outlier (percentile : Q) : bool :=
  Qltb percentile OUTLIER_THRESHOLD || Qltb (100 - OUTLIER_THRESHOLD) percentile.

(** [z_score = (initial_dem_wins - mean_dem) / std_dem if std_dem > 0 else 0] *)
Definition z_score (initial_dem_wins : Z) (mean_dem std_dem : Q) : option Q :=
  if Qltb 0 std_dem
  then py_truediv (inject_Z initial_dem_wins - mean_dem)%Q std_dem
  else Some 0%Q.

Definition is_party (p q : Party) : bool :=
  match p, q with
  | DEM, DEM | REP, REP => true
  | _, _ => false
  end.

(** [any(stats['dem_pct'] > 65 and stats['winner'] == 'DEM' for stats in ...)] *)
Definition dem_packing (initial_district_stats : list DistrictStats) : bool :=
  existsb (fun stats => Qltb 65 (st_dem_pct stats) && is_party (st_winner stats) DEM)
          initial_district_stats.

(** [any(stats['rep_pct'] > 65 and stats['winner'] == 'REP' for stats in ...)] *)
Definition rep_packing (initial_district_stats : list DistrictStats) : bool :=
  existsb (fun stats => Qltb 65 (st_rep_pct stats) && is_party (st_winner stats) REP)
          initial_district_stats.

(** [has_packing = dem_packing or rep_packing] *)
Definition has_packing (initial_district_stats : list DistrictStats) : bool :=
  dem_packing initial_district_stats || rep_packing initial_district_stats.

(** [histogram[wins] = histogram.get(wins, 0) + 1] for every element *)
Definition histogram (dem_wins_list : list Z) : gmap Z Z :=
  fold_left (fun h wins => <[wins := default 0 (h !! wins) + 1]> h) dem_wins_list ∅.

(** The values the result dictionary holds. *)
Inductive Value :=
| VStr (s : string)
| VInt (z : Z)
| VFloat (q : Q)
| VBool (b : bool)
| VHistogram (h : gmap Z Z).

Section WithGerrychain.
Context `{Gerrychain}.

(** [analyze_state] from the point where the graph is loaded, the
    columns are detected, the number of districts is fixed and the
    initial partition exists ([precincts] is [len(graph.nodes)]).
    Of its [print] statements only the divisions they evaluate are
    kept.  The result is the dictionary it returns, in the order of
    its keys. *)
Definition analyze_state (state_name : string) (precincts num_districts : Z)
    (partition : Partition) (num_steps : Z) (epsilon : Q) (rng : Rng)
  : Run (list (string * Value)) :=
  initial_district_stats ← lift (get_district_statistics partition);
  let initial_dem_wins := dem_wins partition in
  let total_dem := py_sum (map dem_votes partition) in
  let total_rep := py_sum (map rep_votes partition) in
  let total_votes := (total_dem + total_rep)%Q in
  dem_vote_share ← lift (if Qltb 0 total_votes
                         then r ← py_truediv total_dem total_votes; Some (r * 100)%Q
                         else Some 0%Q);
  rep_vote_share ← lift (if Qltb 0 total_votes
                         then r ← py_truediv total_rep total_votes; Some (r * 100)%Q
                         else Some 0%Q);
  (* initial_dem_wins/num_districts*100 and
     (num_districts-initial_dem_wins)/num_districts*100 *)
  dem_seat_share ← lift (r ← py_truediv (inject_Z initial_dem_wins) (inject_Z num_districts);
                         Some (r * 100)%Q);
  rep_seat_share ← lift (r ← py_truediv (inject_Z (num_districts - initial_dem_wins))
                                        (inject_Z num_districts);
                         Some (r * 100)%Q);
  let seat_vote_gap_dem := (dem_seat_share - dem_vote_share)%Q in
  let seat_vote_gap_rep := (rep_seat_share - rep_vote_share)%Q in
  r ← run_ensemble partition num_steps epsilon rng;
  let dem_wins_list := r.1 in
  let partitions_sample := r.2 in
  (* if not dem_wins_list: return None *)
  _ ← lift (if bool_decide (dem_wins_list = []) then None else Some tt);
  ensemble_avg_stats ← lift (calculate_ensemble_average_map partitions_sample);
  let mean_dem := np_mean (map inject_Z dem_wins_list) in
  let std_dem := np_std (map inject_Z dem_wins_list) in
  min_dem ← lift (py_min dem_wins_list);
  max_dem ← lift (py_max dem_wins_list);
  percentile ← lift (percentile dem_wins_list initial_dem_wins);
  z_score ← lift (z_score initial_dem_wins mean_dem std_dem);
  let percentile_outlier := percentile_outlier percentile in
  let seats_votes_gap_threshold := 15%Q in
  let large_seats_votes_gap :=
    Qltb seats_votes_gap_threshold (py_abs seat_vote_gap_dem)
    || Qltb seats_votes_gap_threshold (py_abs seat_vote_gap_rep) in
  let has_packing := has_packing initial_district_stats in
  let seat_difference := py_abs (inject_Z initial_dem_wins - mean_dem) in
  let large_seat_difference := Qle_bool 2 seat_difference in
  let is_gerrymandered :=
    percentile_outlier
    || (large_seats_votes_gap && has_packing)
    || (large_seat_difference && large_seats_votes_gap) in
  let histogram := histogram dem_wins_list in
  (* histogram[wins] / num_steps * 50 in the printed distribution *)
  _ ← lift (py_truediv 1 (inject_Z num_steps));
  mret [ ("state", VStr state_name);
         ("precincts", VInt precincts);
         ("num_districts", VInt num_districts);
         ("initial_dem_wins", VInt initial_dem_wins);
         ("dem_vote_share", VFloat (py_round dem_vote_share 2));
         ("rep_vote_share", VFloat (py_round rep_vote_share 2));
         ("total_dem_votes", VInt (py_int total_dem));
         ("total_rep_votes", VInt (py_int total_rep));
         ("ensemble_mean", VFloat (py_round mean_dem 2));
         ("ensemble_std", VFloat (py_round std_dem 2));
         ("ensemble_min", VInt min_dem);
         ("ensemble_max", VInt max_dem);
         ("percentile", VFloat (py_round percentile 1));
         ("z_score", VFloat (py_round z_score 2));
         ("is_gerrymandered", VBool is_gerrymandered);
         ("percentile_outlier", VBool percentile_outlier);
         ("large_seats_votes_gap", VBool large_seats_votes_gap);
         ("has_packing", VBool has_packing);
         ("large_seat_difference", VBool large_seat_difference);
         ("ensemble_steps", VInt num_steps);
         ("histogram", VHistogram histogram);
         ("seat_vote_gap_dem", VFloat (py_round seat_vote_gap_dem 1));
         ("seat_vote_gap_rep", VFloat (py_round seat_vote_gap_rep 1)) ].
End WithGerrychain.
End SingleStateV2.

(** ** scripts/real_data/real_data_simple.py *)
Module RealDataSimple.

(** [load_real_data]; [from_file] is what [Graph.from_file] gives for
    an existing shapefile, [None] when the file is missing or the call
    raises.  Nothing is caught here.  The column listing at the end
    reads [list(graph.nodes())[0]], an [IndexError] on a graph without
    nodes. *)
Definition load_real_data (from_file : option Graph) : Run Graph :=
  _ ← print Loading;
  graph ← lift from_file;
  _ ← print (Loaded (len (nodes graph)));
  let isolated_nodes := isolated_nodes graph in
  graph ← (if bool_decide (isolated_nodes = [])
           then mret graph
           else _ ← print (RemovingIsolated (len isolated_nodes));
                let graph := remove_nodes_from graph isolated_nodes in
                _ ← print (Loaded (len (nodes graph)));
                mret graph);
  sample_node ← lift (head (nodes graph));
  _ ← print AvailableColumns;
  mret graph.
End RealDataSimple.

(** ** gerrymandering_detection.py *)
Module GerrymanderingDetection.

(** The reporting loop of [create_fair_districts] over the partition
    that [recursive_tree_part] and [Partition(...)] produced: the
    winner printed for every district, and [dem_wins]. *)
Definition create_fair_districts (partition : Partition) : list (Z * Party) * Z :=
  fold_left
    (fun acc d =>
       let dem := dem_votes d in
       let rep := rep_votes d in
       let winner := winner_of dem rep in
       let dem_wins := if Qltb rep dem then acc.2 + 1 else acc.2 in
       (acc.1 ++ [(district d, winner)], dem_wins))
    partition ([], 0).
End GerrymanderingDetection.

(** [record[key]] on a dictionary kept as the list of its items. *)
Fixpoint dict_get {V} (key : string) (record : list (string * V)) : option V :=
  match record with
  | [] => None
  | (k, v) :: rest => if bool_decide (k = key) then Some v else dict_get key rest
  end.

(** ** scripts/real_data/single_state_detection.py, the analysis *)
Module SingleStateAnalysis.

(** [REAL_DISTRICTS] of single_state_detection.py *)
Definition REAL_DISTRICTS : list (string * Z) :=
  [ ("alabama", 7); ("alaska", 1); ("arizona", 9); ("california", 52); ("colorado", 8);
    ("connecticut", 5); ("delaware", 1); ("florida", 28); ("georgia", 14); ("hawaii", 2);
    ("illinois", 17); ("indiana", 9); ("iowa", 4); ("louisiana", 6); ("maine", 2);
    ("maryland", 8); ("massachusetts", 9); ("michigan", 13); ("minnesota", 8);
    ("nebraska", 3); ("new-hampshire", 2); ("new-mexico", 3); ("new-york", 26);
    ("north-carolina", 14); ("ohio", 15); ("oklahoma", 5); ("oregon", 6);
    ("pennsylvania", 17); ("puerto-rico", 1); ("rhode-island", 2); ("utah", 4);
    ("vermont", 1); ("washington", 10); ("wisconsin", 8) ].

(** The block "Auto-detect number of districts if not specified" of
    [analyze_state]; [num_precincts] is [len(graph.nodes)]. *)
Definition detect_num_districts (REAL_DISTRICTS : list (string * Z)) (state_name : string)
    (num_precincts : Z) (num_districts : option Z) : Z :=
  match num_districts with
  | Some n => n
  | None =>
      match dict_get state_name REAL_DISTRICTS with
      | Some n => n
      | None =>
          if num_precincts <? 100 then 3
          else if num_precincts <? 500 then 5
          else if num_precincts <? 2000 then 8
          else 10
      end
  end.

Section WithGerrychain.
Context `{Gerrychain}.

(** [analyze_state] from the point where the initial partition exists
    ([precincts] is [len(graph.nodes)]).  Of its [print] statements only
    the division they evaluate is kept.  The result is the dictionary it
    returns, in the order of its keys. *)
Definition analyze_state (state_name : string) (precincts num_districts : Z)
    (partition : Partition) (num_steps : Z) (rng : Rng)
  : Run (list (string * SingleStateV2.Value)) :=
  let initial_dem_wins := dem_wins partition in
  let total_dem := py_sum (map dem_votes partition) in
  let total_rep := py_sum (map rep_votes partition) in
  (* dem_vote_share = total_dem / (total_dem + total_rep) * 100 *)
  dem_vote_share ← lift (r ← py_truediv total_dem (total_dem + total_rep)%Q;
                         Some (r * 100)%Q);
  dem_wins_list ← SingleState.run_ensemble partition num_steps true rng;
  (* if not dem_wins_list: return None *)
  _ ← lift (if bool_decide (dem_wins_list = []) then None else Some tt);
  let mean_dem := np_mean (map inject_Z dem_wins_list) in
  let std_dem := np_std (map inject_Z dem_wins_list) in
  min_dem ← lift (py_min dem_wins_list);
  max_dem ← lift (py_max dem_wins_list);
  percentile ← lift (percentile dem_wins_list initial_dem_wins);
  z_score ← lift (SingleState.z_score initial_dem_wins mean_dem std_dem);
  let is_outlier := SingleState.is_outlier percentile in
  let histogram := SingleStateV2.histogram dem_wins_list in
  (* histogram[wins] / num_steps * 50 in the printed distribution *)
  _ ← lift (py_truediv 1 (inject_Z num_steps));
  mret [ ("state", SingleStateV2.VStr state_name);
         ("precincts", SingleStateV2.VInt precincts);
         ("num_districts", SingleStateV2.VInt num_districts);
         ("initial_dem_wins", SingleStateV2.VInt initial_dem_wins);
         ("dem_vote_share", SingleStateV2.VFloat (py_round dem_vote_share 2));
         ("ensemble_mean", SingleStateV2.VFloat (py_round mean_dem 2));
         ("ensemble_std", SingleStateV2.VFloat (py_round std_dem 2));
         ("ensemble_min", SingleStateV2.VInt min_dem);
         ("ensemble_max", SingleStateV2.VInt max_dem);
         ("percentile", SingleStateV2.VFloat (py_round percentile 1));
         ("z_score", SingleStateV2.VFloat (py_round z_score 2));
         ("is_outlier", SingleStateV2.VBool is_outlier);
         ("ensemble_steps", SingleStateV2.VInt num_steps);
         ("histogram", SingleStateV2.VHistogram histogram) ].
End WithGerrychain.
End SingleStateAnalysis.

(** ** scripts/real_data/multi_state_detection.py, the analysis *)
Module MultiStateAnalysis.
Section WithGerrychain.
Context `{Gerrychain}.

(** [analyze_state] from the point where the initial partition exists
    ([precincts] is [len(graph.nodes)]).  The result is the dictionary it
    returns, in the order of its keys. *)
Definition analyze_state (state_name : string) (precincts num_districts : Z)
    (partition : Partition) (num_steps : Z) (rng : Rng)
  : Run (list (string * SingleStateV2.Value)) :=
  let initial_dem_wins := dem_wins partition in
  let total_dem := py_sum (map dem_votes partition) in
  let total_rep := py_sum (map rep_votes partition) in
  (* dem_vote_share = total_dem / (total_dem + total_rep) * 100 *)
  dem_vote_share ← lift (r ← py_truediv total_dem (total_dem + total_rep)%Q;
                         Some (r * 100)%Q);
  dem_wins_list ← MultiState.run_ensemble partition num_steps rng;
  (* if not dem_wins_list: return None *)
  _ ← lift (if bool_decide (dem_wins_list = []) then None else Some tt);
  (* mean_dem = sum(dem_wins_list) / len(dem_wins_list) *)
  mean_dem ← lift (py_truediv (py_sum (map inject_Z dem_wins_list))
                              (inject_Z (len dem_wins_list)));
  min_dem ← lift (py_min dem_wins_list);
  max_dem ← lift (py_max dem_wins_list);
  percentile ← lift (percentile dem_wins_list initial_dem_wins);
  let is_outlier := MultiState.is_outlier percentile in
  mret [ ("state", SingleStateV2.VStr state_name);
         ("precincts", SingleStateV2.VInt precincts);
         ("num_districts", SingleStateV2.VInt num_districts);
         ("initial_dem_wins", SingleStateV2.VInt initial_dem_wins);
         ("dem_vote_share", SingleStateV2.VFloat (py_round dem_vote_share 2));
         ("ensemble_mean", SingleStateV2.VFloat (py_round mean_dem 2));
         ("ensemble_min", SingleStateV2.VInt min_dem);
         ("ensemble_max", SingleStateV2.VInt max_dem);
         ("percentile", SingleStateV2.VFloat (py_round percentile 1));
         ("is_outlier", SingleStateV2.VBool is_outlier);
         ("ensemble_steps", SingleStateV2.VInt num_steps) ].
End WithGerrychain.
End MultiStateAnalysis.

(** ** scripts/real_data/single_state_detection_v2.py, the configuration *)
Module SingleStateV2Config.

(** [REAL_DISTRICTS] of single_state_detection_v2.py *)
Definition REAL_DISTRICTS : list (string * Z) :=
  [ ("alabama", 7); ("alaska", 1); ("arizona", 9); ("california", 52); ("colorado", 8);
    ("connecticut", 5); ("delaware", 1); ("florida", 28); ("georgia", 14); ("hawaii", 2);
    ("illinois", 17); ("indiana", 9); ("iowa", 4); ("louisiana", 6); ("maine", 2);
    ("maryland", 8); ("massachusetts", 9); ("michigan", 13); ("minnesota", 8);
    ("nebraska", 3); ("new-hampshire", 2); ("new-mexico", 3); ("new-york", 26);
    ("north-carolina", 14); ("north-carolina-2022", 14); ("ohio", 15); ("ohio-2022", 15);
    ("oklahoma", 5); ("oregon", 6); ("pennsylvania", 18); ("puerto-rico", 1);
    ("rhode-island", 2); ("utah", 4); ("vermont", 1); ("washington", 10);
    ("wisconsin", 8) ].
End SingleStateV2Config.

(** ** gerrymandering_detection.py, the gerrymandered map *)
Module GerrymanderedMap.

(** The data of a city block, [graph.nodes[node]]: its keys
    ["population"], ["dem_votes"] and ["rep_votes"] hold ints. *)
Record Block := {
  block_population : Z;
  block_dem_votes : Z;
  block_rep_votes : Z
}.

(** The city graph as [graph.nodes] has it: the blocks in the order of
    [graph.nodes()], each under its node (a dictionary: no node occurs
    twice).  The edges play no part in the assignment. *)
Abbreviation City := (list (Z * Block)).

(** [graph.nodes[node]]; a [KeyError] for a node that is not in the graph. *)
Fixpoint graph_node (graph : City) (node : Z) : option Block :=
  match graph with
  | [] => None
  | (n, block) :: rest => if bool_decide (n = node) then Some block else graph_node rest node
  end.

(** An entry of [nodes_data]. *)
Record NodeData := {
  node : Z;
  population : Z;
  dem_votes : Z;
  rep_votes : Z;
  dem_percentage : Q
}.

(** The body of the loop that fills [nodes_data]. *)
Definition node_data (entry : Z * Block) : NodeData :=
  let dem_votes := block_dem_votes entry.2 in
  let rep_votes := block_rep_votes entry.2 in
  let total_votes := dem_votes + rep_votes in
  (* dem_votes / total_votes if total_votes > 0 else 0 *)
  let dem_percentage :=
    if 0 <? total_votes then (inject_Z dem_votes / inject_Z total_votes)%Q else 0%Q in
  {| node := entry.1;
     population := block_population entry.2;
     dem_votes := dem_votes;
     rep_votes := rep_votes;
     dem_percentage := dem_percentage |}.

(** [nodes_data.sort(key=lambda x: x['dem_percentage'], reverse=True)]:
    decreasing keys; the sort is stable, entries with equal keys stay in
    their order.  [insert_reverse x l] puts [x], which came before the
    entries of [l], into the sorted [l]. *)
Fixpoint insert_reverse (x : NodeData) (l : list NodeData) : list NodeData :=
  match l with
  | [] => [x]
  | y :: l' =>
      if Qltb (dem_percentage x) (dem_percentage y)
      then y :: insert_reverse x l'
      else x :: y :: l'
  end.

Definition sort_reverse (l : list NodeData) : list NodeData :=
  foldr insert_reverse [] l.

(** The position that the index [i] of a Python list denotes: a negative
    index counts from the end, [None] is [IndexError]. *)
Definition list_index {A} (l : list A) (i : Z) : option nat :=
  let j := if i <? 0 then i + len l else i in
  if (0 <=? j) && (j <? len l) then Some (Z.to_nat j) else None.

(** [l[i]] *)
Definition getitem (l : list Z) (i : Z) : option Z :=
  j ← list_index l i; l !! j.

(** [l[i] += v] *)
Definition iadd (l : list Z) (i v : Z) : option (list Z) :=
  j ← list_index l i; x ← l !! j; Some (<[j := x + v]> l).

(** The dictionary and the three lists that the two loops fill. *)
Record Districts := {
  assignment : gmap Z Z;
  district_populations : list Z;
  district_dem_votes : list Z;
  district_rep_votes : list Z
}.

(** [assignment[node] = district] followed by the three [+=] on the
    lists at [district]. *)
Definition assign (node district population dem_votes rep_votes : Z) (d : Districts)
  : option Districts :=
  populations ← iadd (district_populations d) district population;
  dems ← iadd (district_dem_votes d) district dem_votes;
  reps ← iadd (district_rep_votes d) district rep_votes;
  Some {| assignment := <[node := district]> (assignment d);
          district_populations := populations;
          district_dem_votes := dems;
          district_rep_votes := reps |}.

(** The packing loop: [for node_data in nodes_data] with
    [current_district = 0], left by [break] when the district is full. *)
Fixpoint pack (target_pop : Q) (nodes_data : list NodeData) (d : Districts)
  : option Districts :=
  match nodes_data with
  | [] => Some d
  | node_data :: rest =>
      current ← getitem (district_populations d) 0;
      (* if district_populations[current_district] < target_pop * 1.3 *)
      if Qltb (inject_Z current) (target_pop * (13 # 10))
      then d' ← assign (node node_data) 0 (population node_data) (dem_votes node_data)
                       (rep_votes node_data) d;
           pack target_pop rest d'
      else Some d
  end.

(** The loop [for i, node in enumerate(remaining_nodes)], from index [i]. *)
Fixpoint spread (graph : City) (num_districts : Z) (i : Z) (remaining_nodes : list Z)
    (d : Districts) : option Districts :=
  match remaining_nodes with
  | [] => Some d
  | node :: rest =>
      (* district = (i % (num_districts - 1)) + 1 *)
      m ← py_mod i (num_districts - 1);
      let district := m + 1 in
      block ← graph_node graph node;
      d' ← assign node district (block_population block) (block_dem_votes block)
                  (block_rep_votes block) d;
      spread graph num_districts (i + 1) rest d'
  end.

(** [total_pop = sum(graph.nodes[node]["population"] for node in graph.nodes())] *)
Definition total_pop (graph : City) : Z :=
  fold_left Z.add ((fun entry => block_population entry.2) <$> graph) 0.

(** [create_gerrymandered_districts], up to the point where it hands
    [assignment] to [Partition(graph, assignment, updaters)]. *)
Definition create_gerrymandered_districts (graph : City) (num_districts : Z)
  : option Districts :=
  let nodes_data := sort_reverse (node_data <$> graph) in
  (* [0] * num_districts *)
  let zeros := replicate (Z.to_nat num_districts) 0 in
  target_pop ← py_truediv (inject_Z (total_pop graph)) (inject_Z num_districts);
  d ← pack target_pop nodes_data
        {| assignment := ∅;
           district_populations := zeros;
           district_dem_votes := zeros;
           district_rep_votes := zeros |};
  let remaining_nodes :=
    filter (fun n => assignment d !! n = None) (node <$> nodes_data) in
  spread graph num_districts 0 remaining_nodes d.

(** The three lists have length [n]. *)
Definition sized (n : nat) (d : Districts) : Prop :=
  length (district_populations d) = n
  /\ length (district_dem_votes d) = n
  /\ length (district_rep_votes d) = n.

(** The number of blocks of the city that [assignment] puts in
    [district]. *)
Definition blocks_in (d : Districts) (graph : City) (district : Z) : nat :=
  length (filter (fun k => assignment d !! k = Some district) graph.*1).

End GerrymanderedMap.

(** ** The short ensembles of real_data_simple.py and gerrymandering_detection.py *)

(** What [run_mcmc_ensemble] and [run_mcmc_analysis] print. *)
Inductive Line :=
| RunningMCMC (num_steps : Z)
    (* "Running MCMC ensemble ({num_steps} steps)..." / "Running MCMC analysis with
       {num_steps} steps...", and the line after it *)
| StepLine (step : Z)
    (* "Step {i + 1}/{num_steps}" / "Step {i + 1}: Generated {i + 1} alternative maps" *)
| EnsembleComplete.
    (* "Ensemble complete!" *)

(** [for i, x in enumerate(xs): state = body(i, x, state)], from index
    [i], for a body that cannot raise. *)
Fixpoint enumerate_fold {A S} (body : Z -> A -> S -> S) (i : Z) (xs : list A) (state : S)
  : S :=
  match xs with
  | [] => state
  | x :: xs' => enumerate_fold body (i + 1) xs' (body i x state)
  end.

Module RealDataSimpleEnsemble.
Section WithGerrychain.
Context `{Gerrychain}.

(** The body of the loop of [run_mcmc_ensemble] on [dem_wins_list] and
    the output. *)
Definition ensemble_step (i : Z) (partition : Partition) (state : list Z * list Line)
  : list Z * list Line :=
  let dem_wins_list := state.1 ++ [dem_wins partition] in
  (* if (i + 1) % 20 == 0: print(f"   Step {i + 1}/{num_steps}") *)
  (dem_wins_list, if (i + 1) mod 20 =? 0 then state.2 ++ [StepLine (i + 1)] else state.2).

(** [run_mcmc_ensemble]: the list it returns and what it prints. *)
Definition run_mcmc_ensemble (initial_partition : Partition) (num_steps : Z) (rng : Rng)
  : list Z * list Line :=
  let chain := {| proposal := propose_random_flip;
                  constraints := [single_flip_contiguous];
                  accept := fun _ _ => true;
                  initial_state := initial_partition;
                  total_steps := num_steps |} in
  let state := enumerate_fold ensemble_step 0 (chain_iter chain rng)
                              ([], [RunningMCMC num_steps]) in
  (state.1, state.2 ++ [EnsembleComplete]).
End WithGerrychain.
End RealDataSimpleEnsemble.

Module GerrymanderingDetectionEnsemble.
Section WithGerrychain.
Context `{Gerrychain}.

(** The body of the loop of [run_mcmc_analysis]; its inner loop counts
    the districts with [dem_votes > rep_votes]. *)
Definition analysis_step (i : Z) (partition : Partition) (state : list Z * list Line)
  : list Z * list Line :=
  let dem_wins_list := state.1 ++ [dem_wins partition] in
  (* if (i + 1) % 400 == 0: print(f"   Step {i + 1}: Generated {i + 1} alternative maps") *)
  (dem_wins_list, if (i + 1) mod 400 =? 0 then state.2 ++ [StepLine (i + 1)] else state.2).

(** [run_mcmc_analysis]: the list it returns and what it prints. *)
Definition run_mcmc_analysis (gerrymandered_partition : Partition) (num_steps : Z)
    (rng : Rng) : list Z * list Line :=
  let chain := {| proposal := propose_random_flip;
                  constraints := [single_flip_contiguous];
                  accept := fun _ _ => true;
                  initial_state := gerrymandered_partition;
                  total_steps := num_steps |} in
  enumerate_fold analysis_step 0 (chain_iter chain rng) ([], [RunningMCMC num_steps]).
End WithGerrychain.
End GerrymanderingDetectionEnsemble.

(** ** The column names of the shapefile *)

(** Column names are ASCII strings (dBase field names). *)

(** [c.upper()] on an ASCII character *)
Definition upper_ascii (c : Ascii.ascii) : Ascii.ascii :=
  let n := Ascii.N_of_ascii c in
  if ((97 <=? n) && (n <=? 122))%N then Ascii.ascii_of_N (n - 32) else c.

(** [s.upper()] *)
Fixpoint upper (s : string) : string :=
  match s with
  | EmptyString => EmptyString
  | String c s' => String (upper_ascii c) (upper s')
  end.

(** [sub in s] *)
Fixpoint contains (sub s : string) : bool :=
  String.prefix sub s
  || match s with
     | EmptyString => false
     | String _ s' => contains sub s'
     end.

(** [s.replace(old, new)] for a non-empty [old]: the occurrences of
    [old] are replaced from left to right, without overlap.  [skip] is
    the number of characters of an occurrence still to pass over. *)
Fixpoint replace_from (old new : string) (skip : nat) (s : string) : string :=
  match s with
  | EmptyString => EmptyString
  | String c s' =>
      match skip with
      | S skip' => replace_from old new skip' s'
      | O =>
          if String.prefix old s
          then new +:+ replace_from old new (String.length old - 1) s'
          else String c (replace_from old new 0 s')
      end
  end.

Definition replace (old new s : string) : string := replace_from old new 0 s.

(** The dictionary [result] with its keys ['population'], ['dem'] and
    ['rep']. *)
Record Columns := {
  population_column : option string;
  dem_column : option string;
  rep_column : option string
}.

(** The truth value of [result[key]]: [None] and the empty string are
    false. *)
Definition truthy (value : option string) : bool :=
  match value with
  | Some s => negb (String.eqb s "")
  | None => false
  end.

(** [for x in xs: ... return f(x)]: the first [x] at which the body of
    a loop returns, with what it returns; [None] when the loop ends. *)
Fixpoint first_return {A B} (f : A -> option B) (xs : list A) : option B :=
  match xs with
  | [] => None
  | x :: xs' => match f x with Some b => Some b | None => first_return f xs' end
  end.

(** The loop "Find population column". *)
Definition find_population (pop_candidates columns : list string) : option string :=
  head (filter (fun col => existsb (fun cand => contains cand (upper col)) pop_candidates)
               columns).


(** ** scripts/real_data/single_state_detection_v2.py, the columns *)
Module SingleStateV2Columns.

(** [result['dem'] = dem; result['rep'] = rep;
    return result if result['population'] or result['dem'] else None] *)
Definition return_result (result : Columns) (dem rep : string) : option Columns :=
  let result := {| population_column := population_column result;
                   dem_column := Some dem;
                   rep_column := Some rep |} in
  if truthy (population_column result) || truthy (dem_column result)
  then Some result else None.

(** "Strategy 1: Look for Biden/Trump"; [None] when the function goes
    on to the next strategy, [Some r] when it returns [r]. *)
Definition strategy_1 (result : Columns) (biden_cols trump_cols : list string)
  : option (option Columns) :=
  match biden_cols, trump_cols with
  | biden :: _, trump :: _ =>
      if bool_decide (biden <> trump) then
        let pres_biden := filter (fun c => contains "PRE" (upper c)) biden_cols in
        let pres_trump := filter (fun c => contains "PRE" (upper c)) trump_cols in
        match pres_biden, pres_trump with
        | pres_b :: _, pres_t :: _ =>
            if bool_decide (pres_b <> pres_t)
            then Some (return_result result pres_b pres_t)
            else Some (return_result result biden trump)
        | _, _ => Some (return_result result biden trump)
        end
      else None
  | _, _ => None
  end.

(** One of the two tests of "Strategy 2". *)
Definition strategy_2 (result : Columns) (dem_cols rep_cols : list string)
  : option (option Columns) :=
  match dem_cols, rep_cols with
  | dem :: _, rep :: _ =>
      if bool_decide (dem <> rep) then Some (return_result result dem rep) else None
  | _, _ => None
  end.

(** The loop over [rep_variant] of "Strategy 3". *)
Definition rep_variant_loop (result : Columns) (columns : list string) (col : string)
    (variants : list string) : option (option Columns) :=
  first_return
    (fun rep_variant =>
       if bool_decide (rep_variant ∈ columns) && bool_decide (rep_variant <> col)
       then Some (return_result result col rep_variant)
       else None)
    variants.

(** "Strategy 3: Generic pattern matching" *)
Definition strategy_3 (result : Columns) (columns : list string)
  : option (option Columns) :=
  first_return
    (fun election_type =>
       let type_cols := filter (fun c => contains election_type (upper c)) columns in
       first_return
         (fun col =>
            let col_upper := upper col in
            if contains "D" col_upper && negb (contains "DEM" col_upper)
            then rep_variant_loop result columns col
                   [replace "D" "R" col; replace "d" "r" col]
            else if contains "DEM" col_upper
            then rep_variant_loop result columns col
                   [replace "DEM" "REP" col; replace "Dem" "Rep" col;
                    replace "dem" "rep" col]
            else None)
         type_cols)
    ["PRES"; "PRE"; "SEN"; "USS"; "GOV"; "ATG"].

(** "Strategy 4: Look for any columns with DEM/REP or D/R that are
    paired" *)
Definition strategy_4 (result : Columns) (columns : list string)
  : option (option Columns) :=
  let dem_generic := filter (fun c => contains "DEM" (upper c)) columns in
  let rep_generic :=
    filter (fun c => contains "REP" (upper c) && negb (contains "GREP" (upper c)))
           columns in
  first_return
    (fun dem_col =>
       first_return
         (fun rep_col =>
            if bool_decide (dem_col <> rep_col) then
              let dem_base := replace "D" "" (replace "DEM" "" (upper dem_col)) in
              let rep_base := replace "R" "" (replace "REP" "" (upper rep_col)) in
              if String.eqb dem_base rep_base
                 || (3 <? String.length dem_base)%nat
                    && String.eqb (String.substring 0 3 dem_base)
                                  (String.substring 0 3 rep_base)
              then Some (return_result result dem_col rep_col)
              else None
            else None)
         rep_generic)
    dem_generic.

(** [detect_data_columns]; the graph is given by the keys of the data
    of each of its nodes, in the order of [graph.nodes()].  The warning
    it prints when there is no population column is left out. *)
Definition detect_data_columns (graph : list (list string)) : option Columns :=
  match graph with
  | [] => None
  | columns :: _ =>
      let pop_candidates :=
        ["TOTPOP"; "POP"; "POPULATION"; "TOT_POP"; "PERSONS"; "VAP"; "CVAP"] in
      let result := {| population_column := find_population pop_candidates columns;
                       dem_column := None;
                       rep_column := None |} in
      let biden_cols :=
        filter (fun c => contains "BID" (upper c) || contains "BIDEN" (upper c)) columns in
      let trump_cols :=
        filter (fun c => contains "TRU" (upper c) || contains "TRUMP" (upper c)) columns in
      match strategy_1 result biden_cols trump_cols with
      | Some returned => returned
      | None =>
      let clinton_cols :=
        filter (fun c => contains "CLIN" (upper c) || contains "HRC" (upper c)) columns in
      let obama_cols := filter (fun c => contains "OBA" (upper c)) columns in
      let romney_cols := filter (fun c => contains "ROM" (upper c)) columns in
      match strategy_2 result clinton_cols trump_cols with
      | Some returned => returned
      | None =>
      match strategy_2 result obama_cols romney_cols with
      | Some returned => returned
      | None =>
      match strategy_3 result columns with
      | Some returned => returned
      | None =>
      match strategy_4 result columns with
      | Some returned => returned
      | None => None
      end end end end end
  end.
End SingleStateV2Columns.

(** ** scripts/real_data/single_state_detection.py, the columns *)
Module SingleStateColumns.

(** [result['dem'] = dem; result['rep'] = rep;
    return result if result['population'] or result['dem'] else None] *)
Definition return_result (result : Columns) (dem rep : string) : option Columns :=
  let result := {| population_column := population_column result;
                   dem_column := Some dem;
                   rep_column := Some rep |} in
  if truthy (population_column result) || truthy (dem_column result)
  then Some result else None.

(** "Strategy 1: Look for Biden/Trump" *)
Definition strategy_1 (result : Columns) (biden_cols trump_cols : list string)
  : option (option Columns) :=
  match biden_cols, trump_cols with
  | biden :: _, trump :: _ =>
      let pres_biden := filter (fun c => contains "PRE" (upper c)) biden_cols in
      let pres_trump := filter (fun c => contains "PRE" (upper c)) trump_cols in
      match pres_biden, pres_trump with
      | pres_b :: _, pres_t :: _ => Some (return_result result pres_b pres_t)
      | _, _ => Some (return_result result biden trump)
      end
  | _, _ => None
  end.

(** One of the two tests of "Strategy 2", and the test of "Strategy 4". *)
Definition strategy_2 (result : Columns) (dem_cols rep_cols : list string)
  : option (option Columns) :=
  match dem_cols, rep_cols with
  | dem :: _, rep :: _ => Some (return_result result dem rep)
  | _, _ => None
  end.

(** The loop over [variant]: the first variant that is a column. *)
Definition rep_col_of (columns : list string) (dem_col : string) : option string :=
  head (filter (fun variant => variant ∈ columns)
               [replace "D" "R" dem_col; replace "d" "r" dem_col;
                replace "DEM" "REP" dem_col; replace "dem" "rep" dem_col]).

(** "Strategy 3: Generic pattern matching" *)
Definition strategy_3 (result : Columns) (columns : list string)
  : option (option Columns) :=
  first_return
    (fun election_type =>
       let dem_candidates :=
         filter (fun c => contains election_type (upper c) && contains "D" (upper c))
                columns in
       match dem_candidates with
       | dem_col :: _ =>
           let rep_col := rep_col_of columns dem_col in
           match rep_col with
           | Some rep => if truthy rep_col then Some (return_result result dem_col rep)
                         else None
           | None => None
           end
       | [] => None
       end)
    ["PRES"; "PRE"; "SEN"; "USS"; "GOV"; "ATG"].

(** [detect_data_columns]; the graph is given by the keys of the data
    of each of its nodes, in the order of [graph.nodes()].  The warning
    it prints when there is no population column is left out. *)
Definition detect_data_columns (graph : list (list string)) : option Columns :=
  match graph with
  | [] => None
  | columns :: _ =>
      let pop_candidates :=
        ["TOTPOP"; "POP"; "POPULATION"; "TOT_POP"; "PERSONS"; "VAP"; "CVAP"] in
      let result := {| population_column := find_population pop_candidates columns;
                       dem_column := None;
                       rep_column := None |} in
      let biden_cols :=
        filter (fun c => contains "BID" (upper c) || contains "BIDEN" (upper c)) columns in
      let trump_cols :=
        filter (fun c => contains "TRU" (upper c) || contains "TRUMP" (upper c)) columns in
      match strategy_1 result biden_cols trump_cols with
      | Some returned => returned
      | None =>
      let clinton_cols :=
        filter (fun c => contains "CLIN" (upper c) || contains "HRC" (upper c)) columns in
      let obama_cols := filter (fun c => contains "OBA" (upper c)) columns in
      let romney_cols := filter (fun c => contains "ROM" (upper c)) columns in
      match strategy_2 result clinton_cols trump_cols with
      | Some returned => returned
      | None =>
      match strategy_2 result obama_cols romney_cols with
      | Some returned => returned
      | None =>
      match strategy_3 result columns with
      | Some returned => returned
      | None =>
      let counted c :=
        existsb (fun x => contains x (upper c)) ["VOTE"; "TOTAL"; "COUNT"] in
      let dem_generic :=
        filter (fun c => contains "DEM" (upper c) && counted c) columns in
      let rep_generic :=
        filter (fun c => contains "REP" (upper c) && counted c) columns in
      match strategy_2 result dem_generic rep_generic with
      | Some returned => returned
      | None => None
      end end end end end
  end.
End SingleStateColumns.

(** ** scripts/real_data/multi_state_detection.py, the columns *)
Module MultiStateColumns.

(** The loop over [variant]: the first variant that is a column. *)
Definition rep_col_of (columns : list string) (dem_col : string) : option string :=
  head (filter (fun variant => variant ∈ columns)
               [replace "D" "R" dem_col; replace "d" "r" dem_col;
                replace "DEM" "REP" dem_col; replace "dem" "rep" dem_col]).

(** The loop over [election_type], left by [break] at the first type
    with a pair of columns: the pair. *)
Definition election_columns (columns : list string) : option (string * string) :=
  first_return
    (fun election_type =>
       let dem_candidates :=
         filter (fun c => contains election_type (upper c) && contains "D" (upper c))
                columns in
       match dem_candidates with
       | dem_col :: _ =>
           let rep_col := rep_col_of columns dem_col in
           match rep_col with
           | Some rep => if truthy rep_col then Some (dem_col, rep) else None
           | None => None
           end
       | [] => None
       end)
    ["PRES"; "SEN"; "GOV"; "USS"; "ATG"].

(** [detect_data_columns]; the graph is given by the keys of the data
    of each of its nodes, in the order of [graph.nodes()]. *)
Definition detect_data_columns (graph : list (list string)) : option Columns :=
  match graph with
  | [] => None
  | columns :: _ =>
      let pop_candidates := ["TOTPOP"; "POP"; "POPULATION"; "TOT_POP"; "PERSONS"] in
      let pair := election_columns columns in
      let result := {| population_column := find_population pop_candidates columns;
                       dem_column := fst <$> pair;
                       rep_column := snd <$> pair |} in
      (* return result if result['population'] and result['dem'] and result['rep']
         else None *)
      if truthy (population_column result) && truthy (dem_column result)
         && truthy (rep_column result)
      then Some result else None
  end.
End MultiStateColumns.

(** What a result of [detect_data_columns] should be: the two election
    columns are columns of the data and differ, and so is the
    population column when there is one. *)
Definition well_paired (columns : list string) (result : Columns) : Prop :=
  exists dem rep,
    dem_column result = Some dem
    /\ rep_column result = Some rep
    /\ dem <> rep
    /\ dem ∈ columns
    /\ rep ∈ columns
    /\ forall population, population_column result = Some population ->
                          population ∈ columns.


(** ** scripts/real_data/real_data_simple.py, the analysis of the enacted map *)
Module RealDataSimpleAnalysis.

(** What the block "Analysis" of [analyze_real_data] prints. *)
Inductive Finding :=
| SeatShareDiffers   (* "Seat share (...% DEM) differs significantly" ... *)
| Proportional.      (* "Seat and vote shares are relatively proportional" *)

(** The loop over [partition.parts.keys()] on
    [(dem_districts, rep_districts)]. *)
Definition count_districts (partition : Partition) : Z * Z :=
  fold_left
    (fun acc d =>
       if Qltb (rep_votes d) (dem_votes d) then (acc.1 + 1, acc.2) else (acc.1, acc.2 + 1))
    partition (0, 0).

(** [analyze_real_data]; the partition carries the tallies of the
    updaters ["pres16_dem"] and ["pres16_rep"] as [dem_votes] and
    [rep_votes].  Of its [print] statements the divisions they evaluate
    and the finding of the last block are kept. *)
Definition analyze_real_data (partition : Partition) : option Finding :=
  let total_dem := py_sum (map dem_votes partition) in
  let total_rep := py_sum (map rep_votes partition) in
  let total_votes := (total_dem + total_rep)%Q in
  dem_pct ← (r ← py_truediv total_dem total_votes; Some (r * 100)%Q);
  rep_pct ← (r ← py_truediv total_rep total_votes; Some (r * 100)%Q);
  let districts := count_districts partition in
  let dem_districts := districts.1 in
  let rep_districts := districts.2 in
  let total_districts := len partition in
  (* dem_districts/total_districts*100 and rep_districts/total_districts*100 *)
  dem_seats ← (r ← py_truediv (inject_Z dem_districts) (inject_Z total_districts);
               Some (r * 100)%Q);
  rep_seats ← (r ← py_truediv (inject_Z rep_districts) (inject_Z total_districts);
               Some (r * 100)%Q);
  let vote_share_diff := py_abs (dem_pct - 50) in
  let seat_share_diff := py_abs (dem_seats - 50) in
  if Qltb (vote_share_diff + 10) seat_share_diff
  then Some SeatShareDiffers
  else Some Proportional.
End RealDataSimpleAnalysis.


(** The progress messages of the ensemble loop. *)
Definition is_progress (e : Event) : Prop := exists pct, e = Progress pct.

(** ** Notions of the specification *)

(** The counts the midpoint rule speaks of: the ensemble values strictly
    below the enacted value, and those equal to it. *)
Definition count_strictly_below (l : list Z) (e : Z) : nat :=
  length (filter (fun x => x < e) l).

Definition count_equal (l : list Z) (e : Z) : nat :=
  length (filter (fun x => x = e) l).

(** [a < b] on numbers is decidable. *)
#[global] Instance Qlt_dec : RelDecision Qlt.
Proof.
  intros a b. destruct (Qlt_le_dec a b) as [Hlt|Hle]; [left; exact Hlt|right].
  apply Qle_not_lt. exact Hle.
Defined.

(** The votes of the party that carries the district and the two-party
    vote of the district. *)
Definition winner_votes (d : DistrictTally) : Q :=
  Qminmax.Qmax (dem_votes d) (rep_votes d).

Definition two_party_vote (d : DistrictTally) : Q :=
  (dem_votes d + rep_votes d)%Q.

(** All values of a non-empty ensemble are identical. *)
Definition degenerate (dem_wins_list : list Z) : Prop :=
  dem_wins_list <> [] /\ forall x y, x ∈ dem_wins_list -> y ∈ dem_wins_list -> x = y.

(** The keys of the dictionary that [analyze_state] of
    single_state_detection_v2.py returns, in order. *)
Definition result_keys : list string :=
  [ "state"; "precincts"; "num_districts"; "initial_dem_wins"; "dem_vote_share";
    "rep_vote_share"; "total_dem_votes"; "total_rep_votes"; "ensemble_mean";
    "ensemble_std"; "ensemble_min"; "ensemble_max"; "percentile"; "z_score";
    "is_gerrymandered"; "percentile_outlier"; "large_seats_votes_gap"; "has_packing";
    "large_seat_difference"; "ensemble_steps"; "histogram"; "seat_vote_gap_dem";
    "seat_vote_gap_rep" ].

(** [sum(histogram.values())] *)
Definition histogram_total (histogram : gmap Z Z) : Z :=
  map_fold (fun _ count acc => count + acc) 0 histogram.

(** The adjacency is symmetric, as networkx keeps it for an undirected
    graph: each neighbour of a node is a node that has it as a
    neighbour. *)
Definition symmetric_adjacency (graph : Graph) : Prop :=
  map_Forall (fun n nbrs => set_Forall (fun m => n ∈ default ∅ (graph !! m)) nbrs) graph.

(** The tallies of district [k] in the sampled partitions, in the order
    of the samples. *)
Definition sampled_tallies (k : Z) (partitions_sample : list Partition)
  : list DistrictTally :=
  filter (fun d => district d = k) (concat partitions_sample).

(** ** Example inputs *)

(** A gerrychain whose proposals never change the partition and whose
    constraints always hold. *)
Definition idle_gerrychain : Gerrychain :=
  {| Rng := unit;
     propose := fun _ rng partition => (partition, rng);
     holds := fun _ _ => true |}.

(** The same, on a partition that is not contiguous. *)
Definition island_gerrychain : Gerrychain :=
  {| Rng := unit;
     propose := fun _ rng partition => (partition, rng);
     holds := fun c _ => match c with contiguous => false | _ => true end |}.

(** Two districts of 100 voters each, one carried 60 to 40 by each party. *)
Definition two_districts : Partition :=
  [ {| district := 0; population := 100; dem_votes := 60; rep_votes := 40 |};
    {| district := 1; population := 100; dem_votes := 40; rep_votes := 60 |} ].

(** A district carried with 70% of the vote, and one where nobody voted. *)
Definition packed_district : DistrictTally :=
  {| district := 3; population := 100; dem_votes := 70; rep_votes := 30 |}.

Definition district_without_votes : DistrictTally :=
  {| district := 7; population := 100; dem_votes := 0; rep_votes := 0 |}.

(** Two adjacent nodes and an isolated one. *)
Definition island_graph : Graph :=
  <[1 := {[2]}]> (<[2 := {[1]}]> (<[3 := ∅]> ∅)).

(** Six blocks of ten inhabitants, from 80% Democratic to 20%. *)
Definition example_city : GerrymanderedMap.City :=
  [ (1, {| GerrymanderedMap.block_population := 10;
           GerrymanderedMap.block_dem_votes := 8;
           GerrymanderedMap.block_rep_votes := 2 |});
    (2, {| GerrymanderedMap.block_population := 10;
           GerrymanderedMap.block_dem_votes := 7;
           GerrymanderedMap.block_rep_votes := 3 |});
    (3, {| GerrymanderedMap.block_population := 10;
           GerrymanderedMap.block_dem_votes := 3;
           GerrymanderedMap.block_rep_votes := 7 |});
    (4, {| GerrymanderedMap.block_population := 10;
           GerrymanderedMap.block_dem_votes := 2;
           GerrymanderedMap.block_rep_votes := 8 |});
    (5, {| GerrymanderedMap.block_population := 10;
           GerrymanderedMap.block_dem_votes := 4;
           GerrymanderedMap.block_rep_votes := 6 |});
    (6, {| GerrymanderedMap.block_population := 10;
           GerrymanderedMap.block_dem_votes := 5;
           GerrymanderedMap.block_rep_votes := 5 |}) ].

(** ** Proof automation *)

(** Case analysis on a hypothesis [x ∈ l1 ++ [a; b] ++ ...]; the cases
    that equate different constructors or contradict a hypothesis go. *)
Ltac split_elem_of H :=
  repeat first
    [ apply elem_of_app in H as [H|H]
    | apply elem_of_cons in H as [H|H]; [try discriminate|]
    | apply elem_of_nil in H; destruct H ];
  try contradiction.

(** Unfolding the operations of [Run]. *)
Ltac run_unfold :=
  unfold try_except, mbind, Run_bind, run_bind, mret, Run_ret, run_ret, lift, print in *.

(** * Properties *)

(** ** Counting *)

Lemma sum_ones_acc {A} (p : A -> bool) (l : list A) (a : Z) :
  fold_left (fun acc x => if p x then acc + 1 else acc) l a
  = a + Z.of_nat (length (filter (fun x => p x = true) l)).
Proof.
  revert a. induction l as [|x l IH]; intros a; simpl.
  - lia.
  - rewrite IH. rewrite filter_cons. destruct (p x) eqn:E.
    + rewrite decide_True by done. simpl. lia.
    + rewrite decide_False by congruence. lia.
Qed.

Lemma sum_ones_filter {A} (p : A -> bool) (l : list A) :
  sum_ones p l = Z.of_nat (length (filter (fun x => p x = true) l)).
Proof. unfold sum_ones. rewrite sum_ones_acc. lia. Qed.

Lemma sum_ones_count {A} (p : A -> bool) (P : A -> Prop) `{!forall x, Decision (P x)}
    (l : list A) :
  (forall x, p x = true <-> P x) ->
  sum_ones p l = Z.of_nat (length (filter P l)).
Proof.
  intros Hp. rewrite sum_ones_filter. f_equal.
  induction l as [|x l IH]; [reflexivity|].
  rewrite !filter_cons.
  destruct (decide (p x = true)) as [Hx|Hx], (decide (P x)) as [HP|HP]; simpl;
    try (rewrite IH; reflexivity).
  - apply Hp in Hx. contradiction.
  - apply Hp in HP. contradiction.
Qed.

Lemma filter_length_mono {A} (P R : A -> Prop)
    `{!forall x, Decision (P x)} `{!forall x, Decision (R x)} (l : list A) :
  (forall x, P x -> R x) ->
  (length (filter P l) <= length (filter R l))%nat.
Proof.
  intros HPR. induction l as [|x l IH]; [reflexivity|].
  rewrite !filter_cons.
  destruct (decide (P x)) as [HP|HP], (decide (R x)) as [HR|HR]; simpl; try lia.
  exfalso. auto.
Qed.

Lemma filter_length_disjoint {A} (P R : A -> Prop)
    `{!forall x, Decision (P x)} `{!forall x, Decision (R x)} (l : list A) :
  (forall x, P x -> R x -> False) ->
  (length (filter P l) + length (filter R l) <= length l)%nat.
Proof.
  intros HPR. induction l as [|x l IH]; [reflexivity|].
  rewrite !filter_cons.
  destruct (decide (P x)) as [HP|HP], (decide (R x)) as [HR|HR]; simpl; try lia.
  exfalso. eauto.
Qed.

(** ** Python arithmetic *)

Lemma Qltb_lt (a b : Q) : Qltb a b = true <-> (a < b)%Q.
Proof.
  unfold Qltb. rewrite negb_true_iff, <- not_true_iff_false, Qle_bool_iff.
  split; [apply Qnot_le_lt | apply Qlt_not_le].
Qed.

Lemma Qltb_ge (a b : Q) : Qltb a b = false <-> (b <= a)%Q.
Proof. unfold Qltb. rewrite negb_false_iff. apply Qle_bool_iff. Qed.

Lemma py_truediv_Some (a b : Q) : ~ (b == 0)%Q -> py_truediv a b = Some (a / b)%Q.
Proof.
  intros Hb. unfold py_truediv.
  destruct (Qeq_bool b 0) eqn:E; [|reflexivity].
  apply Qeq_bool_iff in E. contradiction.
Qed.

Lemma py_truediv_None (a b : Q) : (b == 0)%Q -> py_truediv a b = None.
Proof.
  intros Hb. unfold py_truediv. apply Qeq_bool_iff in Hb. rewrite Hb. reflexivity.
Qed.

(** ** The percentile of the enacted value *)

Lemma below_initial_count (l : list Z) (e : Z) :
  below_initial l e = Z.of_nat (length (filter (fun x => x < e) l)).
Proof. apply sum_ones_count. intros x. apply Z.ltb_lt. Qed.

Lemma equal_initial_count (l : list Z) (e : Z) :
  equal_initial l e = Z.of_nat (length (filter (fun x => x = e) l)).
Proof. apply sum_ones_count. intros x. apply Z.eqb_eq. Qed.

(** C1. For a non-empty ensemble of N values and any enacted value, the
    computed percentile is (number of values strictly below the enacted
    one + 0.5 * number of values equal to it) / N * 100.  In particular,
    with enacted value 4 and an ensemble of 1000 values in which 4 occurs
    500 times and 3 occurs 500 times, the percentile is 75. *)
Theorem percentile_midpoint_rule (dem_wins_list : list Z) (initial_dem_wins : Z) :
  dem_wins_list <> [] ->
  exists p,
    percentile dem_wins_list initial_dem_wins = Some p
    /\ (p == (inject_Z (Z.of_nat (count_strictly_below dem_wins_list initial_dem_wins))
              + (1 # 2) * inject_Z (Z.of_nat (count_equal dem_wins_list initial_dem_wins)))
             / inject_Z (Z.of_nat (length dem_wins_list)) * 100)%Q
    /\ (initial_dem_wins = 4 ->
        length dem_wins_list = 1000%nat ->
        count_equal dem_wins_list 4 = 500%nat ->
        count_equal dem_wins_list 3 = 500%nat ->
        (p == 75)%Q).
Proof.
  intros Hne. unfold percentile.
  rewrite py_truediv_Some.
  2:{ unfold len. destruct dem_wins_list; [contradiction|].
      simpl length. rewrite Nat2Z.inj_succ. unfold Qeq. simpl. lia. }
  simpl. eexists. split; [reflexivity|].
  rewrite below_initial_count, equal_initial_count. unfold len.
  fold (count_strictly_below dem_wins_list initial_dem_wins).
  fold (count_equal dem_wins_list initial_dem_wins).
  split; [reflexivity|].
  intros -> Hlen H4 H3.
  assert (Hlo : (count_equal dem_wins_list 3 <= count_strictly_below dem_wins_list 4)%nat)
    by (apply filter_length_mono; intros x; lia).
  assert (Hhi : (count_strictly_below dem_wins_list 4 + count_equal dem_wins_list 4
                 <= length dem_wins_list)%nat)
    by (apply filter_length_disjoint; intros x; lia).
  assert (Hb : count_strictly_below dem_wins_list 4 = 500%nat) by lia.
  rewrite Hb, H4, Hlen. reflexivity.
Qed.

Lemma percentile_midpoint_rule_witness :
  exists p, percentile (replicate 500 4 ++ replicate 500 3) 4 = Some p /\ (p == 75)%Q.
Proof.
  destruct (percentile_midpoint_rule (replicate 500 4 ++ replicate 500 3) 4)
    as (p & Hp & _ & H75).
  - discriminate.
  - exists p. split; [exact Hp|]. apply H75; reflexivity.
Defined.

(** ** The outlier flag *)

Lemma is_outlier_single_state (p : Q) :
  SingleState.is_outlier p = true <-> (p < 5 \/ 100 - 5 < p)%Q.
Proof.
  unfold SingleState.is_outlier. rewrite orb_true_iff, !Qltb_lt.
  split; (intros [H|H]; [left; exact H | right; lra]).
Qed.

Lemma is_outlier_multi_state (p : Q) :
  MultiState.is_outlier p = true <-> (p < 5 \/ 100 - 5 < p)%Q.
Proof. apply is_outlier_single_state. Qed.

(** C3, as the code has it.  In single_state_detection.py and
    multi_state_detection.py the outlier flag is true exactly when the
    percentile is strictly below 5 or strictly above 100 - 5.  In
    single_state_detection_v2.py it is true exactly when the percentile
    is strictly below OUTLIER_THRESHOLD or strictly above
    100 - OUTLIER_THRESHOLD, and that constant is 10. *)
Theorem outlier_flag_thresholds (p : Q) :
  (SingleState.is_outlier p = true <-> (p < 5 \/ 100 - 5 < p)%Q)
  /\ (MultiState.is_outlier p = true <-> (p < 5 \/ 100 - 5 < p)%Q)
  /\ (SingleStateV2.percentile_outlier p = true
      <-> (p < SingleStateV2.OUTLIER_THRESHOLD \/ 100 - SingleStateV2.OUTLIER_THRESHOLD < p)%Q)
  /\ (SingleStateV2.OUTLIER_THRESHOLD == 10)%Q.
Proof.
  split; [apply is_outlier_single_state|].
  split; [apply is_outlier_multi_state|].
  split; [|reflexivity].
  unfold SingleStateV2.percentile_outlier. rewrite orb_true_iff, !Qltb_lt. reflexivity.
Qed.

(** C3 as stated fails for single_state_detection_v2.py: a percentile of
    7 is flagged there, although it is neither below 5 nor above 95. *)
Lemma outlier_flag_default_5_counterexample :
  SingleStateV2.percentile_outlier 7 = true /\ ~ (7 < 5 \/ 100 - 5 < 7)%Q.
Proof.
  split; [reflexivity|]. intros [H|H]; lra.
Qed.

(** ** The z-score *)

(** C5. With ensemble mean m and standard deviation s, the z-score of the
    enacted value e is (e - m) / s when s > 0 and 0 when s = 0, in
    single_state_detection.py and in single_state_detection_v2.py. *)
Theorem z_score_formula (initial_dem_wins : Z) (mean_dem std_dem : Q) :
  ((0 < std_dem)%Q ->
   SingleState.z_score initial_dem_wins mean_dem std_dem
   = Some ((inject_Z initial_dem_wins - mean_dem) / std_dem)%Q
   /\ SingleStateV2.z_score initial_dem_wins mean_dem std_dem
      = Some ((inject_Z initial_dem_wins - mean_dem) / std_dem)%Q)
  /\ ((std_dem == 0)%Q ->
      SingleState.z_score initial_dem_wins mean_dem std_dem = Some 0%Q
      /\ SingleStateV2.z_score initial_dem_wins mean_dem std_dem = Some 0%Q).
Proof.
  unfold SingleState.z_score, SingleStateV2.z_score. split.
  - intros Hs. assert (Hlt : Qltb 0 std_dem = true) by (apply Qltb_lt; exact Hs).
    rewrite Hlt. rewrite py_truediv_Some by lra. split; reflexivity.
  - intros Hs. assert (Hlt : Qltb 0 std_dem = false) by (apply Qltb_ge; lra).
    rewrite Hlt. split; reflexivity.
Qed.

(** ** District winners *)

Lemma winner_of_DEM (dem rep : Q) : winner_of dem rep = DEM <-> (rep < dem)%Q.
Proof.
  unfold winner_of. destruct (Qltb rep dem) eqn:E.
  - apply Qltb_lt in E. split; [intros _; exact E | reflexivity].
  - apply Qltb_ge in E. split; [discriminate | intros Hlt; lra].
Qed.

Lemma winner_of_REP (dem rep : Q) : winner_of dem rep = REP <-> (dem <= rep)%Q.
Proof.
  unfold winner_of. destruct (Qltb rep dem) eqn:E.
  - apply Qltb_lt in E. split; [discriminate | intros Hle; lra].
  - apply Qltb_ge in E. split; [intros _; exact E | reflexivity].
Qed.

Lemma dem_wins_count (partition : Partition) :
  dem_wins partition
  = Z.of_nat (length (filter (fun d => (rep_votes d < dem_votes d)%Q) partition)).
Proof. apply sum_ones_count. intros d. apply Qltb_lt. Qed.

Lemma create_fair_districts_acc (partition : Partition) (printed : list (Z * Party)) (n : Z) :
  fold_left
    (fun acc d =>
       let dem := dem_votes d in
       let rep := rep_votes d in
       let winner := winner_of dem rep in
       let dem_wins := if Qltb rep dem then acc.2 + 1 else acc.2 in
       (acc.1 ++ [(district d, winner)], dem_wins))
    partition (printed, n)
  = (printed ++ map (fun d => (district d, winner_of (dem_votes d) (rep_votes d))) partition,
     fold_left (fun acc d => if Qltb (rep_votes d) (dem_votes d) then acc + 1 else acc)
               partition n).
Proof.
  revert printed n. induction partition as [|d l IH]; intros printed n; simpl.
  - rewrite app_nil_r. reflexivity.
  - rewrite IH. rewrite <- app_assoc. reflexivity.
Qed.

Lemma create_fair_districts_spec (partition : Partition) :
  GerrymanderingDetection.create_fair_districts partition
  = (map (fun d => (district d, winner_of (dem_votes d) (rep_votes d))) partition,
     dem_wins partition).
Proof.
  unfold GerrymanderingDetection.create_fair_districts.
  rewrite create_fair_districts_acc. reflexivity.
Qed.

(** ** Per-district statistics (single_state_detection_v2.py) *)

Import SingleStateV2.

Lemma district_statistics_total (d : DistrictTally) :
  exists s,
    district_statistics d = Some s
    /\ st_district s = district d
    /\ st_dem_votes s = dem_votes d
    /\ st_rep_votes s = rep_votes d
    /\ st_total_votes s = two_party_vote d
    /\ st_winner s = winner_of (dem_votes d) (rep_votes d)
    /\ ((0 < two_party_vote d)%Q ->
        (st_dem_pct s == dem_votes d / two_party_vote d * 100)%Q
        /\ (st_rep_pct s == rep_votes d / two_party_vote d * 100)%Q
        /\ (st_margin_pct s == Qabs (dem_votes d - rep_votes d) / two_party_vote d * 100)%Q)
    /\ (~ (0 < two_party_vote d)%Q ->
        st_dem_pct s = 0%Q /\ st_rep_pct s = 0%Q /\ st_margin_pct s = 0%Q).
Proof.
  unfold district_statistics, two_party_vote.
  destruct (Qltb 0 (dem_votes d + rep_votes d)) eqn:E.
  - apply Qltb_lt in E.
    rewrite !py_truediv_Some by lra. simpl.
    eexists. split; [reflexivity|]. simpl.
    repeat (split; [reflexivity|]).
    split; [intros _; repeat split; reflexivity | intros Hn; contradiction].
  - apply Qltb_ge in E. simpl.
    eexists. split; [reflexivity|]. simpl.
    repeat (split; [reflexivity|]).
    split; [intros Hp; lra | intros _; repeat split; reflexivity].
Qed.

Lemma Forall2_elem_of_l {A B} (R : A -> B -> Prop) (l : list A) (k : list B) (x : A) :
  Forall2 R l k -> x ∈ l -> exists y, y ∈ k /\ R x y.
Proof.
  induction 1 as [|a b l k Hab _ IH]; intros Hx.
  - apply elem_of_nil in Hx. contradiction.
  - apply elem_of_cons in Hx as [->|Hx].
    + exists b. split; [left | exact Hab].
    + destruct (IH Hx) as (y & Hy & HR). exists y. split; [right; exact Hy | exact HR].
Qed.

Lemma Forall2_elem_of_r {A B} (R : A -> B -> Prop) (l : list A) (k : list B) (y : B) :
  Forall2 R l k -> y ∈ k -> exists x, x ∈ l /\ R x y.
Proof.
  induction 1 as [|a b l k Hab _ IH]; intros Hy.
  - apply elem_of_nil in Hy. contradiction.
  - apply elem_of_cons in Hy as [->|Hy].
    + exists a. split; [left | exact Hab].
    + destruct (IH Hy) as (x & Hx & HR). exists x. split; [right; exact Hx | exact HR].
Qed.

Lemma elem_of_sorted_by_district (partition : Partition) (d : DistrictTally) :
  d ∈ sorted_by_district partition <-> d ∈ partition.
Proof. unfold sorted_by_district. rewrite merge_sort_Permutation. reflexivity. Qed.

(** [get_district_statistics] never raises; its entries are those of the
    districts of the partition, one each. *)
Lemma get_district_statistics_total (partition : Partition) :
  exists stats,
    get_district_statistics partition = Some stats
    /\ (forall d, d ∈ partition -> exists s, s ∈ stats /\ district_statistics d = Some s)
    /\ (forall s, s ∈ stats -> exists d, d ∈ partition /\ district_statistics d = Some s).
Proof.
  unfold get_district_statistics.
  destruct (mapM district_statistics (sorted_by_district partition)) as [stats|] eqn:E.
  - exists stats. split; [reflexivity|].
    apply mapM_Some_1 in E.
    split.
    + intros d Hd. apply elem_of_sorted_by_district in Hd.
      apply (Forall2_elem_of_l _ _ _ _ E Hd).
    + intros s Hs. destruct (Forall2_elem_of_r _ _ _ _ E Hs) as (d & Hd & HR).
      exists d. split; [apply elem_of_sorted_by_district; exact Hd | exact HR].
  - exfalso.
    assert (Hs : is_Some (mapM district_statistics (sorted_by_district partition))).
    { apply mapM_is_Some_2. apply Forall_forall. intros d _.
      destruct (district_statistics_total d) as (s & Hs & _). exists s. exact Hs. }
    rewrite E in Hs. destruct Hs as [? Hs]. discriminate.
Qed.

(** ** The packing flag *)

Lemma has_packing_exists (stats : list DistrictStats) :
  has_packing stats = true
  <-> exists s, s ∈ stats
        /\ ((65 < st_dem_pct s)%Q /\ st_winner s = DEM
            \/ (65 < st_rep_pct s)%Q /\ st_winner s = REP).
Proof.
  unfold has_packing, dem_packing, rep_packing.
  rewrite orb_true_iff, !existsb_exists. split.
  - intros [(s & Hin & Hs)|(s & Hin & Hs)]; exists s;
      (split; [apply list_elem_of_In; exact Hin|]);
      apply andb_true_iff in Hs as [Hp Hw]; apply Qltb_lt in Hp;
      destruct (st_winner s); try discriminate; auto.
  - intros (s & Hin & [[Hp Hw]|[Hp Hw]]); [left|right]; exists s;
      (split; [apply list_elem_of_In; exact Hin|]);
      rewrite Hw; apply Qltb_lt in Hp; rewrite Hp; reflexivity.
Qed.

Lemma district_packed_iff (d : DistrictTally) (s : DistrictStats) :
  district_statistics d = Some s ->
  ((65 < st_dem_pct s)%Q /\ st_winner s = DEM
   \/ (65 < st_rep_pct s)%Q /\ st_winner s = REP)
  <-> (0 < two_party_vote d)%Q /\ (65 < winner_votes d / two_party_vote d * 100)%Q.
Proof.
  intros Hs.
  destruct (district_statistics_total d) as (s' & Hs' & _ & _ & _ & _ & Hw & Hpos & Hzero).
  rewrite Hs in Hs'. injection Hs' as <-.
  unfold winner_votes.
  destruct (Qlt_le_dec 0 (two_party_vote d)) as [Ht|Ht].
  - destruct (Hpos Ht) as (Hd & Hr & _). rewrite Hd, Hr, Hw.
    destruct (Qlt_le_dec (rep_votes d) (dem_votes d)) as [Hlt|Hle].
    + assert (Hwin : winner_of (dem_votes d) (rep_votes d) = DEM) by (apply winner_of_DEM; exact Hlt).
      rewrite Hwin, (Q.max_l (dem_votes d) (rep_votes d)) by lra.
      split.
      * intros [[Hp _]|[_ Hx]]; [split; assumption | discriminate].
      * intros [_ Hp]. left. split; [exact Hp | reflexivity].
    + assert (Hwin : winner_of (dem_votes d) (rep_votes d) = REP) by (apply winner_of_REP; exact Hle).
      rewrite Hwin, (Q.max_r (dem_votes d) (rep_votes d)) by lra.
      split.
      * intros [[_ Hx]|[Hp _]]; [discriminate | split; assumption].
      * intros [_ Hp]. right. split; [exact Hp | reflexivity].
  - destruct Hzero as (Hd & Hr & _); [lra|]. rewrite Hd, Hr.
    split.
    + intros [[Hp _]|[Hp _]]; lra.
    + intros [Hp _]. lra.
Qed.

(** C7. The packing flag of the enacted partition is true exactly when
    some district exists whose winning party holds strictly more than
    65% of that district's two-party vote. *)
Theorem has_packing_iff (partition : Partition) :
  exists initial_district_stats,
    get_district_statistics partition = Some initial_district_stats
    /\ (has_packing initial_district_stats = true
        <-> exists d, d ∈ partition
              /\ (0 < two_party_vote d)%Q
              /\ (65 < winner_votes d / two_party_vote d * 100)%Q).
Proof.
  destruct (get_district_statistics_total partition) as (stats & Hstats & Hfwd & Hbwd).
  exists stats. split; [exact Hstats|].
  rewrite has_packing_exists. split.
  - intros (s & Hin & Hs). destruct (Hbwd s Hin) as (d & Hd & Hds).
    exists d. split; [exact Hd|]. apply (district_packed_iff d s Hds). exact Hs.
  - intros (d & Hd & Hp). destruct (Hfwd d Hd) as (s & Hin & Hds).
    exists s. split; [exact Hin|]. apply (district_packed_iff d s Hds). exact Hp.
Qed.

(** C9. The winner of a district is decided by a strict comparison: the
    Democratic seat tally counts exactly the districts whose Democratic
    votes strictly exceed the Republican votes, the label DEM is given
    exactly to those, and a district with tied totals is labelled REP and
    adds nothing to the tally (in [create_fair_districts], in the
    ensemble loops and in [get_district_statistics]). *)
Theorem winner_is_strict_comparison (partition : Partition) (d : DistrictTally) :
  dem_wins partition
  = Z.of_nat (length (filter (fun d => (rep_votes d < dem_votes d)%Q) partition))
  /\ GerrymanderingDetection.create_fair_districts partition
     = (map (fun d => (district d, winner_of (dem_votes d) (rep_votes d))) partition,
        dem_wins partition)
  /\ (winner_of (dem_votes d) (rep_votes d) = DEM <-> (rep_votes d < dem_votes d)%Q)
  /\ (exists s, district_statistics d = Some s
                /\ st_winner s = winner_of (dem_votes d) (rep_votes d))
  /\ ((dem_votes d == rep_votes d)%Q ->
      winner_of (dem_votes d) (rep_votes d) = REP
      /\ forall l1 l2 : Partition, dem_wins (l1 ++ d :: l2) = dem_wins (l1 ++ l2)).
Proof.
  split; [apply dem_wins_count|].
  split; [apply create_fair_districts_spec|].
  split; [apply winner_of_DEM|].
  split.
  { destruct (district_statistics_total d) as (s & Hs & _ & _ & _ & _ & Hw & _).
    exists s. split; assumption. }
  intros Htie. split; [apply winner_of_REP; lra|].
  intros l1 l2. rewrite !dem_wins_count, !filter_app, filter_cons.
  rewrite decide_False by lra. reflexivity.
Qed.

Lemma winner_is_strict_comparison_witness :
  let tied := {| district := 2; population := 10; dem_votes := 50; rep_votes := 50 |} in
  let blue := {| district := 1; population := 10; dem_votes := 60; rep_votes := 40 |} in
  winner_of 50 50 = REP /\ dem_wins [blue; tied] = dem_wins [blue].
Proof.
  intros tied blue.
  destruct (winner_is_strict_comparison [blue; tied] tied) as (_ & _ & _ & _ & Htie).
  destruct Htie as [Hw Hc]; [reflexivity|].
  split; [exact Hw | exact (Hc [blue] [])].
Defined.

(** ** Percentages of districts without votes *)

Lemma average_statistics_total (entry : Z * Samples) :
  exists s,
    average_statistics entry = Some s
    /\ st_district s = entry.1
    /\ st_total_votes s
       = (np_mean (s_dem_votes entry.2) + np_mean (s_rep_votes entry.2))%Q
    /\ (~ (0 < st_total_votes s)%Q ->
        st_dem_pct s = 0%Q /\ st_rep_pct s = 0%Q /\ st_margin_pct s = 0%Q).
Proof.
  unfold average_statistics.
  destruct (Qltb 0 (np_mean (s_dem_votes entry.2) + np_mean (s_rep_votes entry.2))) eqn:E.
  - apply Qltb_lt in E. rewrite !py_truediv_Some by lra. simpl.
    eexists. split; [reflexivity|]. simpl.
    split; [reflexivity|]. split; [reflexivity|]. intros Hn. contradiction.
  - simpl. eexists. split; [reflexivity|]. simpl.
    split; [reflexivity|]. split; [reflexivity|]. intros _. repeat split; reflexivity.
Qed.

Lemma calculate_ensemble_average_map_total (partitions_sample : list Partition) :
  exists r,
    calculate_ensemble_average_map partitions_sample = Some r
    /\ (partitions_sample = [] -> r = None)
    /\ (partitions_sample <> [] ->
        exists result,
          r = Some result
          /\ forall s, s ∈ result ->
               exists entry, entry ∈ map_to_list (collect_samples partitions_sample)
                             /\ average_statistics entry = Some s).
Proof.
  destruct partitions_sample as [|p ps].
  - exists None. split; [reflexivity|]. split; [intros _; reflexivity|].
    intros Hne. contradiction.
  - unfold calculate_ensemble_average_map.
    set (entries := merge_sort key_le (map_to_list (collect_samples (p :: ps)))).
    destruct (mapM average_statistics entries) as [result|] eqn:E.
    + exists (Some result). split; [reflexivity|]. split; [discriminate|].
      intros _. exists result. split; [reflexivity|].
      intros s Hs. apply mapM_Some_1 in E.
      destruct (Forall2_elem_of_r _ _ _ _ E Hs) as (entry & Hentry & HR).
      exists entry. split; [|exact HR].
      unfold entries in Hentry. rewrite merge_sort_Permutation in Hentry. exact Hentry.
    + exfalso.
      assert (Hs : is_Some (mapM average_statistics entries)).
      { apply mapM_is_Some_2. apply Forall_forall. intros entry _.
        destruct (average_statistics_total entry) as (s & Hs & _). exists s. exact Hs. }
      rewrite E in Hs. destruct Hs as [? Hs]. discriminate.
Qed.

(** ** Isolated nodes *)

Lemma degree_zero_neighbours (graph : Graph) (n : Z) :
  degree graph n = 0 -> default ∅ (graph !! n) = (∅ : gset Z).
Proof.
  unfold degree. intros Hd.
  apply leibniz_equiv, size_empty_iff.
  destruct (bool_decide (n ∈ default ∅ (graph !! n))); lia.
Qed.

Lemma remove_node_isolated (graph : Graph) (n : Z) :
  degree graph n = 0 -> remove_node graph n = delete n graph.
Proof.
  intros Hd. apply degree_zero_neighbours in Hd. unfold remove_node.
  destruct (graph !! n) as [nbrs|] eqn:E; simpl in Hd.
  - subst nbrs. rewrite set_fold_empty. reflexivity.
  - symmetry. apply delete_id. exact E.
Qed.

Lemma degree_delete_ne (graph : Graph) (n m : Z) :
  n <> m -> degree (delete n graph) m = degree graph m.
Proof. intros Hne. unfold degree. rewrite lookup_delete_ne by exact Hne. reflexivity. Qed.

Lemma degree_delete_zero (graph : Graph) (n m : Z) :
  degree graph m = 0 -> degree (delete n graph) m = 0.
Proof.
  intros Hd. destruct (decide (n = m)) as [->|Hne].
  - unfold degree. rewrite lookup_delete_eq. reflexivity.
  - rewrite degree_delete_ne by exact Hne. exact Hd.
Qed.

Lemma remove_isolated_lookup (ns : list Z) (graph : Graph) (m : Z) :
  Forall (fun n => degree graph n = 0) ns ->
  remove_nodes_from graph ns !! m = if bool_decide (m ∈ ns) then None else graph !! m.
Proof.
  unfold remove_nodes_from. revert graph.
  induction ns as [|n ns IH]; intros graph Hall; cbn [fold_left].
  - rewrite bool_decide_eq_false_2 by apply not_elem_of_nil. reflexivity.
  - apply Forall_cons in Hall as [Hn Hns].
    rewrite remove_node_isolated by exact Hn.
    rewrite IH.
    2:{ eapply Forall_impl; [exact Hns|]. intros k Hk. apply degree_delete_zero. exact Hk. }
    destruct (decide (m = n)) as [->|Hne].
    + rewrite (bool_decide_eq_true_2 (n ∈ n :: ns)) by left.
      rewrite lookup_delete_eq. destruct (bool_decide (n ∈ ns)); reflexivity.
    + rewrite lookup_delete_ne by congruence.
      destruct (decide (m ∈ ns)) as [Hin|Hin].
      * rewrite !bool_decide_eq_true_2; [reflexivity | right; exact Hin | exact Hin].
      * rewrite !bool_decide_eq_false_2; [reflexivity | | exact Hin].
        intros Hc. apply elem_of_cons in Hc as [?|?]; contradiction.
Qed.

Lemma elem_of_nodes (graph : Graph) (n : Z) : n ∈ nodes graph <-> is_Some (graph !! n).
Proof.
  unfold nodes. rewrite list_elem_of_fmap. split.
  - intros ([k v] & -> & Hin). apply elem_of_map_to_list in Hin. exists v. exact Hin.
  - intros [v Hv]. exists (n, v). split; [reflexivity|]. apply elem_of_map_to_list. exact Hv.
Qed.

Lemma elem_of_isolated_nodes (graph : Graph) (n : Z) :
  n ∈ isolated_nodes graph <-> n ∈ nodes graph /\ degree graph n = 0.
Proof. unfold isolated_nodes. rewrite list_elem_of_filter. tauto. Qed.

(** Removing the isolated nodes leaves exactly the nodes that have a
    neighbour, each with the neighbours it had. *)
Lemma remove_isolated_nodes_lookup (graph : Graph) (m : Z) :
  remove_nodes_from graph (isolated_nodes graph) !! m
  = if bool_decide (degree graph m = 0) then None else graph !! m.
Proof.
  rewrite remove_isolated_lookup.
  2:{ apply Forall_forall. intros n Hn. apply elem_of_isolated_nodes in Hn. tauto. }
  destruct (decide (degree graph m = 0)) as [Hd|Hd].
  - rewrite (bool_decide_eq_true_2 _ Hd).
    destruct (bool_decide (m ∈ isolated_nodes graph)) eqn:E; [reflexivity|].
    apply bool_decide_eq_false in E.
    destruct (graph !! m) as [v|] eqn:Hm; [|reflexivity].
    exfalso. apply E. apply elem_of_isolated_nodes. split; [|exact Hd].
    apply elem_of_nodes. exists v. exact Hm.
  - rewrite (bool_decide_eq_false_2 _ Hd).
    rewrite bool_decide_eq_false_2; [reflexivity|].
    intros Hin. apply elem_of_isolated_nodes in Hin. tauto.
Qed.

Lemma remove_isolated_nodes_clean (graph : Graph) :
  let graph' := remove_nodes_from graph (isolated_nodes graph) in
  (forall node, node ∈ nodes graph' -> degree graph' node <> 0)
  /\ (forall node, node ∈ nodes graph -> degree graph node = 0 -> node ∉ nodes graph')
  /\ (forall node, node ∈ nodes graph -> degree graph node <> 0 ->
        node ∈ nodes graph' /\ graph' !! node = graph !! node).
Proof.
  intros graph'. subst graph'. split; [|split].
  - intros node Hin. apply elem_of_nodes in Hin.
    rewrite remove_isolated_nodes_lookup in Hin.
    unfold degree at 1. rewrite remove_isolated_nodes_lookup.
    destruct (bool_decide (degree graph node = 0)) eqn:E.
    + destruct Hin as [? Hin]. discriminate.
    + apply bool_decide_eq_false in E. exact E.
  - intros node _ Hd Hin. apply elem_of_nodes in Hin.
    rewrite remove_isolated_nodes_lookup, (bool_decide_eq_true_2 _ Hd) in Hin.
    destruct Hin as [? Hin]. discriminate.
  - intros node Hin Hd.
    assert (Hl : remove_nodes_from graph (isolated_nodes graph) !! node = graph !! node).
    { rewrite remove_isolated_nodes_lookup, (bool_decide_eq_false_2 _ Hd). reflexivity. }
    split; [|exact Hl]. apply elem_of_nodes. rewrite Hl. apply elem_of_nodes. exact Hin.
Qed.

Lemma single_state_load_graph (from_file : option Graph) (out : list Event) (graph : Graph) :
  (SingleState.load_state_data from_file out).1 = Some graph ->
  exists input,
    from_file = Some input /\ graph = remove_nodes_from input (isolated_nodes input).
Proof.
  unfold SingleState.load_state_data. run_unfold.
  destruct from_file as [input|]; simpl; [|discriminate].
  intros Hg. exists input. split; [reflexivity|].
  destruct (bool_decide (isolated_nodes input = [])) eqn:E; simpl in Hg.
  - apply bool_decide_eq_true in E. rewrite E. simpl. congruence.
  - congruence.
Qed.

Lemma single_state_v2_load_graph (from_file : option Graph) (out : list Event)
    (graph : Graph) :
  (SingleStateV2.load_state_data from_file out).1 = Some graph ->
  exists input,
    from_file = Some input /\ graph = remove_nodes_from input (isolated_nodes input).
Proof. apply single_state_load_graph. Qed.

Lemma multi_state_load_graph (from_file : option Graph) (out : list Event) (graph : Graph) :
  (MultiState.load_state_data from_file out).1 = Some graph ->
  exists input,
    from_file = Some input /\ graph = remove_nodes_from input (isolated_nodes input).
Proof.
  unfold MultiState.load_state_data. run_unfold.
  destruct from_file as [input|]; simpl; [|discriminate].
  intros Hg. exists input. split; [reflexivity|].
  destruct (bool_decide (isolated_nodes input = [])) eqn:E; simpl in Hg.
  - apply bool_decide_eq_true in E. rewrite E. simpl. congruence.
  - congruence.
Qed.

Lemma real_data_simple_load_graph (from_file : option Graph) (out : list Event)
    (graph : Graph) :
  (RealDataSimple.load_real_data from_file out).1 = Some graph ->
  exists input,
    from_file = Some input /\ graph = remove_nodes_from input (isolated_nodes input).
Proof.
  unfold RealDataSimple.load_real_data. run_unfold.
  destruct from_file as [input|]; simpl; [|discriminate].
  intros Hg. exists input. split; [reflexivity|].
  destruct (bool_decide (isolated_nodes input = [])) eqn:E; simpl in Hg.
  - apply bool_decide_eq_true in E. rewrite E. simpl.
    destruct (head (nodes input)); simpl in Hg; congruence.
  - destruct (head (nodes (remove_nodes_from input (isolated_nodes input))));
      simpl in Hg; congruence.
Qed.

(** The loaders of the detection scripts give a graph whenever the file
    could be read. *)
Lemma load_state_data_returns (input : Graph) (out : list Event) :
  (SingleState.load_state_data (Some input) out).1
  = Some (remove_nodes_from input (isolated_nodes input))
  /\ (MultiState.load_state_data (Some input) out).1
     = Some (remove_nodes_from input (isolated_nodes input)).
Proof.
  unfold SingleState.load_state_data, MultiState.load_state_data. run_unfold. simpl.
  destruct (bool_decide (isolated_nodes input = [])) eqn:E; simpl.
  - apply bool_decide_eq_true in E. rewrite E. split; reflexivity.
  - split; reflexivity.
Qed.

(** C8. A graph returned by a data loader ([load_state_data] of the
    detection scripts, [load_real_data]) has no node of degree zero:
    every isolated node of the graph read from the file is gone, and the
    other nodes are kept with their neighbours. *)
Theorem loaded_graph_has_no_isolated_nodes (from_file : option Graph) (out : list Event)
    (graph : Graph) :
  (SingleState.load_state_data from_file out).1 = Some graph
  \/ (SingleStateV2.load_state_data from_file out).1 = Some graph
  \/ (MultiState.load_state_data from_file out).1 = Some graph
  \/ (RealDataSimple.load_real_data from_file out).1 = Some graph ->
  (forall node, node ∈ nodes graph -> degree graph node <> 0)
  /\ exists input,
       from_file = Some input
       /\ (forall node, node ∈ nodes input -> degree input node = 0 -> node ∉ nodes graph)
       /\ (forall node, node ∈ nodes input -> degree input node <> 0 ->
             node ∈ nodes graph /\ graph !! node = input !! node).
Proof.
  intros Hload.
  assert (Hg : exists input,
             from_file = Some input
             /\ graph = remove_nodes_from input (isolated_nodes input)).
  { destruct Hload as [Hl|[Hl|[Hl|Hl]]].
    - apply (single_state_load_graph _ _ _ Hl).
    - apply (single_state_v2_load_graph _ _ _ Hl).
    - apply (multi_state_load_graph _ _ _ Hl).
    - apply (real_data_simple_load_graph _ _ _ Hl). }
  destruct Hg as (input & Hfile & ->).
  destruct (remove_isolated_nodes_clean input) as (Hclean & Hgone & Hkept).
  split; [exact Hclean|].
  exists input. split; [exact Hfile|]. split; assumption.
Qed.

(** ** The ensemble loop *)

Section EnsembleLoop.
Context `{Gerrychain}.

Lemma chain_outputs_length (chain : MarkovChain) (n : nat) (current : Partition)
    (rng : Rng) :
  length (chain_outputs chain n current rng) = n.
Proof.
  revert current rng. induction n as [|n IH]; intros current rng; simpl.
  - reflexivity.
  - destruct (chain_step chain current rng) as [next rng']. simpl. rewrite IH. reflexivity.
Qed.

Lemma chain_iter_length (chain : MarkovChain) (rng : Rng) :
  0 <= total_steps chain ->
  len (chain_iter chain rng) = total_steps chain.
Proof.
  intros Hn. unfold len, chain_iter. rewrite chain_outputs_length. lia.
Qed.

Lemma py_mod_Some (a b : Z) : b <> 0 -> py_mod a b = Some (a mod b).
Proof. intros Hb. unfold py_mod. rewrite (proj2 (Z.eqb_neq b 0) Hb). reflexivity. Qed.

Lemma py_floordiv_Some (a b : Z) : b <> 0 -> py_floordiv a b = Some (a / b).
Proof. intros Hb. unfold py_floordiv. rewrite (proj2 (Z.eqb_neq b 0) Hb). reflexivity. Qed.

(** With [num_steps // 10] different from zero a round of the loop of
    single_state_detection.py appends one value. *)
Lemma single_state_step_appends (num_steps : Z) (x : Partition) (i : Z)
    (acc : list Z) (out : list Event) :
  num_steps / 10 <> 0 ->
  exists evs,
    SingleState.ensemble_step num_steps i x acc out
    = (Some (acc ++ [dem_wins x]), out ++ evs)
    /\ Forall is_progress evs.
Proof.
  intros Hten.
  assert (Hn : num_steps <> 0) by (intros ->; apply Hten; reflexivity).
  unfold SingleState.ensemble_step. run_unfold.
  rewrite py_mod_Some by exact Hten.
  destruct ((i + 1) mod (num_steps / 10) =? 0).
  - rewrite py_floordiv_Some by exact Hn.
    exists [Progress ((i + 1) * 100 / num_steps)].
    split; [reflexivity|]. constructor; [eexists; reflexivity | constructor].
  - exists []. rewrite app_nil_r. split; [reflexivity | constructor].
Qed.

Lemma single_state_loop_appends (num_steps : Z) (xs : list Partition) (i : Z)
    (acc : list Z) (out : list Event) :
  num_steps / 10 <> 0 ->
  exists evs,
    for_enumerate (SingleState.ensemble_step num_steps) i xs acc out
    = (Some (acc ++ map dem_wins xs), out ++ evs)
    /\ Forall is_progress evs.
Proof.
  intros Hten.
  revert i acc out. induction xs as [|x xs IH]; intros i acc out.
  - exists []. cbn. run_unfold. rewrite !app_nil_r. split; [reflexivity | constructor].
  - cbn [for_enumerate]. unfold mbind, Run_bind, run_bind.
    destruct (single_state_step_appends num_steps x i acc out Hten) as (evs1 & -> & Hevs1).
    destruct (IH (i + 1) (acc ++ [dem_wins x]) (out ++ evs1)) as (evs2 & -> & Hevs2).
    exists (evs1 ++ evs2). rewrite <- !app_assoc. simpl.
    split; [reflexivity|]. apply Forall_app. split; assumption.
Qed.

(** With [num_steps // 10] equal to zero the first round raises. *)
Lemma single_state_loop_raises (num_steps : Z) (x : Partition) (xs : list Partition)
    (i : Z) (acc : list Z) (out : list Event) :
  num_steps / 10 = 0 ->
  for_enumerate (SingleState.ensemble_step num_steps) i (x :: xs) acc out = (None, out).
Proof.
  intros Hten. cbn [for_enumerate]. unfold mbind, Run_bind, run_bind.
  assert (Hstep : SingleState.ensemble_step num_steps i x acc out = (None, out)).
  { unfold SingleState.ensemble_step. run_unfold. rewrite Hten. reflexivity. }
  rewrite Hstep. reflexivity.
Qed.

Lemma single_state_v2_step_appends (num_steps : Z) (x : Partition) (i : Z)
    (acc : list Z * list Partition) (out : list Event) :
  num_steps / 10 <> 0 ->
  exists samples evs,
    SingleStateV2.ensemble_step num_steps (Z.max 1 (num_steps / 100)) i x acc out
    = (Some (acc.1 ++ [dem_wins x], samples), out ++ evs)
    /\ Forall is_progress evs.
Proof.
  intros Hten.
  assert (Hn : num_steps <> 0) by (intros ->; apply Hten; reflexivity).
  assert (Hs : Z.max 1 (num_steps / 100) <> 0) by lia.
  unfold SingleStateV2.ensemble_step. run_unfold.
  rewrite py_mod_Some by exact Hten.
  rewrite (py_mod_Some i _ Hs).
  destruct ((i + 1) mod (num_steps / 10) =? 0).
  - rewrite py_floordiv_Some by exact Hn.
    eexists _, [Progress ((i + 1) * 100 / num_steps)].
    split; [reflexivity|]. constructor; [eexists; reflexivity | constructor].
  - eexists _, []. rewrite app_nil_r. split; [reflexivity | constructor].
Qed.

Lemma single_state_v2_loop_appends (num_steps : Z) (xs : list Partition) (i : Z)
    (acc : list Z * list Partition) (out : list Event) :
  num_steps / 10 <> 0 ->
  exists samples evs,
    for_enumerate (SingleStateV2.ensemble_step num_steps (Z.max 1 (num_steps / 100)))
                  i xs acc out
    = (Some (acc.1 ++ map dem_wins xs, samples), out ++ evs)
    /\ Forall is_progress evs.
Proof.
  intros Hten.
  revert i acc out. induction xs as [|x xs IH]; intros i acc out.
  - exists acc.2, []. cbn. run_unfold. rewrite !app_nil_r. destruct acc.
    split; [reflexivity | constructor].
  - cbn [for_enumerate]. unfold mbind, Run_bind, run_bind.
    destruct (single_state_v2_step_appends num_steps x i acc out Hten)
      as (samples1 & evs1 & -> & Hevs1).
    destruct (IH (i + 1) (acc.1 ++ [dem_wins x], samples1) (out ++ evs1))
      as (samples2 & evs2 & -> & Hevs2).
    exists samples2, (evs1 ++ evs2). cbn [fst]. rewrite <- !app_assoc. simpl.
    split; [reflexivity|]. apply Forall_app. split; assumption.
Qed.

Lemma single_state_v2_loop_raises (num_steps : Z) (x : Partition) (xs : list Partition)
    (i : Z) (acc : list Z * list Partition) (out : list Event) :
  num_steps / 10 = 0 ->
  for_enumerate (SingleStateV2.ensemble_step num_steps (Z.max 1 (num_steps / 100)))
                i (x :: xs) acc out
  = (None, out).
Proof.
  intros Hten. cbn [for_enumerate]. unfold mbind, Run_bind, run_bind.
  assert (Hstep : SingleStateV2.ensemble_step num_steps (Z.max 1 (num_steps / 100))
                                            i x acc out = (None, out)).
  { unfold SingleStateV2.ensemble_step. run_unfold. rewrite Hten. reflexivity. }
  rewrite Hstep. reflexivity.
Qed.

Lemma multi_state_loop_appends (xs : list Partition) (i : Z) (acc : list Z)
    (out : list Event) :
  for_enumerate (fun _ partition dem_wins_list =>
                   mret (dem_wins_list ++ [dem_wins partition])) i xs acc out
  = (Some (acc ++ map dem_wins xs), out).
Proof.
  revert i acc out. induction xs as [|x xs IH]; intros i acc out.
  - cbn. run_unfold. rewrite app_nil_r. reflexivity.
  - cbn [for_enumerate]. unfold mbind, Run_bind, run_bind.
    cbn [mret Run_ret run_ret]. rewrite IH, <- app_assoc. reflexivity.
Qed.
End EnsembleLoop.

Section RunEnsemble.
Context `{Gerrychain}.

Lemma chain_iter_cons (chain : MarkovChain) (rng : Rng) :
  1 <= total_steps chain ->
  exists x xs, chain_iter chain rng = x :: xs.
Proof.
  intros Hn. pose proof (chain_iter_length chain rng ltac:(lia)) as Hlen.
  unfold len in Hlen. destruct (chain_iter chain rng) as [|x xs].
  - simpl in Hlen. lia.
  - exists x, xs. reflexivity.
Qed.

(** What the first part of [run_ensemble] of single_state_detection.py
    prints and which chain it builds. *)
Lemma single_state_chain_setup (partition : Partition) (num_steps : Z)
    (use_contiguity : bool) (out : list Event) :
  SingleState.run_ensemble_chain partition num_steps use_contiguity out
  = (Some {| proposal := propose_random_flip;
             constraints := if use_contiguity && holds contiguous partition
                            then [single_flip_contiguous] else [];
             accept := fun _ _ => true;
             initial_state := partition;
             total_steps := num_steps |},
     out ++ (if use_contiguity && negb (holds contiguous partition)
             then [WarnNotContiguous; RelaxingContiguity; WithoutContiguity]
             else if use_contiguity then [UsingContiguity] else [WithoutContiguity])).
Proof.
  unfold SingleState.run_ensemble_chain. run_unfold.
  destruct use_contiguity, (holds contiguous partition); simpl;
    rewrite <- ?app_assoc; reflexivity.
Qed.

(** Ten steps or more: [run_ensemble] of single_state_detection.py
    returns one value per step of the chain. *)
Lemma single_state_run_ensemble_length (partition : Partition) (num_steps : Z)
    (use_contiguity : bool) (rng : Rng) (out : list Event) :
  10 <= num_steps ->
  exists dem_wins_list,
    (SingleState.run_ensemble partition num_steps use_contiguity rng out).1
    = Some dem_wins_list
    /\ len dem_wins_list = num_steps.
Proof.
  intros Hn.
  assert (Hten : num_steps / 10 <> 0).
  { pose proof (Z.div_le_mono 10 num_steps 10 ltac:(lia) Hn) as Hd.
    change (10 / 10) with 1 in Hd. lia. }
  unfold SingleState.run_ensemble, try_except.
  unfold mbind at 1, Run_bind, run_bind at 1.
  rewrite single_state_chain_setup.
  set (chain := {| proposal := propose_random_flip |}).
  unfold mbind, Run_bind, run_bind, print at 1.
  match goal with
  | |- context [for_enumerate _ 0 _ [] ?o] =>
      destruct (single_state_loop_appends num_steps (chain_iter chain rng) 0 [] o Hten)
        as (evs & -> & _)
  end.
  cbn. eexists. split; [reflexivity|].
  unfold len. rewrite length_map. apply (chain_iter_length chain rng). simpl. lia.
Qed.

(** [run_ensemble] of multi_state_detection.py returns one value per
    step of the chain, whatever the number of steps. *)
Lemma multi_state_run_ensemble_length (partition : Partition) (num_steps : Z)
    (rng : Rng) (out : list Event) :
  0 <= num_steps ->
  exists dem_wins_list,
    MultiState.run_ensemble partition num_steps rng out = (Some dem_wins_list, out)
    /\ len dem_wins_list = num_steps.
Proof.
  intros Hn. unfold MultiState.run_ensemble, try_except.
  rewrite multi_state_loop_appends. eexists. split; [reflexivity|].
  unfold len. simpl. rewrite length_map.
  match goal with |- context [chain_iter ?c rng] =>
    apply (chain_iter_length c rng) end.
  simpl. exact Hn.
Qed.

(** C2 fails in single_state_detection.py (and in the copy of the loop
    in single_state_detection_v2.py): with 1 to 9 steps the progress
    test [(i + 1) % (num_steps // 10)] divides by zero in the first
    round, the exception is caught, and [run_ensemble] returns [None]
    after printing the error instead of a list of [num_steps] values. *)
Theorem run_ensemble_under_ten_steps_returns_none (partition : Partition) (num_steps : Z)
    (use_contiguity : bool) (rng : Rng) (out : list Event) :
  1 <= num_steps < 10 ->
  exists evs,
    SingleState.run_ensemble partition num_steps use_contiguity rng out
    = (None, out ++ evs ++ [ProgressStart; ErrorRunningEnsemble]).
Proof.
  intros Hn.
  assert (Hten : num_steps / 10 = 0) by (apply Z.div_small; lia).
  unfold SingleState.run_ensemble, try_except.
  unfold mbind at 1, Run_bind, run_bind at 1.
  rewrite single_state_chain_setup.
  set (chain := {| proposal := propose_random_flip |}).
  set (evs := if use_contiguity && negb (holds contiguous partition)
              then _ else _).
  destruct (chain_iter_cons chain rng) as (x & xs & Hiter); [simpl; lia|].
  unfold mbind, Run_bind, run_bind, print at 1.
  rewrite Hiter, single_state_loop_raises by exact Hten.
  exists evs. simpl. rewrite <- !app_assoc. reflexivity.
Qed.
End RunEnsemble.

Lemma run_ensemble_under_ten_steps_returns_none_witness :
  exists evs,
    SingleState.run_ensemble (H := idle_gerrychain) two_districts 5 true tt []
    = (None, [] ++ evs ++ [ProgressStart; ErrorRunningEnsemble]).
Proof.
  apply (run_ensemble_under_ten_steps_returns_none (H := idle_gerrychain)
           two_districts 5 true tt []).
  lia.
Defined.

Lemma z_score_formula_witness :
  SingleState.z_score 4 3 2 = Some ((inject_Z 4 - 3) / 2)%Q
  /\ SingleStateV2.z_score 4 4 0 = Some 0%Q.
Proof.
  split.
  - apply (proj1 (z_score_formula 4 3 2)). reflexivity.
  - apply (proj2 (z_score_formula 4 4 0)). reflexivity.
Defined.

Lemma loaded_graph_has_no_isolated_nodes_witness :
  let graph : Graph := <[1 := {[2]}]> (<[2 := {[1]}]> ∅) in
  (SingleState.load_state_data (Some island_graph) []).1 = Some graph
  /\ degree graph 1 <> 0
  /\ 3 ∉ nodes graph.
Proof.
  intros graph.
  assert (Hload : (SingleState.load_state_data (Some island_graph) []).1 = Some graph)
    by (vm_compute; reflexivity).
  destruct (loaded_graph_has_no_isolated_nodes (Some island_graph) [] graph (or_introl Hload))
    as (Hdeg & input & Hfile & Hgone & _).
  injection Hfile as <-.
  split; [exact Hload|]. split.
  - apply Hdeg. apply elem_of_nodes. eexists. reflexivity.
  - apply Hgone; [|reflexivity]. apply elem_of_nodes. eexists. reflexivity.
Defined.

(** ** A partition that is not contiguous *)

Section Contiguity.
Context `{Gerrychain}.

(** What the first part of [run_ensemble] of
    single_state_detection_v2.py prints and which chain it builds. *)
Lemma single_state_v2_chain_setup (partition : Partition) (num_steps : Z) (epsilon : Q)
    (out : list Event) :
  let warning := if holds contiguous partition
                 then [] else [WarnNotContiguous; SkippingContiguity] in
  SingleStateV2.run_ensemble_chain partition num_steps epsilon out
  = match py_truediv (py_sum (map population partition)) (inject_Z (len partition)) with
    | Some ideal_pop =>
        (Some {| proposal := recom ideal_pop epsilon 2;
                 constraints :=
                   [within_percent_of_ideal_population partition epsilon]
                   ++ (if holds contiguous partition then [contiguous] else []);
                 accept := fun _ _ => true;
                 initial_state := partition;
                 total_steps := num_steps |},
         out ++ warning ++ [UsingReCom (holds contiguous partition)])
    | None => (None, out ++ warning)
    end.
Proof.
  unfold SingleStateV2.run_ensemble_chain. run_unfold.
  destruct (holds contiguous partition); simpl;
    destruct (py_truediv _ _); simpl; rewrite <- ?app_assoc, ?app_nil_r; reflexivity.
Qed.

Lemma ten_steps_div (num_steps : Z) : 10 <= num_steps -> num_steps / 10 <> 0.
Proof.
  intros Hn. pose proof (Z.div_le_mono 10 num_steps 10 ltac:(lia) Hn) as Hd.
  change (10 / 10) with 1 in Hd. lia.
Qed.

(** The loop of [run_ensemble] of single_state_detection.py on the
    outputs of a chain: it returns the seat count of every output, or
    the progress test raises in the first round. *)
Lemma single_state_loop_result (num_steps : Z) (xs : list Partition) (out : list Event) :
  exists r evs,
    for_enumerate (SingleState.ensemble_step num_steps) 0 xs [] out = (r, out ++ evs)
    /\ Forall is_progress evs
    /\ (r = Some (map dem_wins xs) \/ (r = None /\ num_steps / 10 = 0 /\ xs <> []))
    /\ (num_steps / 10 <> 0 -> r = Some (map dem_wins xs)).
Proof.
  destruct (decide (num_steps / 10 = 0)) as [Hten|Hten].
  - destruct xs as [|x xs].
    + exists (Some []), []. rewrite app_nil_r. split; [reflexivity|].
      split; [constructor|]. split; [left; reflexivity|]. intros _. reflexivity.
    + exists None, []. rewrite app_nil_r, single_state_loop_raises by exact Hten.
      split; [reflexivity|]. split; [constructor|].
      split; [right; split; [reflexivity|split; [exact Hten|discriminate]]|].
      intros Hne. contradiction.
  - destruct (single_state_loop_appends num_steps xs 0 [] out Hten) as (evs & Hloop & Hevs).
    exists (Some (map dem_wins xs)), evs. split; [exact Hloop|].
    split; [exact Hevs|]. split; [left; reflexivity|]. intros _. reflexivity.
Qed.

(** The same for the loop of single_state_detection_v2.py. *)
Lemma single_state_v2_loop_result (num_steps : Z) (xs : list Partition) (out : list Event) :
  exists r evs,
    for_enumerate (SingleStateV2.ensemble_step num_steps (Z.max 1 (num_steps / 100)))
                  0 xs ([], []) out
    = (r, out ++ evs)
    /\ Forall is_progress evs
    /\ ((exists samples, r = Some (map dem_wins xs, samples))
        \/ (r = None /\ num_steps / 10 = 0 /\ xs <> []))
    /\ (num_steps / 10 <> 0 -> is_Some r).
Proof.
  destruct (decide (num_steps / 10 = 0)) as [Hten|Hten].
  - destruct xs as [|x xs].
    + exists (Some ([], [])), []. rewrite app_nil_r. split; [reflexivity|].
      split; [constructor|]. split; [left; exists []; reflexivity|]. intros _. eauto.
    + exists None, []. rewrite app_nil_r, single_state_v2_loop_raises by exact Hten.
      split; [reflexivity|]. split; [constructor|].
      split; [right; split; [reflexivity|split; [exact Hten|discriminate]]|].
      intros Hne. contradiction.
  - destruct (single_state_v2_loop_appends num_steps xs 0 ([], []) out Hten)
      as (samples & evs & Hloop & Hevs).
    exists (Some (map dem_wins xs, samples)), evs. split; [exact Hloop|].
    split; [exact Hevs|]. split; [left; exists samples; reflexivity|]. intros _. eauto.
Qed.

(** Progress messages are the only output of the loops. *)
Lemma progress_only (evs : list Event) (e : Event) :
  Forall is_progress evs -> (forall pct, e <> Progress pct) -> e ∉ evs.
Proof.
  intros Hall He Hin. rewrite Forall_forall in Hall.
  destruct (Hall _ Hin) as [pct ->]. exact (He pct eq_refl).
Qed.

(** C6. [run_ensemble] does not go on with a contiguity constraint when
    the initial partition is not contiguous.  It finds this out before
    the chain runs and says so: single_state_detection.py prints the
    warning (when the constraint had been asked for) and that it runs
    without the constraint, single_state_detection_v2.py prints the
    warning and that the constraint is skipped.  The list a driver then
    returns holds the seat counts of the states of the chain that has no
    contiguity constraint among its constraints, and for ten steps or
    more (in single_state_detection_v2.py: and a partition with a
    district) it does return one.  When a driver returns None instead,
    it has printed the error of the run. *)
Theorem noncontiguous_partition_disables_contiguity (partition : Partition)
    (num_steps : Z) (use_contiguity : bool) (epsilon : Q) (rng : Rng) (out : list Event) :
  holds contiguous partition = false ->
  (exists r evs,
     SingleState.run_ensemble partition num_steps use_contiguity rng out
     = (r, out ++ (if use_contiguity then [WarnNotContiguous; RelaxingContiguity] else [])
               ++ [WithoutContiguity; ProgressStart] ++ evs)
     /\ (UsingContiguity ∉ evs)
     /\ (forall dem_wins_list,
           r = Some dem_wins_list ->
           dem_wins_list
           = map dem_wins
               (chain_iter {| proposal := propose_random_flip;
                              constraints := [];
                              accept := fun _ _ => true;
                              initial_state := partition;
                              total_steps := num_steps |} rng))
     /\ (r = None -> ErrorRunningEnsemble ∈ evs)
     /\ (10 <= num_steps -> is_Some r))
  /\ (exists r evs,
        SingleStateV2.run_ensemble partition num_steps epsilon rng out
        = (r, out ++ [WarnNotContiguous; SkippingContiguity] ++ evs)
        /\ (UsingReCom true ∉ evs)
        /\ (forall result,
              r = Some result ->
              exists ideal_pop,
                py_truediv (py_sum (map population partition)) (inject_Z (len partition))
                = Some ideal_pop
                /\ UsingReCom false ∈ evs
                /\ result.1
                   = map dem_wins
                       (chain_iter
                          {| proposal := recom ideal_pop epsilon 2;
                             constraints :=
                               [within_percent_of_ideal_population partition epsilon];
                             accept := fun _ _ => true;
                             initial_state := partition;
                             total_steps := num_steps |} rng))
        /\ (r = None -> ErrorRunningEnsemble ∈ evs)
        /\ (10 <= num_steps -> partition <> [] -> is_Some r)).
Proof.
  intros Hnot. split.
  - unfold SingleState.run_ensemble, try_except.
    unfold mbind at 1, Run_bind, run_bind at 1.
    rewrite single_state_chain_setup, Hnot, andb_false_r, andb_true_r.
    set (chain := {| proposal := propose_random_flip |}).
    set (setup := if use_contiguity then [WarnNotContiguous; RelaxingContiguity] else []).
    assert (Hsetup : (if use_contiguity
                      then [WarnNotContiguous; RelaxingContiguity; WithoutContiguity]
                      else if use_contiguity then [UsingContiguity] else [WithoutContiguity])
                     = setup ++ [WithoutContiguity])
      by (subst setup; destruct use_contiguity; reflexivity).
    rewrite Hsetup. clear Hsetup.
    unfold mbind, Run_bind, run_bind, print at 1.
    destruct (single_state_loop_result num_steps (chain_iter chain rng)
                ((out ++ setup ++ [WithoutContiguity]) ++ [ProgressStart]))
      as (r & evs & -> & Hevs & Hr & Hten).
    pose proof (progress_only evs UsingContiguity Hevs ltac:(discriminate)) as Hnu.
    pose proof (progress_only evs ErrorRunningEnsemble Hevs ltac:(discriminate)) as Hne.
    destruct Hr as [->|(-> & Hz & Hxs)].
    + exists (Some (map dem_wins (chain_iter chain rng))), (evs ++ [Done]).
      split; [cbn; rewrite <- !app_assoc; reflexivity|].
      split; [intros Hin; split_elem_of Hin|].
      split; [intros l [= <-]; reflexivity|].
      split; [discriminate|]. intros _. eauto.
    + exists None, (evs ++ [ErrorRunningEnsemble]).
      split; [cbn; rewrite <- !app_assoc; reflexivity|].
      split; [intros Hin; split_elem_of Hin|].
      split; [discriminate|].
      split; [intros _; apply elem_of_app; right; left|].
      intros Hn. pose proof (ten_steps_div num_steps Hn). contradiction.
  - unfold SingleStateV2.run_ensemble, try_except.
    unfold mbind at 1, Run_bind, run_bind at 1.
    pose proof (single_state_v2_chain_setup partition num_steps epsilon out) as Hsetup.
    cbv zeta in Hsetup. rewrite Hnot in Hsetup. rewrite Hsetup. clear Hsetup.
    destruct (py_truediv (py_sum (map population partition)) (inject_Z (len partition)))
      as [ideal_pop|] eqn:Hideal.
    + cbn [app]. set (chain := {| proposal := recom ideal_pop epsilon 2 |}).
      unfold mbind, Run_bind, run_bind, print at 1.
      match goal with
      | |- context [for_enumerate _ 0 _ _ ?o] =>
          destruct (single_state_v2_loop_result num_steps (chain_iter chain rng) o)
            as (r & evs & -> & Hevs & Hr & Hten)
      end.
      pose proof (progress_only evs (UsingReCom true) Hevs ltac:(discriminate)) as Hnu.
      destruct Hr as [[samples ->]|(-> & Hz & Hxs)].
      * unfold print at 1. cbn [fst].
        set (warn := Z.of_nat (size (list_to_set (map dem_wins (chain_iter chain rng))
                                      : gset Z)) =? 1).
        exists (Some (map dem_wins (chain_iter chain rng), samples)),
               ([UsingReCom false; ProgressStart] ++ evs ++ [Done]
                ++ (if warn then [WarnIdenticalResults] else [])).
        split.
        { destruct warn; cbn; rewrite <- !app_assoc; cbn; rewrite ?app_nil_r;
            reflexivity. }
        split.
        { intros Hin. destruct warn; split_elem_of Hin. }
        split.
        { intros result [= <-]. exists ideal_pop. split; [reflexivity|].
          split; [left|reflexivity]. }
        split; [discriminate|]. intros _ _. eauto.
      * exists None, ([UsingReCom false; ProgressStart] ++ evs ++ [ErrorRunningEnsemble]).
        split; [cbn; rewrite <- !app_assoc; reflexivity|].
        split; [intros Hin; split_elem_of Hin|].
        split; [discriminate|].
        split; [intros _; rewrite !elem_of_app; right; right; left|].
        intros Hn _. pose proof (ten_steps_div num_steps Hn). contradiction.
    + exists None, [ErrorRunningEnsemble]. cbn.
      split; [rewrite <- !app_assoc; reflexivity|].
      split; [intros Hin; split_elem_of Hin|].
      split; [discriminate|].
      split; [intros _; left|].
      intros _ Hne. exfalso. unfold py_truediv in Hideal.
      destruct (Qeq_bool (inject_Z (len partition)) 0) eqn:E; [|discriminate].
      apply Qeq_bool_iff in E. unfold Qeq in E. cbn in E. unfold len in E.
      destruct partition; [congruence|]. cbn in E. lia.
Qed.
End Contiguity.

Lemma noncontiguous_partition_disables_contiguity_witness :
  exists r evs,
    SingleState.run_ensemble (H := island_gerrychain) two_districts 1000 true tt []
    = (r, [] ++ [WarnNotContiguous; RelaxingContiguity]
             ++ [WithoutContiguity; ProgressStart] ++ evs)
    /\ (UsingContiguity ∉ evs)
    /\ (forall dem_wins_list,
          r = Some dem_wins_list ->
          dem_wins_list
          = map dem_wins
              (chain_iter (H := island_gerrychain)
                 {| proposal := propose_random_flip;
                    constraints := [];
                    accept := fun _ _ => true;
                    initial_state := two_districts;
                    total_steps := 1000 |} tt))
    /\ (r = None -> ErrorRunningEnsemble ∈ evs)
    /\ (10 <= 1000 -> is_Some r).
Proof.
  apply (noncontiguous_partition_disables_contiguity (H := island_gerrychain)
           two_districts 1000 true (1 # 20) tt []).
  reflexivity.
Defined.

(** ** Degenerate ensembles *)

Lemma size_list_to_set_one (l : list Z) :
  Z.of_nat (size (list_to_set l : gset Z)) = 1 <-> degenerate l.
Proof.
  unfold degenerate. split.
  - intros Hsize. assert (Hs : size (list_to_set l : gset Z) = 1%nat) by lia.
    apply size_1_elem_of in Hs as [v Hv]. split.
    + intros ->. simpl in Hv. set_solver.
    + intros x y Hx Hy.
      assert (Hxv : x ∈ (list_to_set l : gset Z)) by (apply elem_of_list_to_set; exact Hx).
      assert (Hyv : y ∈ (list_to_set l : gset Z)) by (apply elem_of_list_to_set; exact Hy).
      rewrite Hv in Hxv, Hyv. set_solver.
  - intros [Hne Hall]. destruct l as [|v l]; [contradiction|].
    assert (Hset : (list_to_set (v :: l) : gset Z) = {[v]}).
    { apply set_eq. intros x. rewrite elem_of_list_to_set, elem_of_singleton. split.
      - intros Hx. apply Hall; [exact Hx | left].
      - intros ->. left. }
    rewrite Hset, size_singleton. reflexivity.
Qed.

Section DegenerateEnsemble.
Context `{Gerrychain}.

Lemma single_state_v2_step_inv (num_steps sample_interval : Z) (x : Partition) (i : Z)
    (acc r : list Z * list Partition) (out out' : list Event) :
  SingleStateV2.ensemble_step num_steps sample_interval i x acc out = (Some r, out') ->
  r.1 = acc.1 ++ [dem_wins x]
  /\ exists evs, out' = out ++ evs /\ Forall is_progress evs.
Proof.
  unfold SingleStateV2.ensemble_step. run_unfold.
  destruct (py_mod (i + 1) (num_steps / 10)) as [m|]; [|discriminate].
  destruct (m =? 0).
  - destruct (py_floordiv ((i + 1) * 100) num_steps) as [q|]; [|discriminate].
    destruct (py_mod i sample_interval) as [k|]; [|discriminate].
    intros Heq. injection Heq as <- <-. split; [reflexivity|].
    exists [Progress q]. split; [reflexivity|].
    constructor; [eexists; reflexivity | constructor].
  - destruct (py_mod i sample_interval) as [k|]; [|discriminate].
    intros Heq. injection Heq as <- <-. split; [reflexivity|].
    exists []. rewrite app_nil_r. split; [reflexivity | constructor].
Qed.

Lemma single_state_v2_loop_inv (num_steps sample_interval : Z) (xs : list Partition)
    (i : Z) (acc r : list Z * list Partition) (out out' : list Event) :
  for_enumerate (SingleStateV2.ensemble_step num_steps sample_interval) i xs acc out
  = (Some r, out') ->
  r.1 = acc.1 ++ map dem_wins xs
  /\ exists evs, out' = out ++ evs /\ Forall is_progress evs.
Proof.
  revert i acc out. induction xs as [|x xs IH]; intros i acc out.
  - cbn. run_unfold. intros Heq. injection Heq as <- <-.
    rewrite app_nil_r. split; [reflexivity|].
    exists []. rewrite app_nil_r. split; [reflexivity | constructor].
  - cbn [for_enumerate]. unfold mbind, Run_bind, run_bind.
    destruct (SingleStateV2.ensemble_step num_steps sample_interval i x acc out)
      as [[acc1|] out1] eqn:Hstep; [|discriminate].
    apply single_state_v2_step_inv in Hstep as (Hacc1 & evs1 & -> & Hevs1).
    intros Hrest. apply IH in Hrest as (Hr & evs2 & -> & Hevs2).
    split.
    + rewrite Hr, Hacc1, <- app_assoc. reflexivity.
    + exists (evs1 ++ evs2). rewrite app_assoc. split; [reflexivity|].
      apply Forall_app. split; assumption.
Qed.

Lemma progress_not_warning (evs : list Event) :
  Forall is_progress evs -> WarnIdenticalResults ∉ evs.
Proof.
  intros Hall Hin. rewrite Forall_forall in Hall.
  destruct (Hall _ Hin) as [pct Hpct]. discriminate.
Qed.

(** A successful [run_ensemble] of single_state_detection_v2.py has one
    value per step of the chain, and it has printed the warning about
    identical results exactly when the ensemble is degenerate. *)
Lemma single_state_v2_run_ensemble_warns (partition : Partition) (num_steps : Z)
    (epsilon : Q) (rng : Rng) (out out' : list Event) (r : list Z * list Partition) :
  SingleStateV2.run_ensemble partition num_steps epsilon rng out = (Some r, out') ->
  (0 <= num_steps -> len r.1 = num_steps)
  /\ exists evs,
       out' = out ++ evs
       /\ (WarnIdenticalResults ∈ evs <-> degenerate r.1).
Proof.
  unfold SingleStateV2.run_ensemble, try_except.
  unfold mbind at 1, Run_bind, run_bind at 1.
  pose proof (single_state_v2_chain_setup partition num_steps epsilon out) as Hsetup.
  simpl in Hsetup. rewrite Hsetup. clear Hsetup.
  set (warning := if holds contiguous partition then [] else _).
  assert (Hwarning : WarnIdenticalResults ∉ warning).
  { subst warning. destruct (holds contiguous partition); intros Hin; split_elem_of Hin. }
  destruct (py_truediv _ _) as [ideal_pop|]; [|discriminate].
  set (chain := {| proposal := recom ideal_pop epsilon 2 |}).
  unfold mbind, Run_bind, run_bind, print at 1.
  destruct (for_enumerate _ 0 (chain_iter chain rng) ([], []) _)
    as [[r1|] out1] eqn:Hloop; [|discriminate].
  apply single_state_v2_loop_inv in Hloop as (Hr1 & evs & -> & Hevs).
  apply progress_not_warning in Hevs.
  unfold print at 1.
  destruct (Z.of_nat (size (list_to_set r1.1 : gset Z)) =? 1) eqn:Hsize.
  - simpl. intros Heq. injection Heq as <- <-. split.
    + intros Hn. rewrite Hr1. unfold len. simpl. rewrite length_map.
      apply (chain_iter_length chain rng). exact Hn.
    + eexists. rewrite <- !app_assoc. split; [reflexivity|].
      apply Z.eqb_eq in Hsize. apply size_list_to_set_one in Hsize.
      split; [intros _; exact Hsize | intros _].
      rewrite !elem_of_app. do 5 right. left.
  - simpl. intros Heq. injection Heq as <- <-. split.
    + intros Hn. rewrite Hr1. unfold len. simpl. rewrite length_map.
      apply (chain_iter_length chain rng). exact Hn.
    + eexists. rewrite <- !app_assoc. split; [reflexivity|].
      apply Z.eqb_neq in Hsize. rewrite <- size_list_to_set_one.
      split; [|intros Hd; contradiction].
      intros Hin. exfalso. split_elem_of Hin.
Qed.
End DegenerateEnsemble.

Lemma run_bind_fst_Some {A B} (m : Run A) (f : A -> Run B) (out : list Event) (b : B) :
  (run_bind f m out).1 = Some b ->
  exists a out1, m out = (Some a, out1) /\ (f a out1).1 = Some b.
Proof.
  unfold run_bind. destruct (m out) as [[a|] out1]; [|discriminate].
  intros Hf. exists a, out1. split; [reflexivity | exact Hf].
Qed.

Section ResultRecord.
Context `{Gerrychain}.

(** The dictionary [analyze_state] returns has always the same keys. *)
Lemma analyze_state_keys (state_name : string) (precincts num_districts : Z)
    (partition : Partition) (num_steps : Z) (epsilon : Q) (rng : Rng)
    (out : list Event) (record : list (string * Value)) :
  (analyze_state state_name precincts num_districts partition num_steps epsilon rng out).1
  = Some record ->
  record.*1 = result_keys.
Proof.
  unfold analyze_state, mbind, Run_bind. intros Hrun.
  repeat (apply run_bind_fst_Some in Hrun as (? & ? & _ & Hrun); cbv beta zeta in Hrun).
  unfold mret, Run_ret, run_ret in Hrun. cbn [fst] in Hrun.
  injection Hrun as <-. reflexivity.
Qed.

(** C4, as the code has it.  A run of [run_ensemble] of
    single_state_detection_v2.py that returns its N metric values has
    printed the warning about identical results exactly when the
    ensemble is degenerate (N >= 1 values, all identical).  The
    dictionary that [analyze_state] returns has the fixed keys
    [result_keys]; none of them is a flag for the degenerate
    condition. *)
Theorem degenerate_ensemble_is_warned (partition : Partition) (num_steps : Z)
    (epsilon : Q) (rng : Rng) (out out' : list Event) (r : list Z * list Partition) :
  SingleStateV2.run_ensemble partition num_steps epsilon rng out = (Some r, out') ->
  (0 <= num_steps -> len r.1 = num_steps)
  /\ (exists evs,
        out' = out ++ evs
        /\ (WarnIdenticalResults ∈ evs <-> degenerate r.1))
  /\ (forall state_name precincts num_districts record,
        (analyze_state state_name precincts num_districts partition num_steps epsilon
                       rng out).1 = Some record ->
        record.*1 = result_keys).
Proof.
  intros Hrun.
  destruct (single_state_v2_run_ensemble_warns _ _ _ _ _ _ _ Hrun) as (Hlen & Hwarn).
  split; [exact Hlen|]. split; [exact Hwarn|].
  intros state_name precincts num_districts record. apply analyze_state_keys.
Qed.
End ResultRecord.

Lemma degenerate_ensemble_is_warned_witness :
  degenerate (replicate 10 1).
Proof.
  pose (run := SingleStateV2.run_ensemble (H := idle_gerrychain) two_districts 10 (1 # 20)
                                          tt []).
  assert (Hrun : run = (Some (replicate 10 1, replicate 10 two_districts),
                        [UsingReCom true; ProgressStart; Progress 10; Progress 20;
                         Progress 30; Progress 40; Progress 50; Progress 60; Progress 70;
                         Progress 80; Progress 90; Progress 100; Done;
                         WarnIdenticalResults]))
    by (vm_compute; reflexivity).
  destruct (degenerate_ensemble_is_warned (H := idle_gerrychain) _ _ _ _ _ _ _ Hrun)
    as (_ & (evs & Hout & Hwarn) & _).
  simpl in Hout. subst evs. apply Hwarn. do 13 right. left.
Defined.

(** C4 as stated fails: in this run the ensemble is degenerate (ten
    steps, the Democrats win one district every time) and the warning is
    printed, but no entry of the dictionary that [analyze_state] returns
    is a flag that is set. *)
Lemma degenerate_flag_not_in_record_counterexample :
  let analysis := analyze_state (H := idle_gerrychain) "test" 4 2 two_districts 10 (1 # 20)
                                tt [] in
  (exists samples,
     (SingleStateV2.run_ensemble (H := idle_gerrychain) two_districts 10 (1 # 20) tt []).1
     = Some (replicate 10 1, samples))
  /\ WarnIdenticalResults ∈ analysis.2
  /\ exists record,
       analysis.1 = Some record
       /\ record.*1 = result_keys
       /\ forall key, (key, VBool true) ∉ record.
Proof.
  intros analysis.
  split; [eexists; vm_compute; reflexivity|].
  subst analysis.
  remember (analyze_state _ _ _ _ _ _ _ _) as analysis eqn:E.
  vm_compute in E. subst analysis. cbn [fst snd].
  split; [do 13 right; left|].
  eexists. split; [reflexivity|]. split; [reflexivity|].
  intros key Hin. split_elem_of Hin.
Qed.

Lemma outlier_flag_thresholds_witness :
  SingleState.is_outlier 3 = true /\ SingleStateV2.percentile_outlier 7 = true.
Proof.
  split.
  - apply (proj1 (outlier_flag_thresholds 3)). left. reflexivity.
  - apply (proj1 (proj2 (proj2 (outlier_flag_thresholds 7)))). left. reflexivity.
Defined.

Lemma has_packing_iff_witness :
  exists stats,
    get_district_statistics [packed_district] = Some stats /\ has_packing stats = true.
Proof.
  destruct (has_packing_iff [packed_district]) as (stats & Hstats & Hiff).
  exists stats. split; [exact Hstats|].
  apply Hiff. exists packed_district.
  split; [left|]. split; reflexivity.
Defined.

(** * Further properties of the analysis code *)

(** ** The percentile as a function of the enacted value *)

Lemma percentile_value (dem_wins_list : list Z) (initial_dem_wins : Z) :
  dem_wins_list <> [] ->
  exists p,
    percentile dem_wins_list initial_dem_wins = Some p
    /\ (p == (inject_Z (Z.of_nat (count_strictly_below dem_wins_list initial_dem_wins))
              + (1 # 2) * inject_Z (Z.of_nat (count_equal dem_wins_list initial_dem_wins)))
             / inject_Z (Z.of_nat (length dem_wins_list)) * 100)%Q.
Proof.
  intros Hne. unfold percentile.
  rewrite py_truediv_Some.
  2:{ unfold len. destruct dem_wins_list; [contradiction|].
      simpl length. rewrite Nat2Z.inj_succ. unfold Qeq. simpl. lia. }
  simpl. eexists. split; [reflexivity|].
  rewrite below_initial_count, equal_initial_count. reflexivity.
Qed.

Lemma inject_nat_le (a b : nat) :
  (a <= b)%nat -> (inject_Z (Z.of_nat a) <= inject_Z (Z.of_nat b))%Q.
Proof. intros Hab. rewrite <- Zle_Qle. lia. Qed.

Lemma inject_nat_plus (a b : nat) :
  (inject_Z (Z.of_nat (a + b)) == inject_Z (Z.of_nat a) + inject_Z (Z.of_nat b))%Q.
Proof. rewrite Nat2Z.inj_add, inject_Z_plus. reflexivity. Qed.

Lemma inject_nat_pos (a : nat) : (0 <= inject_Z (Z.of_nat a))%Q.
Proof. change 0%Q with (inject_Z 0). rewrite <- Zle_Qle. lia. Qed.

Lemma length_pos_inject {A} (l : list A) :
  l <> [] -> (0 < inject_Z (Z.of_nat (length l)))%Q.
Proof.
  intros Hne. change 0%Q with (inject_Z 0). rewrite <- Zlt_Qlt.
  destruct l; [contradiction|]. simpl length. lia.
Qed.

Lemma count_below_equal_le (l : list Z) (e : Z) :
  (count_strictly_below l e + count_equal l e <= length l)%nat.
Proof. apply filter_length_disjoint. intros x. lia. Qed.

Lemma filter_length_disjoint_sub {A} (P R S : A -> Prop)
    `{!forall x, Decision (P x)} `{!forall x, Decision (R x)} `{!forall x, Decision (S x)}
    (l : list A) :
  (forall x, P x -> R x -> False) ->
  (forall x, P x -> S x) ->
  (forall x, R x -> S x) ->
  (length (filter P l) + length (filter R l) <= length (filter S l))%nat.
Proof.
  intros HPR HPS HRS. induction l as [|x l IH]; [reflexivity|].
  rewrite !filter_cons.
  destruct (decide (P x)) as [HP|HP], (decide (R x)) as [HR|HR],
           (decide (S x)) as [HS|HS]; simpl; try lia; exfalso; eauto.
Qed.

(** X1. The percentile of the enacted value lies between 0 and 100,
    whatever the ensemble (non-empty) and the enacted value. *)
Theorem percentile_between_0_and_100 (dem_wins_list : list Z) (initial_dem_wins : Z) :
  dem_wins_list <> [] ->
  exists p,
    percentile dem_wins_list initial_dem_wins = Some p /\ (0 <= p <= 100)%Q.
Proof.
  intros Hne.
  destruct (percentile_value dem_wins_list initial_dem_wins Hne) as (p & Hp & Heq).
  exists p. split; [exact Hp|].
  pose proof (length_pos_inject dem_wins_list Hne) as Hn.
  pose proof (inject_nat_le _ _ (count_below_equal_le dem_wins_list initial_dem_wins)) as Hle.
  rewrite inject_nat_plus in Hle.
  pose proof (inject_nat_pos (count_strictly_below dem_wins_list initial_dem_wins)) as Hb.
  pose proof (inject_nat_pos (count_equal dem_wins_list initial_dem_wins)) as He.
  set (b := inject_Z (Z.of_nat (count_strictly_below dem_wins_list initial_dem_wins))) in *.
  set (e := inject_Z (Z.of_nat (count_equal dem_wins_list initial_dem_wins))) in *.
  set (n := inject_Z (Z.of_nat (length dem_wins_list))) in *.
  assert (Hlo : (0 <= (b + (1 # 2) * e) / n)%Q).
  { apply Qle_shift_div_l; [exact Hn|]. lra. }
  assert (Hhi : ((b + (1 # 2) * e) / n <= 1)%Q).
  { apply Qle_shift_div_r; [exact Hn|]. lra. }
  rewrite Heq. split; lra.
Qed.

Lemma percentile_between_0_and_100_witness :
  exists p, percentile [3; 4; 4; 5] 4 = Some p /\ (0 <= p <= 100)%Q.
Proof. apply (percentile_between_0_and_100 [3; 4; 4; 5] 4). discriminate. Defined.

(** X2. The percentile is monotone in the enacted value: against the
    same ensemble, a map that wins more seats never gets a lower
    percentile. *)
Theorem percentile_monotone (dem_wins_list : list Z) (wins1 wins2 : Z) :
  dem_wins_list <> [] ->
  wins1 <= wins2 ->
  exists p1 p2,
    percentile dem_wins_list wins1 = Some p1
    /\ percentile dem_wins_list wins2 = Some p2
    /\ (p1 <= p2)%Q.
Proof.
  intros Hne Hle.
  destruct (percentile_value dem_wins_list wins1 Hne) as (p1 & Hp1 & Heq1).
  destruct (percentile_value dem_wins_list wins2 Hne) as (p2 & Hp2 & Heq2).
  exists p1, p2. split; [exact Hp1|]. split; [exact Hp2|].
  destruct (Z.eq_dec wins1 wins2) as [->|Hneq].
  { rewrite Heq1, Heq2. apply Qle_refl. }
  assert (Hcount : (count_strictly_below dem_wins_list wins1 + count_equal dem_wins_list wins1
                    <= count_strictly_below dem_wins_list wins2)%nat)
    by (apply filter_length_disjoint_sub; intros x; lia).
  apply inject_nat_le in Hcount. rewrite inject_nat_plus in Hcount.
  pose proof (length_pos_inject dem_wins_list Hne) as Hn.
  pose proof (inject_nat_pos (count_equal dem_wins_list wins1)) as He1.
  pose proof (inject_nat_pos (count_equal dem_wins_list wins2)) as He2.
  set (b1 := inject_Z (Z.of_nat (count_strictly_below dem_wins_list wins1))) in *.
  set (e1 := inject_Z (Z.of_nat (count_equal dem_wins_list wins1))) in *.
  set (b2 := inject_Z (Z.of_nat (count_strictly_below dem_wins_list wins2))) in *.
  set (e2 := inject_Z (Z.of_nat (count_equal dem_wins_list wins2))) in *.
  set (n := inject_Z (Z.of_nat (length dem_wins_list))) in *.
  assert (Hdiv : ((b1 + (1 # 2) * e1) / n <= (b2 + (1 # 2) * e2) / n)%Q).
  { unfold Qdiv. apply Qmult_le_compat_r; [lra|]. apply Qinv_le_0_compat. lra. }
  rewrite Heq1, Heq2. lra.
Qed.

Lemma percentile_monotone_witness :
  exists p1 p2,
    percentile [3; 4; 4; 5] 3 = Some p1
    /\ percentile [3; 4; 4; 5] 5 = Some p2
    /\ (p1 <= p2)%Q.
Proof. apply (percentile_monotone [3; 4; 4; 5] 3 5); [discriminate | lia]. Defined.

Lemma filter_length_all {A} (P : A -> Prop) `{!forall x, Decision (P x)} (l : list A) :
  (forall x, x ∈ l -> P x) -> length (filter P l) = length l.
Proof.
  intros Hall. induction l as [|x l IH]; [reflexivity|].
  rewrite filter_cons, decide_True by (apply Hall; left).
  simpl. rewrite IH; [reflexivity|]. intros y Hy. apply Hall. right. exact Hy.
Qed.

Lemma filter_length_none {A} (P : A -> Prop) `{!forall x, Decision (P x)} (l : list A) :
  (forall x, x ∈ l -> ~ P x) -> length (filter P l) = 0%nat.
Proof.
  intros Hnone. induction l as [|x l IH]; [reflexivity|].
  rewrite filter_cons, decide_False by (apply Hnone; left).
  apply IH. intros y Hy. apply Hnone. right. exact Hy.
Qed.

Lemma v2_percentile_outlier_iff (p : Q) :
  SingleStateV2.percentile_outlier p = true <-> (p < 10 \/ 90 < p)%Q.
Proof.
  unfold SingleStateV2.percentile_outlier, SingleStateV2.OUTLIER_THRESHOLD.
  rewrite orb_true_iff, !Qltb_lt.
  split; (intros [H|H]; [left; exact H | right; lra]).
Qed.

(** X3. When every value of the ensemble equals the enacted value (the
    chain never left the seat count of the enacted map), the percentile
    is 50 and none of the three scripts flags the map as an outlier. *)
Theorem stuck_ensemble_is_never_flagged (dem_wins_list : list Z) (initial_dem_wins : Z) :
  dem_wins_list <> [] ->
  (forall x, x ∈ dem_wins_list -> x = initial_dem_wins) ->
  exists p,
    percentile dem_wins_list initial_dem_wins = Some p
    /\ (p == 50)%Q
    /\ SingleState.is_outlier p = false
    /\ MultiState.is_outlier p = false
    /\ SingleStateV2.percentile_outlier p = false.
Proof.
  intros Hne Hall.
  destruct (percentile_value dem_wins_list initial_dem_wins Hne) as (p & Hp & Heq).
  exists p. split; [exact Hp|].
  assert (Hb : count_strictly_below dem_wins_list initial_dem_wins = 0%nat).
  { apply filter_length_none. intros x Hx. rewrite (Hall x Hx). lia. }
  assert (He : count_equal dem_wins_list initial_dem_wins = length dem_wins_list)
    by (apply filter_length_all; exact Hall).
  rewrite Hb, He in Heq.
  pose proof (length_pos_inject dem_wins_list Hne) as Hn.
  assert (H50 : (p == 50)%Q).
  { rewrite Heq. field. lra. }
  split; [exact H50|].
  split; [|split]; apply not_true_is_false; intros Hflag.
  - apply is_outlier_single_state in Hflag. lra.
  - apply is_outlier_multi_state in Hflag. lra.
  - apply v2_percentile_outlier_iff in Hflag. lra.
Qed.

Lemma stuck_ensemble_is_never_flagged_witness :
  exists p,
    percentile (replicate 10 1) 1 = Some p
    /\ (p == 50)%Q
    /\ SingleState.is_outlier p = false
    /\ MultiState.is_outlier p = false
    /\ SingleStateV2.percentile_outlier p = false.
Proof.
  apply (stuck_ensemble_is_never_flagged (replicate 10 1) 1); [discriminate|].
  intros x Hx. apply elem_of_replicate in Hx. tauto.
Defined.

(** X4. An enacted value strictly above every value of the ensemble has
    percentile 100, one strictly below every value has percentile 0, and
    in both cases all three scripts flag the map as an outlier. *)
Theorem extreme_enacted_value_is_flagged (dem_wins_list : list Z) (initial_dem_wins : Z) :
  dem_wins_list <> [] ->
  (forall x, x ∈ dem_wins_list -> x < initial_dem_wins)
  \/ (forall x, x ∈ dem_wins_list -> initial_dem_wins < x) ->
  exists p,
    percentile dem_wins_list initial_dem_wins = Some p
    /\ ((forall x, x ∈ dem_wins_list -> x < initial_dem_wins) -> (p == 100)%Q)
    /\ ((forall x, x ∈ dem_wins_list -> initial_dem_wins < x) -> (p == 0)%Q)
    /\ SingleState.is_outlier p = true
    /\ MultiState.is_outlier p = true
    /\ SingleStateV2.percentile_outlier p = true.
Proof.
  intros Hne Hext.
  destruct (percentile_value dem_wins_list initial_dem_wins Hne) as (p & Hp & Heq).
  exists p. split; [exact Hp|].
  pose proof (length_pos_inject dem_wins_list Hne) as Hn.
  assert (He : count_equal dem_wins_list initial_dem_wins = 0%nat).
  { apply filter_length_none. intros x Hx. destruct Hext as [H|H]; specialize (H x Hx); lia. }
  rewrite He in Heq.
  assert (Habove : (forall x, x ∈ dem_wins_list -> x < initial_dem_wins) -> (p == 100)%Q).
  { intros H. rewrite Heq.
    replace (count_strictly_below dem_wins_list initial_dem_wins) with (length dem_wins_list)
      by (symmetry; apply filter_length_all; exact H).
    field. lra. }
  assert (Hbelow : (forall x, x ∈ dem_wins_list -> initial_dem_wins < x) -> (p == 0)%Q).
  { intros H. rewrite Heq.
    replace (count_strictly_below dem_wins_list initial_dem_wins) with 0%nat
      by (symmetry; apply filter_length_none; intros x Hx; specialize (H x Hx); lia).
    field. lra. }
  split; [exact Habove|]. split; [exact Hbelow|].
  assert (Hp' : (p == 100 \/ p == 0)%Q) by (destruct Hext; [left|right]; auto).
  split; [|split].
  - apply is_outlier_single_state. destruct Hp'; lra.
  - apply is_outlier_multi_state. destruct Hp'; lra.
  - apply v2_percentile_outlier_iff. destruct Hp'; lra.
Qed.

Lemma extreme_enacted_value_is_flagged_witness :
  exists p,
    percentile [3; 4; 4; 5] 6 = Some p
    /\ (p == 100)%Q
    /\ SingleState.is_outlier p = true.
Proof.
  assert (Habove : forall x, x ∈ [3; 4; 4; 5] -> x < 6).
  { intros x Hx. repeat (apply elem_of_cons in Hx as [->|Hx]; [lia|]).
    apply elem_of_nil in Hx. destruct Hx. }
  destruct (extreme_enacted_value_is_flagged [3; 4; 4; 5] 6) as (p & Hp & H100 & _ & Hflag & _).
  - discriminate.
  - left. exact Habove.
  - exists p. split; [exact Hp|]. split; [apply H100; exact Habove | exact Hflag].
Defined.

(** X5. single_state_detection_v2.py is at least as sensitive as the two
    older scripts: every percentile they flag as an outlier is flagged
    by its percentile test too, and the percentiles from 5 up to (not
    including) 10 and above 90 up to 95 are flagged by it alone. *)
Theorem v2_flags_whatever_v1_flags (p : Q) :
  (SingleState.is_outlier p = true -> SingleStateV2.percentile_outlier p = true)
  /\ (MultiState.is_outlier p = true -> SingleStateV2.percentile_outlier p = true)
  /\ (SingleStateV2.percentile_outlier p = true /\ SingleState.is_outlier p = false
      <-> (5 <= p < 10 \/ 90 < p <= 95)%Q).
Proof.
  split; [|split].
  - intros H. apply is_outlier_single_state in H. apply v2_percentile_outlier_iff. lra.
  - intros H. apply is_outlier_multi_state in H. apply v2_percentile_outlier_iff. lra.
  - rewrite v2_percentile_outlier_iff, <- not_true_iff_false, is_outlier_single_state.
    split.
    + intros [Hv2 Hv1].
      assert (5 <= p)%Q by (apply Qnot_lt_le; intros ?; apply Hv1; left; assumption).
      assert (p <= 95)%Q by (apply Qnot_lt_le; intros ?; apply Hv1; right; lra).
      lra.
    + intros Hp. split; [lra|]. intros [H|H]; lra.
Qed.

Lemma v2_flags_whatever_v1_flags_witness :
  SingleStateV2.percentile_outlier 3 = true.
Proof. apply (proj1 (v2_flags_whatever_v1_flags 3)). reflexivity. Defined.

(** ** Standard deviation and z-score of a degenerate ensemble *)

Lemma fold_Qplus_const (l : list Q) (c a : Q) :
  (forall x, x ∈ l -> (x == c)%Q) ->
  (fold_left Qplus l a == a + inject_Z (len l) * c)%Q.
Proof.
  revert a. induction l as [|x l IH]; intros a Hall.
  - simpl. unfold len. simpl. ring.
  - cbn [fold_left]. rewrite IH by (intros y Hy; apply Hall; right; exact Hy).
    assert (Hx : (x == c)%Q) by (apply Hall; left).
    unfold len. cbn [length]. rewrite Hx. rewrite Nat2Z.inj_succ, <- Z.add_1_r, inject_Z_plus. ring.
Qed.

Lemma np_mean_const (l : list Q) (c : Q) :
  l <> [] ->
  (forall x, x ∈ l -> (x == c)%Q) ->
  (np_mean l == c)%Q.
Proof.
  intros Hne Hall. unfold np_mean, py_sum.
  rewrite (fold_Qplus_const l c 0 Hall).
  pose proof (length_pos_inject l Hne) as Hn. unfold len. field. lra.
Qed.

Lemma np_sqrt_zero (x : Q) : (x == 0)%Q -> (np_sqrt x == 0)%Q.
Proof.
  intros Hx. assert (Hnum : Qnum x = 0).
  { unfold Qeq in Hx. simpl in Hx. lia. }
  unfold np_sqrt. rewrite Hnum. reflexivity.
Qed.

Lemma np_std_degenerate (dem_wins_list : list Z) :
  degenerate dem_wins_list -> (np_std (map inject_Z dem_wins_list) == 0)%Q.
Proof.
  intros [Hne Hall].
  destruct dem_wins_list as [|v l]; [contradiction|].
  set (values := map inject_Z (v :: l)).
  assert (Hvalues : forall x, x ∈ values -> (x == inject_Z v)%Q).
  { intros x Hx. apply list_elem_of_fmap in Hx as (y & -> & Hy).
    rewrite (Hall y v Hy) by left. reflexivity. }
  assert (Hvne : values <> []) by discriminate.
  pose proof (np_mean_const values (inject_Z v) Hvne Hvalues) as Hmean.
  unfold np_std. fold values. apply np_sqrt_zero.
  apply np_mean_const.
  - discriminate.
  - intros d Hd. apply list_elem_of_fmap in Hd as (x & -> & Hx).
    unfold py_abs. pose proof (Hvalues x Hx) as Hxv. rewrite Hxv, Hmean.
    assert (Hzero : (inject_Z v - inject_Z v == 0)%Q) by ring.
    rewrite Hzero. reflexivity.
Qed.

(** X6. For a degenerate ensemble (all values identical) the standard
    deviation is 0, so the z-score is 0 for every enacted value: the
    division by the standard deviation is never reached. *)
Theorem degenerate_ensemble_has_zero_z_score (dem_wins_list : list Z)
    (initial_dem_wins : Z) :
  degenerate dem_wins_list ->
  let mean_dem := np_mean (map inject_Z dem_wins_list) in
  let std_dem := np_std (map inject_Z dem_wins_list) in
  (std_dem == 0)%Q
  /\ SingleState.z_score initial_dem_wins mean_dem std_dem = Some 0%Q
  /\ SingleStateV2.z_score initial_dem_wins mean_dem std_dem = Some 0%Q.
Proof.
  intros Hdeg mean_dem std_dem.
  pose proof (np_std_degenerate dem_wins_list Hdeg) as Hstd. fold std_dem in Hstd.
  split; [exact Hstd|].
  assert (Hlt : Qltb 0 std_dem = false) by (apply Qltb_ge; lra).
  unfold SingleState.z_score, SingleStateV2.z_score. rewrite Hlt. split; reflexivity.
Qed.

Lemma degenerate_ensemble_has_zero_z_score_witness :
  SingleStateV2.z_score 3 (np_mean (map inject_Z (replicate 10 1)))
                        (np_std (map inject_Z (replicate 10 1)))
  = Some 0%Q.
Proof.
  apply (degenerate_ensemble_has_zero_z_score (replicate 10 1) 3).
  split; [discriminate|].
  intros x y Hx Hy. apply elem_of_replicate in Hx, Hy. destruct Hx, Hy. congruence.
Defined.

(** ** The histogram of the ensemble *)

Lemma histogram_step_lookup (l : list Z) (h : gmap Z Z) (w : Z) :
  fold_left (fun h wins => <[wins := default 0 (h !! wins) + 1]> h) l h !! w
  = if bool_decide (count_equal l w = 0%nat)
    then h !! w
    else Some (default 0 (h !! w) + Z.of_nat (count_equal l w)).
Proof.
  revert h. induction l as [|x l IH]; intros h.
  - reflexivity.
  - cbn [fold_left]. rewrite IH. unfold count_equal. rewrite filter_cons.
    destruct (decide (x = w)) as [->|Hne].
    + rewrite lookup_insert_eq. cbn [length default].
      rewrite (bool_decide_eq_false_2 (S _ = 0%nat)) by discriminate.
      destruct (bool_decide (length (filter (fun x => x = w) l) = 0%nat)) eqn:E.
      * apply bool_decide_eq_true in E. rewrite E. reflexivity.
      * f_equal. unfold id. lia.
    + rewrite lookup_insert_ne by exact Hne. reflexivity.
Qed.

Lemma histogram_total_step (h : gmap Z Z) (x : Z) :
  histogram_total (<[x := default 0 (h !! x) + 1]> h) = histogram_total h + 1.
Proof.
  unfold histogram_total.
  destruct (h !! x) as [v|] eqn:Hx; cbn [default].
  - rewrite <- insert_delete_eq.
    rewrite map_fold_insert_L; [| intros; cbv beta; lia | apply lookup_delete_eq].
    rewrite (map_fold_delete_L _ 0 x v h);
      [cbv beta; unfold id; lia | intros; cbv beta; lia | exact Hx].
  - rewrite map_fold_insert_L; [cbv beta; unfold id; lia | intros; cbv beta; lia | exact Hx].
Qed.

Lemma histogram_total_fold (l : list Z) (h : gmap Z Z) :
  histogram_total (fold_left (fun h wins => <[wins := default 0 (h !! wins) + 1]> h) l h)
  = histogram_total h + len l.
Proof.
  revert h. induction l as [|x l IH]; intros h.
  - unfold len. simpl. lia.
  - cbn [fold_left]. rewrite IH, histogram_total_step. unfold len. cbn [length]. lia.
Qed.

(** X7. The histogram of the ensemble counts occurrences: a value that
    occurs in the ensemble is a key whose entry is the number of its
    occurrences, a value that does not occur is not a key, and the
    entries add up to the length of the ensemble. *)
Theorem histogram_counts_occurrences (dem_wins_list : list Z) (wins : Z) :
  (wins ∈ dem_wins_list ->
   histogram dem_wins_list !! wins = Some (Z.of_nat (count_equal dem_wins_list wins))
   /\ (0 < count_equal dem_wins_list wins)%nat)
  /\ (wins ∉ dem_wins_list -> histogram dem_wins_list !! wins = None)
  /\ histogram_total (histogram dem_wins_list) = len dem_wins_list.
Proof.
  unfold histogram. split; [|split].
  - intros Hin.
    assert (Hpos : (0 < count_equal dem_wins_list wins)%nat).
    { unfold count_equal. apply Nat.neq_0_lt_0. intros Hz.
      apply length_zero_iff_nil in Hz.
      assert (Hw : wins ∈ filter (fun x => x = wins) dem_wins_list)
        by (apply list_elem_of_filter; split; [reflexivity | exact Hin]).
      rewrite Hz in Hw. apply elem_of_nil in Hw. exact Hw. }
    split; [|exact Hpos].
    rewrite histogram_step_lookup, bool_decide_eq_false_2 by lia.
    rewrite lookup_empty. reflexivity.
  - intros Hnot. rewrite histogram_step_lookup, bool_decide_eq_true_2.
    + apply lookup_empty.
    + apply filter_length_none. intros x Hx ->. contradiction.
  - rewrite histogram_total_fold. unfold histogram_total. rewrite map_fold_empty. lia.
Qed.

Lemma histogram_counts_occurrences_witness :
  histogram [3; 4; 4; 5] !! 4 = Some 2 /\ histogram [3; 4; 4; 5] !! 6 = None.
Proof.
  split.
  - apply (proj1 (histogram_counts_occurrences [3; 4; 4; 5] 4)).
    right. left.
  - apply (proj1 (proj2 (histogram_counts_occurrences [3; 4; 4; 5] 6))).
    intros Hin. repeat (apply elem_of_cons in Hin as [Hin|Hin]; [discriminate|]).
    apply elem_of_nil in Hin. exact Hin.
Defined.

(** ** The result record of single_state_detection_v2.py *)

Lemma fold_min_le (l : list Z) (a : Z) :
  fold_left Z.min l a <= a /\ forall x, x ∈ l -> fold_left Z.min l a <= x.
Proof.
  revert a. induction l as [|y l IH]; intros a; simpl.
  - split; [lia|]. intros x Hx. apply elem_of_nil in Hx. destruct Hx.
  - destruct (IH (Z.min a y)) as [Ha Hl]. split; [lia|].
    intros x Hx. apply elem_of_cons in Hx as [->|Hx]; [lia | apply Hl; exact Hx].
Qed.

Lemma fold_min_elem (l : list Z) (a : Z) :
  fold_left Z.min l a = a \/ fold_left Z.min l a ∈ l.
Proof.
  revert a. induction l as [|y l IH]; intros a; simpl.
  - left. reflexivity.
  - destruct (IH (Z.min a y)) as [Heq|Hin].
    + rewrite Heq. destruct (Z.min_spec a y) as [[_ ->]|[_ ->]]; [left | right; left];
        reflexivity.
    + right. right. exact Hin.
Qed.

Lemma fold_max_ge (l : list Z) (a : Z) :
  a <= fold_left Z.max l a /\ forall x, x ∈ l -> x <= fold_left Z.max l a.
Proof.
  revert a. induction l as [|y l IH]; intros a; simpl.
  - split; [lia|]. intros x Hx. apply elem_of_nil in Hx. destruct Hx.
  - destruct (IH (Z.max a y)) as [Ha Hl]. split; [lia|].
    intros x Hx. apply elem_of_cons in Hx as [->|Hx]; [lia | apply Hl; exact Hx].
Qed.

Lemma fold_max_elem (l : list Z) (a : Z) :
  fold_left Z.max l a = a \/ fold_left Z.max l a ∈ l.
Proof.
  revert a. induction l as [|y l IH]; intros a; simpl.
  - left. reflexivity.
  - destruct (IH (Z.max a y)) as [Heq|Hin].
    + rewrite Heq. destruct (Z.max_spec a y) as [[_ ->]|[_ ->]]; [right; left | left];
        reflexivity.
    + right. right. exact Hin.
Qed.

Lemma py_min_spec (l : list Z) (m : Z) :
  py_min l = Some m -> m ∈ l /\ forall x, x ∈ l -> m <= x.
Proof.
  destruct l as [|a l]; [discriminate|]. intros Hm. injection Hm as <-.
  destruct (fold_min_le l a) as [Ha Hl]. split.
  - destruct (fold_min_elem l a) as [->|Hin]; [left | right; exact Hin].
  - intros x Hx. apply elem_of_cons in Hx as [->|Hx]; [exact Ha | apply Hl; exact Hx].
Qed.

Lemma py_max_spec (l : list Z) (m : Z) :
  py_max l = Some m -> m ∈ l /\ forall x, x ∈ l -> x <= m.
Proof.
  destruct l as [|a l]; [discriminate|]. intros Hm. injection Hm as <-.
  destruct (fold_max_ge l a) as [Ha Hl]. split.
  - destruct (fold_max_elem l a) as [->|Hin]; [left | right; exact Hin].
  - intros x Hx. apply elem_of_cons in Hx as [->|Hx]; [exact Ha | apply Hl; exact Hx].
Qed.

Lemma min_max_degenerate (l : list Z) (lo hi : Z) :
  py_min l = Some lo -> py_max l = Some hi ->
  lo <= hi /\ (lo = hi <-> degenerate l).
Proof.
  intros Hlo Hhi.
  destruct (py_min_spec l lo Hlo) as [Hlo_in Hlo_le].
  destruct (py_max_spec l hi Hhi) as [Hhi_in Hhi_ge].
  split; [apply Hlo_le; exact Hhi_in|]. split.
  - intros ->. split.
    + intros ->. discriminate.
    + intros x y Hx Hy.
      pose proof (Hlo_le x Hx). pose proof (Hhi_ge x Hx).
      pose proof (Hlo_le y Hy). pose proof (Hhi_ge y Hy). lia.
  - intros [_ Hall]. apply Hall; assumption.
Qed.

Lemma run_bind_Some {A B} (m : Run A) (f : A -> Run B) (out out' : list Event) (b : B) :
  run_bind f m out = (Some b, out') ->
  exists a out1, m out = (Some a, out1) /\ f a out1 = (Some b, out').
Proof.
  unfold run_bind. destruct (m out) as [[a|] out1]; [|discriminate].
  intros Hf. exists a, out1. split; [reflexivity | exact Hf].
Qed.

Lemma lift_Some {A} (o : option A) (out out1 : list Event) (a : A) :
  lift o out = (Some a, out1) -> o = Some a /\ out1 = out.
Proof. unfold lift. intros Heq. injection Heq as -> ->. split; reflexivity. Qed.

Section ResultRecordEntries.
Context `{Gerrychain}.

(** What a successful [analyze_state] has computed, and where it is in
    the dictionary it returns. *)
Lemma analyze_state_inv (state_name : string) (precincts num_districts : Z)
    (partition : Partition) (num_steps : Z) (epsilon : Q) (rng : Rng)
    (out out' : list Event) (record : list (string * Value)) :
  analyze_state state_name precincts num_districts partition num_steps epsilon rng out
  = (Some record, out') ->
  exists stats r lo hi p gap diff,
    get_district_statistics partition = Some stats
    /\ SingleStateV2.run_ensemble partition num_steps epsilon rng out = (Some r, out')
    /\ r.1 <> []
    /\ py_min r.1 = Some lo
    /\ py_max r.1 = Some hi
    /\ percentile r.1 (dem_wins partition) = Some p
    /\ dict_get "initial_dem_wins" record = Some (VInt (dem_wins partition))
    /\ dict_get "ensemble_min" record = Some (VInt lo)
    /\ dict_get "ensemble_max" record = Some (VInt hi)
    /\ dict_get "percentile" record = Some (VFloat (py_round p 1))
    /\ dict_get "ensemble_steps" record = Some (VInt num_steps)
    /\ dict_get "histogram" record = Some (VHistogram (histogram r.1))
    /\ dict_get "percentile_outlier" record = Some (VBool (percentile_outlier p))
    /\ dict_get "large_seats_votes_gap" record = Some (VBool gap)
    /\ dict_get "has_packing" record = Some (VBool (has_packing stats))
    /\ dict_get "large_seat_difference" record = Some (VBool diff)
    /\ dict_get "is_gerrymandered" record
       = Some (VBool (percentile_outlier p || gap && has_packing stats || diff && gap)).
Proof.
  unfold analyze_state, mbind, Run_bind. intros Hrun.
  apply run_bind_Some in Hrun as (stats & o1 & Hstats & Hrun).
  apply lift_Some in Hstats as [Hstats ->]. cbv beta zeta in Hrun.
  do 4 (apply run_bind_Some in Hrun as (? & ? & Hlift & Hrun);
        apply lift_Some in Hlift as [_ ->]; cbv beta zeta in Hrun).
  apply run_bind_Some in Hrun as (r & o2 & Hens & Hrun). cbv beta zeta in Hrun.
  apply run_bind_Some in Hrun as (? & ? & Hne & Hrun).
  apply lift_Some in Hne as [Hne ->]. cbv beta zeta in Hrun.
  apply run_bind_Some in Hrun as (? & ? & Hlift & Hrun).
  apply lift_Some in Hlift as [_ ->]. cbv beta zeta in Hrun.
  apply run_bind_Some in Hrun as (lo & ? & Hlo & Hrun).
  apply lift_Some in Hlo as [Hlo ->]. cbv beta zeta in Hrun.
  apply run_bind_Some in Hrun as (hi & ? & Hhi & Hrun).
  apply lift_Some in Hhi as [Hhi ->]. cbv beta zeta in Hrun.
  apply run_bind_Some in Hrun as (p & ? & Hp & Hrun).
  apply lift_Some in Hp as [Hp ->]. cbv beta zeta in Hrun.
  do 2 (apply run_bind_Some in Hrun as (? & ? & Hlift & Hrun);
        apply lift_Some in Hlift as [_ ->]; cbv beta zeta in Hrun).
  unfold mret, Run_ret, run_ret in Hrun. injection Hrun as <- <-.
  exists stats, r, lo, hi, p. eexists _, _.
  split; [exact Hstats|]. split; [exact Hens|].
  split; [destruct (bool_decide (r.1 = [])) eqn:E;
          [discriminate | apply bool_decide_eq_false in E; exact E]|].
  split; [exact Hlo|]. split; [exact Hhi|]. split; [exact Hp|].
  repeat split; reflexivity.
Qed.
End ResultRecordEntries.

Section EnsembleSamples.
Context `{Gerrychain}.

Lemma single_state_v2_step_samples (num_steps sample_interval : Z) (x : Partition) (i : Z)
    (acc r : list Z * list Partition) (out out' : list Event) :
  SingleStateV2.ensemble_step num_steps sample_interval i x acc out = (Some r, out') ->
  sample_interval <> 0
  /\ r.2 = acc.2 ++ (if i mod sample_interval =? 0 then [x] else []).
Proof.
  unfold SingleStateV2.ensemble_step. run_unfold.
  destruct (py_mod (i + 1) (num_steps / 10)) as [m|]; [|discriminate].
  assert (Hmod : forall k, py_mod i sample_interval = Some k ->
                           sample_interval <> 0 /\ k = i mod sample_interval).
  { unfold py_mod. intros k. destruct (sample_interval =? 0) eqn:E; [discriminate|].
    apply Z.eqb_neq in E. intros Hk. injection Hk as <-. split; [exact E | reflexivity]. }
  destruct (m =? 0).
  - destruct (py_floordiv ((i + 1) * 100) num_steps) as [q|]; [|discriminate].
    destruct (py_mod i sample_interval) as [k|] eqn:Hk; [|discriminate].
    destruct (Hmod k eq_refl) as [Hs ->].
    intros Heq. injection Heq as <- <-. split; [exact Hs|]. cbn [snd].
    destruct (i mod sample_interval =? 0); [reflexivity | rewrite app_nil_r; reflexivity].
  - destruct (py_mod i sample_interval) as [k|] eqn:Hk; [|discriminate].
    destruct (Hmod k eq_refl) as [Hs ->].
    intros Heq. injection Heq as <- <-. split; [exact Hs|]. cbn [snd].
    destruct (i mod sample_interval =? 0); [reflexivity | rewrite app_nil_r; reflexivity].
Qed.

(** The partitions the loop keeps are outputs of the chain, and the
    output at an index divisible by the sample interval is kept. *)
Lemma single_state_v2_loop_samples (num_steps sample_interval : Z) (xs : list Partition)
    (i : Z) (acc r : list Z * list Partition) (out out' : list Event) :
  for_enumerate (SingleStateV2.ensemble_step num_steps sample_interval) i xs acc out
  = (Some r, out') ->
  exists kept,
    r.2 = acc.2 ++ kept
    /\ (forall x, x ∈ kept -> x ∈ xs)
    /\ (forall x xs', xs = x :: xs' -> i mod sample_interval = 0 -> head kept = Some x).
Proof.
  revert i acc out. induction xs as [|x xs IH]; intros i acc out.
  - cbn. run_unfold. intros Heq. injection Heq as <- <-.
    exists []. rewrite app_nil_r. split; [reflexivity|].
    split; [intros x Hx; exact Hx | intros x xs' Hnil; discriminate].
  - cbn [for_enumerate]. unfold mbind, Run_bind, run_bind.
    destruct (SingleStateV2.ensemble_step num_steps sample_interval i x acc out)
      as [[acc1|] out1] eqn:Hstep; [|discriminate].
    apply single_state_v2_step_samples in Hstep as (Hs & Hacc1).
    intros Hrest. apply IH in Hrest as (kept & Hr & Hsub & _).
    exists ((if i mod sample_interval =? 0 then [x] else []) ++ kept).
    split; [rewrite Hr, Hacc1, app_assoc; reflexivity|]. split.
    + intros y Hy. apply elem_of_app in Hy as [Hy|Hy]; [|right; apply Hsub; exact Hy].
      destruct (i mod sample_interval =? 0); [|apply elem_of_nil in Hy; destruct Hy].
      apply list_elem_of_singleton in Hy as ->. left.
    + intros y xs' Heq Hi. injection Heq as <- <-.
      rewrite Hi. reflexivity.
Qed.

Lemma single_state_v2_run_ensemble_steps (partition : Partition) (num_steps : Z)
    (epsilon : Q) (rng : Rng) (out out' : list Event) (r : list Z * list Partition) :
  SingleStateV2.run_ensemble partition num_steps epsilon rng out = (Some r, out') ->
  partition <> []
  /\ length r.1 = Z.to_nat num_steps
  /\ (r.1 <> [] -> 10 <= num_steps /\ r.2 <> []).
Proof.
  unfold SingleStateV2.run_ensemble, try_except.
  unfold mbind at 1, Run_bind, run_bind at 1.
  pose proof (single_state_v2_chain_setup partition num_steps epsilon out) as Hsetup.
  simpl in Hsetup. rewrite Hsetup. clear Hsetup.
  destruct (py_truediv _ _) as [ideal_pop|] eqn:Hideal; [|discriminate].
  assert (Hpart : partition <> []).
  { intros ->. unfold py_truediv in Hideal. simpl in Hideal. discriminate. }
  set (chain := {| proposal := recom ideal_pop epsilon 2 |}).
  unfold mbind, Run_bind, run_bind, print at 1.
  destruct (for_enumerate _ 0 (chain_iter chain rng) ([], []) _)
    as [[r1|] out1] eqn:Hloop; [|discriminate].
  pose proof Hloop as Hsamples. pose proof Hloop as Hloop0.
  apply single_state_v2_loop_inv in Hloop as (Hr1 & _).
  apply single_state_v2_loop_samples in Hsamples as (kept & Hkept & _ & Hhead).
  assert (Hres : r = r1 -> partition <> []
                 /\ length r.1 = Z.to_nat num_steps
                 /\ (r.1 <> [] -> 10 <= num_steps /\ r.2 <> [])).
  { intros ->. split; [exact Hpart|]. split.
    - rewrite Hr1. simpl. rewrite length_map. unfold chain_iter.
      rewrite chain_outputs_length. reflexivity.
    - intros Hne.
      destruct (chain_iter chain rng) as [|x xs] eqn:Hiter;
        [rewrite Hr1 in Hne; contradiction|].
      assert (Hlen : length (chain_iter chain rng) = Z.to_nat num_steps)
        by (unfold chain_iter; rewrite chain_outputs_length; reflexivity).
      rewrite Hiter in Hlen. simpl in Hlen.
      split.
      + destruct (Z_lt_le_dec num_steps 10) as [Hlt|Hge]; [|exact Hge]. exfalso.
        assert (Hten : num_steps / 10 = 0) by (apply Z.div_small; lia).
        rewrite single_state_v2_loop_raises in Hloop0 by exact Hten. discriminate.
      + rewrite Hkept. simpl.
        specialize (Hhead x xs eq_refl (Zmod_0_l _)).
        intros Hnil. rewrite Hnil in Hhead. discriminate. }
  unfold print at 1.
  destruct (Z.of_nat (size (list_to_set r1.1 : gset Z)) =? 1); simpl;
    intros Heq; injection Heq as <- <-; apply Hres; reflexivity.
Qed.
End EnsembleSamples.

Section ResultRecordProperties.
Context `{Gerrychain}.

(** X9. In the record that [analyze_state] of single_state_detection_v2.py
    returns, [ensemble_min] is at most [ensemble_max], and the
    two are equal exactly when [run_ensemble] printed the warning about
    identical results: the record lets the caller recognise a degenerate
    ensemble although it has no flag for it. *)
Theorem min_equals_max_iff_warned (state_name : string) (precincts num_districts : Z)
    (partition : Partition) (num_steps : Z) (epsilon : Q) (rng : Rng)
    (out out' : list Event) (record : list (string * Value)) :
  analyze_state state_name precincts num_districts partition num_steps epsilon rng out
  = (Some record, out') ->
  exists lo hi evs,
    dict_get "ensemble_min" record = Some (VInt lo)
    /\ dict_get "ensemble_max" record = Some (VInt hi)
    /\ lo <= hi
    /\ out' = out ++ evs
    /\ (lo = hi <-> WarnIdenticalResults ∈ evs).
Proof.
  intros Hrun.
  destruct (analyze_state_inv _ _ _ _ _ _ _ _ _ _ Hrun)
    as (stats & r & lo & hi & p & gap & diff & _ & Hens & _ & Hlo & Hhi & _ & _ & Hmin
        & Hmax & _).
  destruct (single_state_v2_run_ensemble_warns _ _ _ _ _ _ _ Hens)
    as (_ & evs & Hout & Hwarn).
  destruct (min_max_degenerate r.1 lo hi Hlo Hhi) as [Hle Hdeg].
  exists lo, hi, evs.
  split; [exact Hmin|]. split; [exact Hmax|]. split; [exact Hle|]. split; [exact Hout|].
  rewrite Hwarn. exact Hdeg.
Qed.

(** X10. A record is only returned for an ensemble of at least ten
    steps; its [ensemble_steps] entry is the number of steps asked for,
    which is the number of values of the ensemble, and the entries of
    its [histogram] add up to it. *)
Theorem histogram_adds_up_to_ensemble_steps (state_name : string)
    (precincts num_districts : Z) (partition : Partition) (num_steps : Z) (epsilon : Q)
    (rng : Rng) (out out' : list Event) (record : list (string * Value)) :
  analyze_state state_name precincts num_districts partition num_steps epsilon rng out
  = (Some record, out') ->
  exists dem_wins_list partitions_sample,
    SingleStateV2.run_ensemble partition num_steps epsilon rng out
    = (Some (dem_wins_list, partitions_sample), out')
    /\ 10 <= num_steps
    /\ len dem_wins_list = num_steps
    /\ dict_get "ensemble_steps" record = Some (VInt num_steps)
    /\ dict_get "histogram" record = Some (VHistogram (histogram dem_wins_list))
    /\ histogram_total (histogram dem_wins_list) = num_steps.
Proof.
  intros Hrun.
  destruct (analyze_state_inv _ _ _ _ _ _ _ _ _ _ Hrun)
    as (stats & [l samples] & lo & hi & p & gap & diff & _ & Hens & Hne & _ & _ & _ & _ & _
        & _ & _ & Hsteps & Hhist & _).
  destruct (single_state_v2_run_ensemble_steps _ _ _ _ _ _ _ Hens) as (_ & Hlen & Hten).
  destruct (Hten Hne) as [Hten' _]. cbn [fst] in *.
  assert (Hl : len l = num_steps) by (unfold len; lia).
  exists l, samples.
  split; [exact Hens|]. split; [exact Hten'|]. split; [exact Hl|].
  split; [exact Hsteps|]. split; [exact Hhist|].
  unfold histogram. rewrite histogram_total_fold.
  unfold histogram_total. rewrite map_fold_empty. lia.
Qed.
End ResultRecordProperties.

Lemma guarded_share_total (a t : Q) :
  exists v,
    (if Qltb 0 t then r ← py_truediv a t; Some (r * 100)%Q else Some 0%Q) = Some v.
Proof.
  destruct (Qltb 0 t) eqn:E.
  - apply Qltb_lt in E. rewrite py_truediv_Some by lra. eexists. reflexivity.
  - eexists. reflexivity.
Qed.

Lemma seat_share_total (a : Z) (num_districts : Z) :
  num_districts <> 0 ->
  exists v,
    (r ← py_truediv (inject_Z a) (inject_Z num_districts); Some (r * 100)%Q) = Some v.
Proof.
  intros Hn. rewrite py_truediv_Some.
  - eexists. reflexivity.
  - unfold Qeq. simpl. lia.
Qed.

Lemma z_score_total (initial_dem_wins : Z) (mean_dem std_dem : Q) :
  exists z, SingleStateV2.z_score initial_dem_wins mean_dem std_dem = Some z.
Proof.
  unfold SingleStateV2.z_score. destruct (Qltb 0 std_dem) eqn:E.
  - apply Qltb_lt in E. rewrite py_truediv_Some by lra. eexists. reflexivity.
  - eexists. reflexivity.
Qed.

Lemma py_min_max_total (l : list Z) :
  l <> [] -> exists lo hi, py_min l = Some lo /\ py_max l = Some hi.
Proof. destruct l; [contradiction|]. intros _. eexists _, _. split; reflexivity. Qed.

Section AnalyzeStateTotal.
Context `{Gerrychain}.

Lemma single_state_v2_run_ensemble_succeeds (partition : Partition) (num_steps : Z)
    (epsilon : Q) (rng : Rng) (out : list Event) :
  partition <> [] ->
  10 <= num_steps ->
  exists r out', SingleStateV2.run_ensemble partition num_steps epsilon rng out = (Some r, out').
Proof.
  intros Hpart Hn.
  assert (Hten : num_steps / 10 <> 0).
  { pose proof (Z.div_le_mono 10 num_steps 10 ltac:(lia) Hn) as Hd.
    change (10 / 10) with 1 in Hd. lia. }
  unfold SingleStateV2.run_ensemble, try_except.
  unfold mbind at 1, Run_bind, run_bind at 1.
  pose proof (single_state_v2_chain_setup partition num_steps epsilon out) as Hsetup.
  simpl in Hsetup. rewrite Hsetup. clear Hsetup.
  rewrite py_truediv_Some.
  2:{ unfold len. destruct partition; [contradiction|].
      simpl length. rewrite Nat2Z.inj_succ. unfold Qeq. simpl. lia. }
  set (chain := {| total_steps := num_steps |}).
  unfold mbind, Run_bind, run_bind, print at 1.
  match goal with
  | |- context [for_enumerate _ 0 _ ?acc ?o] =>
      destruct (single_state_v2_loop_appends num_steps (chain_iter chain rng) 0 acc o Hten)
        as (samples & evs & -> & _)
  end.
  unfold print at 1.
  destruct (Z.of_nat (size (list_to_set _ : gset Z)) =? 1); simpl; eexists _, _; reflexivity.
Qed.

(** X11. For a partition as the embedding has it (integer district
    labels and numbers as tallies: no NaN tally, on which
    [int(total_dem)] raises, and no mixed labels, on which [sorted]
    raises), [analyze_state] of single_state_detection_v2.py returns a
    record whenever the partition has a district, the number of
    districts it is given is not zero and the ensemble has at least ten
    steps: none of its divisions, [min], [max] or the ensemble-average
    map can fail then. *)
Theorem analyze_state_returns_a_record (state_name : string) (precincts num_districts : Z)
    (partition : Partition) (num_steps : Z) (epsilon : Q) (rng : Rng) (out : list Event) :
  partition <> [] ->
  num_districts <> 0 ->
  10 <= num_steps ->
  exists record out',
    analyze_state state_name precincts num_districts partition num_steps epsilon rng out
    = (Some record, out')
    /\ record.*1 = result_keys.
Proof.
  intros Hpart Hnd Hn.
  assert (Hsome : exists record out',
             analyze_state state_name precincts num_districts partition num_steps epsilon
                           rng out = (Some record, out')).
  { destruct (get_district_statistics_total partition) as (stats & Hstats & _).
    destruct (single_state_v2_run_ensemble_succeeds partition num_steps epsilon rng out
                Hpart Hn) as (r & out' & Hens).
    destruct (single_state_v2_run_ensemble_steps _ _ _ _ _ _ _ Hens) as (_ & Hlen & _).
    assert (Hne : r.1 <> []).
    { intros Hnil. rewrite Hnil in Hlen. simpl in Hlen. lia. }
    destruct (calculate_ensemble_average_map_total r.2) as (avg & Havg & _).
    destruct (py_min_max_total r.1 Hne) as (lo & hi & Hlo & Hhi).
    destruct (percentile_value r.1 (dem_wins partition) Hne) as (p & Hp & _).
    unfold analyze_state, mbind at 1 2 3 4 5 6 7 8 9 10 11 12 13, Run_bind, run_bind, lift.
    cbv zeta. rewrite Hstats.
    destruct (guarded_share_total (py_sum (map dem_votes partition))
                (py_sum (map dem_votes partition) + py_sum (map rep_votes partition)))
      as [dvs ->].
    destruct (guarded_share_total (py_sum (map rep_votes partition))
                (py_sum (map dem_votes partition) + py_sum (map rep_votes partition)))
      as [rvs ->].
    destruct (seat_share_total (dem_wins partition) num_districts Hnd) as [dss ->].
    destruct (seat_share_total (num_districts - dem_wins partition) num_districts Hnd)
      as [rss ->].
    rewrite Hens. rewrite (bool_decide_eq_false_2 _ Hne).
    rewrite Havg, Hlo, Hhi, Hp.
    destruct (z_score_total (dem_wins partition) (np_mean (map inject_Z r.1))
                (np_std (map inject_Z r.1))) as [z ->].
    rewrite py_truediv_Some by (unfold Qeq; simpl; lia).
    eexists _, _. reflexivity. }
  destruct Hsome as (record & out' & Hrun).
  exists record, out'. split; [exact Hrun|].
  apply (analyze_state_keys state_name precincts num_districts partition num_steps epsilon
           rng out). rewrite Hrun. reflexivity.
Qed.
End AnalyzeStateTotal.

Section AnalyzeStateFails.
Context `{Gerrychain}.

Lemma analyze_state_needs_districts (state_name : string) (precincts num_districts : Z)
    (partition : Partition) (num_steps : Z) (epsilon : Q) (rng : Rng)
    (out out' : list Event) (record : list (string * Value)) :
  analyze_state state_name precincts num_districts partition num_steps epsilon rng out
  = (Some record, out') ->
  num_districts <> 0.
Proof.
  unfold analyze_state, mbind at 1 2 3 4, Run_bind. intros Hrun.
  do 3 (apply run_bind_Some in Hrun as (? & ? & Hlift & Hrun);
        apply lift_Some in Hlift as [_ ->]; cbv beta zeta in Hrun).
  apply run_bind_Some in Hrun as (? & ? & Hlift & _).
  apply lift_Some in Hlift as [Hshare _].
  intros ->. rewrite py_truediv_None in Hshare by reflexivity. discriminate.
Qed.

(** X12. [analyze_state] of single_state_detection_v2.py returns no
    record when the ensemble has fewer than ten steps (for 1 to 9 steps
    the progress test of [run_ensemble] divides by zero, for 0 steps or
    fewer the ensemble is empty), when the number of districts it is
    given is zero, or when the partition has no district. *)
Theorem analyze_state_returns_nothing (state_name : string) (precincts num_districts : Z)
    (partition : Partition) (num_steps : Z) (epsilon : Q) (rng : Rng) (out : list Event) :
  num_steps < 10 \/ num_districts = 0 \/ partition = [] ->
  (analyze_state state_name precincts num_districts partition num_steps epsilon rng out).1
  = None.
Proof.
  intros Hbad.
  destruct (analyze_state state_name precincts num_districts partition num_steps epsilon
                          rng out) as [[record|] out'] eqn:Hrun; [exfalso | reflexivity].
  pose proof (analyze_state_needs_districts _ _ _ _ _ _ _ _ _ _ Hrun) as Hnd.
  destruct (analyze_state_inv _ _ _ _ _ _ _ _ _ _ Hrun)
    as (stats & r & lo & hi & p & gap & diff & _ & Hens & Hne & _).
  destruct (single_state_v2_run_ensemble_steps _ _ _ _ _ _ _ Hens) as (Hpart & _ & Hten).
  destruct (Hten Hne) as [Hten' _].
  destruct Hbad as [Hlt|[Hz|Hnil]]; [lia | contradiction | contradiction].
Qed.
End AnalyzeStateFails.

Lemma analyze_state_returns_nothing_witness :
  (analyze_state (H := idle_gerrychain) "test" 4 2 two_districts 9 (1 # 20) tt []).1 = None
  /\ (analyze_state (H := idle_gerrychain) "test" 4 0 two_districts 1000 (1 # 20) tt []).1
     = None.
Proof.
  split.
  - apply (analyze_state_returns_nothing (H := idle_gerrychain)). left. lia.
  - apply (analyze_state_returns_nothing (H := idle_gerrychain)). right. left. reflexivity.
Defined.

Lemma analyze_state_returns_a_record_witness :
  exists record out',
    analyze_state (H := idle_gerrychain) "test" 4 2 two_districts 10 (1 # 20) tt []
    = (Some record, out')
    /\ record.*1 = result_keys.
Proof.
  apply (analyze_state_returns_a_record (H := idle_gerrychain)); [discriminate | lia | lia].
Defined.

Lemma min_equals_max_iff_warned_witness :
  exists (lo hi : Z) (evs : list Event),
    dict_get "ensemble_min"
             (default [] (analyze_state (H := idle_gerrychain) "test" 4 2 two_districts 10
                                        (1 # 20) tt []).1)
    = Some (VInt lo)
    /\ dict_get "ensemble_max"
                (default [] (analyze_state (H := idle_gerrychain) "test" 4 2 two_districts 10
                                           (1 # 20) tt []).1)
       = Some (VInt hi)
    /\ (lo = hi <-> WarnIdenticalResults ∈ evs).
Proof.
  destruct (analyze_state (H := idle_gerrychain) "test" 4 2 two_districts 10 (1 # 20) tt [])
    as [[record|] out'] eqn:Hrun.
  - destruct (min_equals_max_iff_warned (H := idle_gerrychain) _ _ _ _ _ _ _ _ _ _ Hrun)
      as (lo & hi & evs & Hlo & Hhi & _ & _ & Hiff).
    exists lo, hi, evs. split; [exact Hlo|]. split; [exact Hhi | exact Hiff].
  - vm_compute in Hrun. discriminate.
Defined.

Lemma histogram_adds_up_to_ensemble_steps_witness :
  exists dem_wins_list,
    len dem_wins_list = 10 /\ histogram_total (histogram dem_wins_list) = 10.
Proof.
  destruct (analyze_state (H := idle_gerrychain) "test" 4 2 two_districts 10 (1 # 20) tt [])
    as [[record|] out'] eqn:Hrun.
  - destruct (histogram_adds_up_to_ensemble_steps (H := idle_gerrychain)
                _ _ _ _ _ _ _ _ _ _ Hrun)
      as (l & samples & _ & _ & Hlen & _ & _ & Htotal).
    exists l. split; [exact Hlen | exact Htotal].
  - vm_compute in Hrun. discriminate.
Defined.

(** ** The district statistics *)

#[local] Instance district_le_total : Total district_le.
Proof. intros a b. unfold district_le. lia. Qed.

#[local] Instance district_le_trans : Transitive district_le.
Proof. intros a b c. unfold district_le. lia. Qed.

Lemma Forall2_fmap_eq {A B C} (f : A -> C) (g : B -> C) (R : A -> B -> Prop)
    (l : list A) (k : list B) :
  (forall x y, R x y -> f x = g y) -> Forall2 R l k -> f <$> l = g <$> k.
Proof.
  intros HR. induction 1 as [|x y l k Hxy _ IH]; [reflexivity|].
  cbn. rewrite (HR x y Hxy), IH. reflexivity.
Qed.

(** The bounds of the percentages of one district. *)
Lemma district_statistics_bounds (d : DistrictTally) (s : DistrictStats) :
  district_statistics d = Some s ->
  (0 <= st_dem_votes s)%Q -> (0 <= st_rep_votes s)%Q ->
  (0 <= st_dem_pct s <= 100)%Q
  /\ (0 <= st_rep_pct s <= 100)%Q
  /\ (0 <= st_margin_pct s <= 100)%Q
  /\ (st_winner s = DEM -> (st_rep_pct s <= 50 <= st_dem_pct s)%Q)
  /\ (st_winner s = REP ->
      (st_dem_pct s <= 50)%Q /\ ((0 < st_total_votes s)%Q -> (50 <= st_rep_pct s)%Q)).
Proof.
  intros Hs Hdem Hrep.
  destruct (district_statistics_total d)
    as (s' & Hs' & _ & Hd & Hr & Ht & Hw & Hshares & Hzero).
  rewrite Hs in Hs'. injection Hs' as <-.
  rewrite Hd in Hdem. rewrite Hr in Hrep. rewrite Ht, Hw.
  unfold two_party_vote in *. unfold winner_of.
  set (dem := dem_votes d) in *. set (rep := rep_votes d) in *.
  destruct (Qlt_le_dec 0 (dem + rep)) as [Hpos|Hnpos].
  - destruct (Hshares Hpos) as (Edem & Erep & Emargin).
    assert (Hd0 : (0 <= dem / (dem + rep))%Q) by (apply Qle_shift_div_l; [exact Hpos|lra]).
    assert (Hd1 : (dem / (dem + rep) <= 1)%Q) by (apply Qle_shift_div_r; [exact Hpos|lra]).
    assert (Hr0 : (0 <= rep / (dem + rep))%Q) by (apply Qle_shift_div_l; [exact Hpos|lra]).
    assert (Hr1 : (rep / (dem + rep) <= 1)%Q) by (apply Qle_shift_div_r; [exact Hpos|lra]).
    assert (Hm0 : (0 <= Qabs (dem - rep) / (dem + rep))%Q).
    { apply Qle_shift_div_l; [exact Hpos|]. pose proof (Qabs_nonneg (dem - rep)). lra. }
    assert (Hm1 : (Qabs (dem - rep) / (dem + rep) <= 1)%Q).
    { apply Qle_shift_div_r; [exact Hpos|]. apply Qabs_Qle_condition. lra. }
    rewrite Edem, Erep, Emargin.
    set (sd := (dem / (dem + rep))%Q) in *. set (sr := (rep / (dem + rep))%Q) in *.
    set (sm := (Qabs (dem - rep) / (dem + rep))%Q) in *.
    split; [lra|]. split; [lra|]. split; [lra|].
    destruct (Qltb rep dem) eqn:E.
    + apply Qltb_lt in E.
      assert (Hhalf : (1 # 2 <= sd)%Q) by (apply Qle_shift_div_l; [exact Hpos|lra]).
      assert (Hhalf' : (sr <= 1 # 2)%Q) by (apply Qle_shift_div_r; [exact Hpos|lra]).
      split; [intros _; lra|discriminate].
    + apply Qltb_ge in E.
      assert (Hhalf : (sd <= 1 # 2)%Q) by (apply Qle_shift_div_r; [exact Hpos|lra]).
      assert (Hhalf' : (1 # 2 <= sr)%Q) by (apply Qle_shift_div_l; [exact Hpos|lra]).
      split; [discriminate|]. intros _. split; [lra|intros _; lra].
  - destruct Hzero as (-> & -> & ->); [lra|].
    split; [lra|]. split; [lra|]. split; [lra|].
    destruct (Qltb rep dem) eqn:E.
    + apply Qltb_lt in E. lra.
    + split; [discriminate|]. intros _. split; [lra|intros Hp; lra].
Qed.

(** X13. For integer district labels [get_district_statistics] returns
    one entry per district, in increasing order of the district number
    (as its docstring says).  In an entry without negative votes the
    three percentages lie between 0 and 100, and the winner's percentage
    is at least 50 while the loser's is at most 50 (an entry without
    votes is labelled REP and has all percentages 0). *)
Theorem district_statistics_are_sorted_and_bounded (partition : Partition) :
  exists stats,
    get_district_statistics partition = Some stats
    /\ length stats = length partition
    /\ StronglySorted Z.le (st_district <$> stats)
    /\ (forall s, s ∈ stats ->
          (0 <= st_dem_votes s)%Q -> (0 <= st_rep_votes s)%Q ->
          (0 <= st_dem_pct s <= 100)%Q
          /\ (0 <= st_rep_pct s <= 100)%Q
          /\ (0 <= st_margin_pct s <= 100)%Q
          /\ (st_winner s = DEM -> (st_rep_pct s <= 50 <= st_dem_pct s)%Q)
          /\ (st_winner s = REP ->
              (st_dem_pct s <= 50)%Q
              /\ ((0 < st_total_votes s)%Q -> (50 <= st_rep_pct s)%Q))).
Proof.
  destruct (get_district_statistics_total partition) as (stats & Hstats & _ & Hbwd).
  exists stats. split; [exact Hstats|].
  pose proof Hstats as Hall. unfold get_district_statistics in Hall.
  apply mapM_Some_1 in Hall.
  split; [|split].
  - rewrite <- (Forall2_length _ _ _ Hall). unfold sorted_by_district.
    apply Permutation_length, merge_sort_Permutation.
  - assert (Hkeys : district <$> sorted_by_district partition = st_district <$> stats).
    { apply (Forall2_fmap_eq district st_district _ _ _) in Hall; [exact Hall|].
      intros d s Hs.
      destruct (district_statistics_total d) as (s' & Hs' & Hk & _).
      rewrite Hs in Hs'. injection Hs' as <-. symmetry. exact Hk. }
    rewrite <- Hkeys.
    apply (StronglySorted_fmap district district_le Z.le); [intros a b Hab; exact Hab|].
    apply StronglySorted_merge_sort; apply _.
  - intros s Hin Hdem Hrep. destruct (Hbwd s Hin) as (d & _ & Hs).
    apply (district_statistics_bounds d s Hs Hdem Hrep).
Qed.

Lemma district_statistics_are_sorted_and_bounded_witness :
  exists stats,
    get_district_statistics two_districts = Some stats
    /\ length stats = 2%nat
    /\ StronglySorted Z.le (st_district <$> stats)
    /\ forall s, s ∈ stats -> (0 <= st_dem_pct s <= 100)%Q.
Proof.
  destruct (district_statistics_are_sorted_and_bounded two_districts)
    as (stats & Hstats & Hlen & Hsorted & Hbounds).
  exists stats. split; [exact Hstats|]. split; [exact Hlen|]. split; [exact Hsorted|].
  intros s Hs. apply (Hbounds s Hs).
  - vm_compute in Hstats. injection Hstats as <-.
    repeat (apply elem_of_cons in Hs as [->|Hs]); [| |apply elem_of_nil in Hs; destruct Hs];
      cbn; lra.
  - vm_compute in Hstats. injection Hstats as <-.
    repeat (apply elem_of_cons in Hs as [->|Hs]); [| |apply elem_of_nil in Hs; destruct Hs];
      cbn; lra.
Defined.

(** ** The loaded graph *)

Lemma degree_pos_of_neighbour (graph : Graph) (n m : Z) :
  m ∈ default ∅ (graph !! n) -> degree graph n <> 0.
Proof.
  intros Hm. unfold degree.
  assert (Hsize : size (default ∅ (graph !! n)) <> 0%nat).
  { intros Hz. apply size_empty_iff in Hz. rewrite Hz in Hm.
    apply not_elem_of_empty in Hm. exact Hm. }
  destruct (bool_decide (n ∈ default ∅ (graph !! n))); lia.
Qed.

Lemma isolated_nodes_of_clean (graph : Graph) :
  isolated_nodes (remove_nodes_from graph (isolated_nodes graph)) = [].
Proof.
  destruct (remove_isolated_nodes_clean graph) as (Hclean & _).
  destruct (isolated_nodes (remove_nodes_from graph (isolated_nodes graph)))
    as [|n ns] eqn:E; [reflexivity|].
  exfalso.
  assert (Hn : n ∈ isolated_nodes (remove_nodes_from graph (isolated_nodes graph)))
    by (rewrite E; left).
  apply elem_of_isolated_nodes in Hn as [Hin Hdeg].
  apply (Hclean n Hin Hdeg).
Qed.

(** X14. Loading is idempotent and keeps the graph well formed.  A graph
    that a loader returned has no isolated node left, so loading it
    again returns it unchanged; and when the adjacency of the graph read
    from the file is symmetric, so is that of the returned graph: every
    neighbour of a remaining node is itself a remaining node. *)
Theorem loading_is_idempotent (input : Graph) (out : list Event) :
  let graph := remove_nodes_from input (isolated_nodes input) in
  (SingleState.load_state_data (Some input) out).1 = Some graph
  /\ (SingleState.load_state_data (Some graph) out).1 = Some graph
  /\ (SingleStateV2.load_state_data (Some graph) out).1 = Some graph
  /\ (MultiState.load_state_data (Some graph) out).1 = Some graph
  /\ (symmetric_adjacency input ->
      symmetric_adjacency graph
      /\ forall n m, m ∈ default ∅ (graph !! n) -> m ∈ nodes graph).
Proof.
  intros graph.
  assert (Hagain : remove_nodes_from graph (isolated_nodes graph) = graph).
  { subst graph. rewrite isolated_nodes_of_clean. reflexivity. }
  split; [apply load_state_data_returns|].
  split; [rewrite <- Hagain at 2; apply load_state_data_returns|].
  split; [rewrite <- Hagain at 2; apply (load_state_data_returns graph out)|].
  split; [rewrite <- Hagain at 2; apply load_state_data_returns|].
  intros Hsym.
  assert (Hsym' : symmetric_adjacency graph).
  { intros n nbrs Hn m Hm. subst graph.
    rewrite remove_isolated_nodes_lookup in Hn.
    destruct (bool_decide (degree input n = 0)); [discriminate|].
    pose proof (Hsym n nbrs Hn m Hm) as Hback. cbv beta in Hback.
    rewrite remove_isolated_nodes_lookup.
    rewrite bool_decide_eq_false_2 by (apply (degree_pos_of_neighbour input m n Hback)).
    exact Hback. }
  split; [exact Hsym'|].
  intros n m Hm.
  destruct (graph !! n) as [nbrs|] eqn:Hn; [|apply not_elem_of_empty in Hm; destruct Hm].
  pose proof (Hsym' n nbrs Hn m Hm) as Hback. cbv beta in Hback.
  apply elem_of_nodes.
  destruct (graph !! m) as [nbrs'|]; [eexists; reflexivity|].
  apply not_elem_of_empty in Hback. destruct Hback.
Qed.

Lemma loading_is_idempotent_witness :
  symmetric_adjacency (remove_nodes_from island_graph (isolated_nodes island_graph)).
Proof.
  apply (loading_is_idempotent island_graph []).
  apply (bool_decide_unpack _). vm_compute. exact I.
Defined.

(** ** The ensemble-average map *)

#[local] Instance key_le_total {V} : Total (@key_le V).
Proof. intros a b. unfold key_le. lia. Qed.

#[local] Instance key_le_trans {V} : Transitive (@key_le V).
Proof. intros a b c. unfold key_le. lia. Qed.

Lemma avg_stats_init_lookup (ks : list Z) (m : gmap Z Samples) (k : Z) :
  fold_left (fun m k => <[k := {| s_dem_votes := []; s_rep_votes := [];
                                  s_population := [] |}]> m) ks m !! k
  = if bool_decide (k ∈ ks)
    then Some {| s_dem_votes := []; s_rep_votes := []; s_population := [] |}
    else m !! k.
Proof.
  revert m. induction ks as [|x ks IH]; intros m; cbn [fold_left].
  - rewrite bool_decide_eq_false_2 by apply not_elem_of_nil. reflexivity.
  - rewrite IH. destruct (decide (k ∈ ks)) as [Hin|Hin].
    + rewrite !bool_decide_eq_true_2; [reflexivity | right; exact Hin | exact Hin].
    + rewrite (bool_decide_eq_false_2 _ Hin). destruct (decide (k = x)) as [->|Hne].
      * rewrite lookup_insert_eq, bool_decide_eq_true_2 by left. reflexivity.
      * rewrite lookup_insert_ne by congruence.
        rewrite bool_decide_eq_false_2; [reflexivity|].
        intros Hc. apply elem_of_cons in Hc as [?|?]; contradiction.
Qed.

Lemma collect_rows_lookup (rows : list DistrictTally) (m : gmap Z Samples) (k : Z) :
  fold_left (fun m d => alter (append_sample d) (district d) m) rows m !! k
  = (fun s => fold_left (fun s d => append_sample d s)
                        (filter (fun d => district d = k) rows) s) <$> m !! k.
Proof.
  revert m. induction rows as [|d rows IH]; intros m; cbn [fold_left].
  - destruct (m !! k); reflexivity.
  - rewrite IH, filter_cons. destruct (decide (district d = k)) as [<-|Hne].
    + rewrite lookup_alter_eq. destruct (m !! district d); reflexivity.
    + rewrite lookup_alter_ne by exact Hne. reflexivity.
Qed.

Lemma fold_left_concat {A B} (f : A -> B -> A) (ls : list (list B)) (a : A) :
  fold_left (fun a l => fold_left f l a) ls a = fold_left f (concat ls) a.
Proof.
  revert a. induction ls as [|l ls IH]; intros a; [reflexivity|].
  cbn [fold_left concat]. rewrite IH, fold_left_app. reflexivity.
Qed.

Lemma append_samples_lists (rows : list DistrictTally) (s : Samples) :
  let s' := fold_left (fun s d => append_sample d s) rows s in
  s_dem_votes s' = s_dem_votes s ++ (dem_votes <$> rows)
  /\ s_rep_votes s' = s_rep_votes s ++ (rep_votes <$> rows)
  /\ s_population s' = s_population s ++ (population <$> rows).
Proof.
  revert s. induction rows as [|d rows IH]; intros s; cbn [fold_left].
  - cbn. rewrite !app_nil_r. repeat split; reflexivity.
  - destruct (IH (append_sample d s)) as (Hd & Hr & Hp).
    cbn zeta. rewrite Hd, Hr, Hp. cbn. rewrite <- !app_assoc. repeat split; reflexivity.
Qed.

(** The dictionary [avg_stats] after the first two loops. *)
Lemma collect_samples_lookup (p : Partition) (ps : list Partition) (k : Z) (s : Samples) :
  collect_samples (p :: ps) !! k = Some s ->
  k ∈ district <$> p
  /\ s_dem_votes s = dem_votes <$> sampled_tallies k (p :: ps)
  /\ s_rep_votes s = rep_votes <$> sampled_tallies k (p :: ps)
  /\ s_population s = population <$> sampled_tallies k (p :: ps).
Proof.
  unfold collect_samples. cbn [head default].
  rewrite (fold_left_concat (fun m d => alter (append_sample d) (district d) m)).
  rewrite collect_rows_lookup, avg_stats_init_lookup, lookup_empty.
  case_bool_decide as E; [|cbn; discriminate].
  cbn. intros Heq. injection Heq as <-.
  split; [exact E|].
  exact (append_samples_lists (filter (fun d => district d = k) (concat (p :: ps)))
           {| s_dem_votes := []; s_rep_votes := []; s_population := [] |}).
Qed.

Lemma collect_samples_keys (p : Partition) (ps : list Partition) (k : Z) :
  is_Some (collect_samples (p :: ps) !! k) <-> k ∈ district <$> p.
Proof.
  unfold collect_samples. cbn [head default].
  rewrite (fold_left_concat (fun m d => alter (append_sample d) (district d) m)).
  rewrite collect_rows_lookup, avg_stats_init_lookup, lookup_empty.
  case_bool_decide as E; cbn.
  - split; [intros _; exact E | intros _; eexists; reflexivity].
  - split; [intros [? Hx]; discriminate | intros Hin; contradiction].
Qed.

Lemma average_statistics_votes (entry : Z * Samples) (s : DistrictStats) :
  average_statistics entry = Some s ->
  st_district s = entry.1
  /\ st_dem_votes s = np_mean (s_dem_votes entry.2)
  /\ st_rep_votes s = np_mean (s_rep_votes entry.2)
  /\ st_population s = np_mean (s_population entry.2).
Proof.
  unfold average_statistics.
  destruct (Qltb 0 _).
  - destruct (py_truediv (np_mean (s_dem_votes entry.2)) _); [|discriminate].
    destruct (py_truediv (np_mean (s_rep_votes entry.2)) _); [|discriminate].
    destruct (py_truediv (py_abs _) _); [|discriminate].
    cbn. intros Heq. injection Heq as <-. repeat split; reflexivity.
  - cbn. intros Heq. injection Heq as <-. repeat split; reflexivity.
Qed.

(** The result of [calculate_ensemble_average_map] on a non-empty
    sample, entry by entry. *)
Lemma ensemble_average_map_entries (p : Partition) (ps : list Partition) :
  exists result,
    calculate_ensemble_average_map (p :: ps) = Some (Some result)
    /\ StronglySorted Z.le (st_district <$> result)
    /\ (forall k, k ∈ st_district <$> result <-> k ∈ district <$> p)
    /\ (forall s, s ∈ result ->
          let tallies := sampled_tallies (st_district s) (p :: ps) in
          st_dem_votes s = np_mean (dem_votes <$> tallies)
          /\ st_rep_votes s = np_mean (rep_votes <$> tallies)
          /\ st_population s = np_mean (population <$> tallies)
          /\ st_total_votes s = (st_dem_votes s + st_rep_votes s)%Q
          /\ (~ (0 < st_total_votes s)%Q ->
              st_dem_pct s = 0%Q /\ st_rep_pct s = 0%Q /\ st_margin_pct s = 0%Q)).
Proof.
  destruct (calculate_ensemble_average_map_total (p :: ps)) as (r & Hr & _ & Hsome).
  destruct Hsome as (result & -> & _); [discriminate|].
  exists result. split; [exact Hr|].
  unfold calculate_ensemble_average_map in Hr.
  set (entries := merge_sort key_le (map_to_list (collect_samples (p :: ps)))) in *.
  destruct (mapM average_statistics entries) as [result'|] eqn:Hmap; [|discriminate].
  cbn in Hr. injection Hr as ->.
  apply mapM_Some_1 in Hmap.
  assert (Hkeys : fst <$> entries = st_district <$> result).
  { apply (Forall2_fmap_eq fst st_district _ _ _) in Hmap; [exact Hmap|].
    intros entry s Hs. apply average_statistics_votes in Hs as [Hk _]. symmetry. exact Hk. }
  assert (Hentry : forall entry, entry ∈ entries <-> collect_samples (p :: ps) !! entry.1
                                                     = Some entry.2).
  { intros [k v]. unfold entries. rewrite merge_sort_Permutation.
    apply elem_of_map_to_list. }
  split; [|split].
  - rewrite <- Hkeys.
    apply (StronglySorted_fmap fst key_le Z.le); [intros a b Hab; exact Hab|].
    apply StronglySorted_merge_sort; apply _.
  - intros k. rewrite <- Hkeys, <- collect_samples_keys, list_elem_of_fmap. split.
    + intros ([k' v] & -> & Hin). apply Hentry in Hin. eexists. exact Hin.
    + intros [v Hv]. exists (k, v). split; [reflexivity|]. apply Hentry. exact Hv.
  - intros s Hs tallies.
    destruct (Forall2_elem_of_r _ _ _ _ Hmap Hs) as ([k v] & Hin & Havg).
    apply Hentry in Hin. cbn [fst snd] in Hin.
    destruct (average_statistics_total (k, v)) as (s' & Hs' & _ & Ht & Hz).
    rewrite Havg in Hs'. injection Hs' as <-.
    apply average_statistics_votes in Havg as (Hk & Hd & Hrep & Hpop).
    cbn [fst snd] in *. subst tallies. rewrite Hk.
    apply collect_samples_lookup in Hin as (_ & Hdl & Hrl & Hpl).
    split; [rewrite Hd, Hdl; reflexivity|].
    split; [rewrite Hrep, Hrl; reflexivity|].
    split; [rewrite Hpop, Hpl; reflexivity|].
    split; [rewrite Ht, Hd, Hrep; reflexivity|exact Hz].
Qed.

(** C10. The district-level percentages are total.  For partitions as
    the embedding has them (integer district labels, numbers as
    tallies), [get_district_statistics] returns an entry for every
    district of the partition, and [calculate_ensemble_average_map]
    returns None for an empty sample and otherwise an entry for every
    district of the first sampled partition; no division raises.  In
    both, an entry whose two-party vote total is zero has Democratic
    percentage, Republican percentage and margin percentage 0. *)
Theorem district_percentages_total :
  (forall partition : Partition,
     exists stats,
       get_district_statistics partition = Some stats
       /\ (forall d, d ∈ partition ->
             exists s, s ∈ stats /\ st_district s = district d
                       /\ st_total_votes s = two_party_vote d)
       /\ (forall s, s ∈ stats ->
             (st_total_votes s == 0)%Q ->
             (st_dem_pct s == 0)%Q /\ (st_rep_pct s == 0)%Q /\ (st_margin_pct s == 0)%Q))
  /\ calculate_ensemble_average_map [] = Some None
  /\ (forall (p : Partition) (ps : list Partition),
        exists result,
          calculate_ensemble_average_map (p :: ps) = Some (Some result)
          /\ (forall d, d ∈ p ->
                exists s,
                  s ∈ result
                  /\ st_district s = district d
                  /\ st_total_votes s
                     = (np_mean (dem_votes <$> sampled_tallies (district d) (p :: ps))
                        + np_mean (rep_votes <$> sampled_tallies (district d) (p :: ps)))%Q)
          /\ (forall s, s ∈ result ->
                (st_total_votes s == 0)%Q ->
                (st_dem_pct s == 0)%Q /\ (st_rep_pct s == 0)%Q
                /\ (st_margin_pct s == 0)%Q)).
Proof.
  split; [|split; [reflexivity|]].
  - intros partition.
    destruct (get_district_statistics_total partition) as (stats & Hstats & Hfwd & Hbwd).
    exists stats. split; [exact Hstats|]. split.
    + intros d Hd. destruct (Hfwd d Hd) as (s & Hin & Hs).
      destruct (district_statistics_total d) as (s' & Hs' & Hk & _ & _ & Ht & _).
      rewrite Hs in Hs'. injection Hs' as <-.
      exists s. repeat split; assumption.
    + intros s Hin Hzero. destruct (Hbwd s Hin) as (d & _ & Hs).
      destruct (district_statistics_total d) as (s' & Hs' & _ & _ & _ & Ht & _ & _ & Hz).
      rewrite Hs in Hs'. injection Hs' as <-.
      destruct Hz as (-> & -> & ->); [rewrite <- Ht; lra|].
      repeat split; reflexivity.
  - intros p ps.
    destruct (ensemble_average_map_entries p ps) as (result & Hr & _ & Hkeys & Hentries).
    exists result. split; [exact Hr|]. split.
    + intros d Hd.
      assert (Hk : district d ∈ st_district <$> result).
      { apply Hkeys. apply list_elem_of_fmap. exists d. split; [reflexivity|exact Hd]. }
      apply list_elem_of_fmap in Hk as (s & Hds & Hs).
      exists s. split; [exact Hs|]. split; [symmetry; exact Hds|].
      destruct (Hentries s Hs) as (Hdem & Hrep & _ & Ht & _).
      rewrite Ht, Hdem, Hrep, <- Hds. reflexivity.
    + intros s Hs Hzero.
      destruct (Hentries s Hs) as (_ & _ & _ & _ & Hz).
      destruct Hz as (-> & -> & ->); [lra|].
      repeat split; reflexivity.
Qed.

Lemma district_percentages_total_witness :
  (exists stats s,
     get_district_statistics [district_without_votes] = Some stats
     /\ s ∈ stats
     /\ st_district s = 7
     /\ (st_dem_pct s == 0)%Q /\ (st_rep_pct s == 0)%Q /\ (st_margin_pct s == 0)%Q)
  /\ (exists result s,
        calculate_ensemble_average_map [[district_without_votes]; [district_without_votes]]
        = Some (Some result)
        /\ s ∈ result
        /\ st_district s = 7
        /\ (st_dem_pct s == 0)%Q /\ (st_rep_pct s == 0)%Q /\ (st_margin_pct s == 0)%Q).
Proof.
  split.
  - destruct (proj1 district_percentages_total [district_without_votes])
      as (stats & Hstats & Hin & Hzero).
    destruct (Hin district_without_votes) as (s & Hs & Hd & Ht); [left|].
    exists stats, s. split; [exact Hstats|]. split; [exact Hs|]. split; [exact Hd|].
    apply (Hzero s Hs). rewrite Ht. reflexivity.
  - destruct (proj2 (proj2 district_percentages_total) [district_without_votes]
                [[district_without_votes]])
      as (result & Hresult & Hin & Hzero).
    destruct (Hin district_without_votes) as (s & Hs & Hd & Ht); [left|].
    exists result, s. split; [exact Hresult|]. split; [exact Hs|]. split; [exact Hd|].
    apply (Hzero s Hs). rewrite Ht. vm_compute. reflexivity.
Defined.


(** X15. For a non-empty sample [calculate_ensemble_average_map] returns
    a list.  Its entries are in increasing order of the district number
    and are exactly the districts of the first sampled partition (a
    district that only a later sample has is left out); the votes and
    the population of an entry are the means, over the samples in order,
    of the tallies of that district. *)
Theorem ensemble_average_map_is_the_mean (p : Partition) (ps : list Partition) :
  exists result,
    calculate_ensemble_average_map (p :: ps) = Some (Some result)
    /\ StronglySorted Z.le (st_district <$> result)
    /\ (forall k, k ∈ st_district <$> result <-> k ∈ district <$> p)
    /\ (forall s, s ∈ result ->
          let tallies := sampled_tallies (st_district s) (p :: ps) in
          st_dem_votes s = np_mean (dem_votes <$> tallies)
          /\ st_rep_votes s = np_mean (rep_votes <$> tallies)
          /\ st_population s = np_mean (population <$> tallies)).
Proof.
  destruct (ensemble_average_map_entries p ps) as (result & Hr & Hsorted & Hkeys & Hentries).
  exists result. split; [exact Hr|]. split; [exact Hsorted|]. split; [exact Hkeys|].
  intros s Hs tallies. destruct (Hentries s Hs) as (Hdem & Hrep & Hpop & _).
  repeat split; assumption.
Qed.

(** ** The number of districts *)

Lemma dict_get_Forall {V} (P : V -> Prop) (record : list (string * V)) (key : string)
    (v : V) :
  Forall (fun kv => P kv.2) record -> dict_get key record = Some v -> P v.
Proof.
  induction 1 as [|[k w] record Hw _ IH]; cbn [dict_get]; [discriminate|].
  case_bool_decide; [|exact IH]. intros Heq. injection Heq as <-. exact Hw.
Qed.

(** X16. When [analyze_state] is not given a number of districts, the
    number it settles on is at least 1 (and at most 52), for every state
    name and every number of precincts, in single_state_detection.py and
    in single_state_detection_v2.py: the size-based fallback gives 3, 5, 8
    or 10 and never fewer districts for more precincts.  A number that is
    given is used as it is. *)
Theorem detected_num_districts_is_positive (state_name : string) (num_precincts : Z) :
  let detect1 := SingleStateAnalysis.detect_num_districts SingleStateAnalysis.REAL_DISTRICTS in
  let detect2 := SingleStateAnalysis.detect_num_districts SingleStateV2Config.REAL_DISTRICTS in
  1 <= detect1 state_name num_precincts None <= 52
  /\ 1 <= detect2 state_name num_precincts None <= 52
  /\ (dict_get state_name SingleStateV2Config.REAL_DISTRICTS = None ->
      detect2 state_name num_precincts None ∈ [3; 5; 8; 10]
      /\ forall more, num_precincts <= more ->
           detect2 state_name num_precincts None <= detect2 state_name more None)
  /\ (forall n, detect1 state_name num_precincts (Some n) = n
                /\ detect2 state_name num_precincts (Some n) = n).
Proof.
  intros detect1 detect2.
  assert (Hfallback : forall n,
             1 <= (if n <? 100 then 3 else if n <? 500 then 5
                   else if n <? 2000 then 8 else 10) <= 52).
  { intros n. destruct (n <? 100), (n <? 500), (n <? 2000); lia. }
  assert (Htable : forall table,
             Forall (fun kv : string * Z => 1 <= kv.2 <= 52) table ->
             1 <= SingleStateAnalysis.detect_num_districts table state_name num_precincts None
             <= 52).
  { intros table Hall. unfold SingleStateAnalysis.detect_num_districts.
    destruct (dict_get state_name table) as [n|] eqn:E; [|apply Hfallback].
    apply (dict_get_Forall (fun n => 1 <= n <= 52) table state_name n Hall E). }
  split; [|split; [|split]].
  - apply Htable. unfold SingleStateAnalysis.REAL_DISTRICTS.
    repeat (constructor; [cbn; lia|]). constructor.
  - apply Htable. unfold SingleStateV2Config.REAL_DISTRICTS.
    repeat (constructor; [cbn; lia|]). constructor.
  - intros Hnone. subst detect2. unfold SingleStateAnalysis.detect_num_districts.
    rewrite Hnone. split.
    + destruct (num_precincts <? 100), (num_precincts <? 500), (num_precincts <? 2000);
        repeat first [left | right].
    + intros more Hmore.
      destruct (num_precincts <? 100) eqn:E1, (num_precincts <? 500) eqn:E2,
               (num_precincts <? 2000) eqn:E3, (more <? 100) eqn:E4, (more <? 500) eqn:E5,
               (more <? 2000) eqn:E6; lia.
  - intros n. split; reflexivity.
Qed.

Lemma detected_num_districts_is_positive_witness :
  SingleStateAnalysis.detect_num_districts SingleStateV2Config.REAL_DISTRICTS
    "atlantis" 250 None ∈ [3; 5; 8; 10].
Proof.
  apply (proj1 (proj2 (proj2 (detected_num_districts_is_positive "atlantis" 250)))).
  reflexivity.
Defined.

(** ** [analyze_state] of the two older scripts *)

Lemma votes_share_Some (a t : Q) (v : Q) :
  (r ← py_truediv a t; Some (r * 100)%Q) = Some v -> ~ (t == 0)%Q.
Proof.
  intros Hv Ht. rewrite py_truediv_None in Hv by exact Ht. discriminate.
Qed.

Section OlderAnalyses.
Context `{Gerrychain}.

Lemma multi_state_run_ensemble_result (partition : Partition) (num_steps : Z) (rng : Rng)
    (out : list Event) :
  exists dem_wins_list,
    MultiState.run_ensemble partition num_steps rng out = (Some dem_wins_list, out)
    /\ length dem_wins_list = Z.to_nat num_steps.
Proof.
  unfold MultiState.run_ensemble, try_except.
  rewrite multi_state_loop_appends. eexists. split; [reflexivity|].
  simpl. rewrite length_map. unfold chain_iter. rewrite chain_outputs_length. reflexivity.
Qed.

Lemma single_state_step_inv (num_steps : Z) (x : Partition) (i : Z) (acc r : list Z)
    (out out' : list Event) :
  SingleState.ensemble_step num_steps i x acc out = (Some r, out') ->
  r = acc ++ [dem_wins x] /\ num_steps / 10 <> 0.
Proof.
  unfold SingleState.ensemble_step. run_unfold.
  destruct (py_mod (i + 1) (num_steps / 10)) as [m|] eqn:Hm; [|discriminate].
  assert (Hten : num_steps / 10 <> 0).
  { intros Hz. unfold py_mod in Hm. rewrite Hz in Hm. discriminate. }
  destruct (m =? 0).
  - destruct (py_floordiv ((i + 1) * 100) num_steps) as [q|]; [|discriminate].
    intros Heq. injection Heq as <- _. split; [reflexivity | exact Hten].
  - intros Heq. injection Heq as <- _. split; [reflexivity | exact Hten].
Qed.

Lemma single_state_loop_inv (num_steps : Z) (xs : list Partition) (i : Z) (acc r : list Z)
    (out out' : list Event) :
  for_enumerate (SingleState.ensemble_step num_steps) i xs acc out = (Some r, out') ->
  r = acc ++ map dem_wins xs /\ (xs <> [] -> num_steps / 10 <> 0).
Proof.
  revert i acc out. induction xs as [|x xs IH]; intros i acc out.
  - cbn. run_unfold. intros Heq. injection Heq as <- _.
    rewrite app_nil_r. split; [reflexivity | intros Hne; contradiction].
  - cbn [for_enumerate]. unfold mbind, Run_bind, run_bind.
    destruct (SingleState.ensemble_step num_steps i x acc out) as [[acc1|] out1] eqn:Hstep;
      [|discriminate].
    apply single_state_step_inv in Hstep as [-> Hten].
    intros Hrest. apply IH in Hrest as [-> _].
    split; [rewrite <- app_assoc; reflexivity | intros _; exact Hten].
Qed.

Lemma single_state_run_ensemble_inv (partition : Partition) (num_steps : Z)
    (use_contiguity : bool) (rng : Rng) (out out' : list Event) (dem_wins_list : list Z) :
  SingleState.run_ensemble partition num_steps use_contiguity rng out
  = (Some dem_wins_list, out') ->
  length dem_wins_list = Z.to_nat num_steps
  /\ (dem_wins_list <> [] -> 10 <= num_steps).
Proof.
  unfold SingleState.run_ensemble, try_except.
  unfold mbind at 1, Run_bind, run_bind at 1.
  rewrite single_state_chain_setup.
  set (chain := {| proposal := propose_random_flip |}).
  unfold mbind, Run_bind, run_bind, print at 1.
  destruct (for_enumerate _ 0 (chain_iter chain rng) [] _) as [[l|] out1] eqn:Hloop;
    [|discriminate].
  apply single_state_loop_inv in Hloop as [-> Hten].
  unfold print at 1. simpl. intros Heq. injection Heq as <- _.
  assert (Hlen : length (chain_iter chain rng) = Z.to_nat num_steps)
    by (unfold chain_iter; rewrite chain_outputs_length; reflexivity).
  split; [rewrite length_map; exact Hlen|].
  intros Hne.
  assert (Hiter : chain_iter chain rng <> []) by (intros Hnil; rewrite Hnil in Hne; auto).
  specialize (Hten Hiter).
  destruct (Z_lt_le_dec num_steps 10) as [Hlt|Hge]; [|exact Hge].
  exfalso. apply Hten. apply Z.div_small.
  destruct (chain_iter chain rng); [contradiction|]. simpl in Hlen. lia.
Qed.

(** X17. For an ensemble of at least one step, [analyze_state] of
    multi_state_detection.py returns a record exactly when the statewide
    two-party vote is not zero: with no votes the unguarded division for
    the Democratic vote share raises, and nothing else can fail.  Unlike
    in the single-state scripts, fewer than ten steps are enough. *)
Theorem multi_state_analysis_returns_a_record_iff (state_name : string)
    (precincts num_districts : Z) (partition : Partition) (num_steps : Z) (rng : Rng)
    (out : list Event) :
  1 <= num_steps ->
  (is_Some (MultiStateAnalysis.analyze_state state_name precincts num_districts partition
                                             num_steps rng out).1
   <-> ~ (py_sum (map dem_votes partition) + py_sum (map rep_votes partition) == 0)%Q).
Proof.
  intros Hn.
  destruct (multi_state_run_ensemble_result partition num_steps rng out)
    as (l & Hens & Hlen).
  split.
  - intros [record Hrec].
    destruct (MultiStateAnalysis.analyze_state _ _ _ _ _ _ _) as [res out'] eqn:Hrun.
    cbn [fst] in Hrec. subst res.
    unfold MultiStateAnalysis.analyze_state, mbind at 1 2 3, Run_bind in Hrun.
    apply run_bind_Some in Hrun as (dvs & ? & Hshare & Hrun).
    apply lift_Some in Hshare as [Hshare ->].
    apply (votes_share_Some _ _ _ Hshare).
  - intros Hvotes.
    assert (Hne : l <> []) by (intros ->; simpl in Hlen; lia).
    destruct (py_min_max_total l Hne) as (lo & hi & Hlo & Hhi).
    destruct (percentile_value l (dem_wins partition) Hne) as (p & Hp & _).
    unfold MultiStateAnalysis.analyze_state, mbind at 1 2 3 4 5 6 7, Run_bind, run_bind, lift.
    cbv zeta. rewrite (py_truediv_Some _ _ Hvotes). cbn [mbind option_bind].
    rewrite Hens, (bool_decide_eq_false_2 _ Hne).
    rewrite py_truediv_Some.
    2:{ unfold len. destruct l; [contradiction|].
        simpl length. rewrite Nat2Z.inj_succ. unfold Qeq. simpl. lia. }
    rewrite Hlo, Hhi, Hp. eexists. reflexivity.
Qed.

(** X18. [analyze_state] of single_state_detection.py returns a record
    exactly when the statewide two-party vote is not zero and the
    ensemble has at least ten steps. *)
Theorem single_state_analysis_returns_a_record_iff (state_name : string)
    (precincts num_districts : Z) (partition : Partition) (num_steps : Z) (rng : Rng)
    (out : list Event) :
  is_Some (SingleStateAnalysis.analyze_state state_name precincts num_districts partition
                                             num_steps rng out).1
  <-> ~ (py_sum (map dem_votes partition) + py_sum (map rep_votes partition) == 0)%Q
      /\ 10 <= num_steps.
Proof.
  split.
  - intros [record Hrec].
    destruct (SingleStateAnalysis.analyze_state _ _ _ _ _ _ _) as [res out'] eqn:Hrun.
    cbn [fst] in Hrec. subst res.
    unfold SingleStateAnalysis.analyze_state, mbind at 1 2 3, Run_bind in Hrun.
    apply run_bind_Some in Hrun as (dvs & ? & Hshare & Hrun).
    apply lift_Some in Hshare as [Hshare ->]. cbv beta zeta in Hrun.
    apply run_bind_Some in Hrun as (l & ? & Hens & Hrun). cbv beta zeta in Hrun.
    apply run_bind_Some in Hrun as (? & ? & Hne & _).
    apply lift_Some in Hne as [Hne _].
    split; [apply (votes_share_Some _ _ _ Hshare)|].
    case_bool_decide as Hnil; [discriminate|].
    apply single_state_run_ensemble_inv in Hens as [_ Hten]. apply Hten. exact Hnil.
  - intros [Hvotes Hn].
    destruct (single_state_run_ensemble_length partition num_steps true rng out Hn)
      as (l & Hens & Hlen).
    destruct (SingleState.run_ensemble partition num_steps true rng out)
      as [res out1] eqn:Hrun. cbn [fst] in Hens. subst res.
    assert (Hne : l <> []) by (intros ->; unfold len in Hlen; simpl in Hlen; lia).
    destruct (py_min_max_total l Hne) as (lo & hi & Hlo & Hhi).
    destruct (percentile_value l (dem_wins partition) Hne) as (p & Hp & _).
    unfold SingleStateAnalysis.analyze_state, mbind at 1 2 3 4 5 6 7 8, Run_bind, run_bind,
      lift.
    cbv zeta. rewrite (py_truediv_Some _ _ Hvotes). cbn [mbind option_bind].
    rewrite Hrun, (bool_decide_eq_false_2 _ Hne), Hlo, Hhi, Hp.
    assert (Hz : exists z, SingleState.z_score (dem_wins partition)
                             (np_mean (map inject_Z l)) (np_std (map inject_Z l)) = Some z)
      by apply z_score_total.
    destruct Hz as [z ->].
    rewrite py_truediv_Some by (unfold Qeq; simpl; lia).
    eexists. reflexivity.
Qed.
End OlderAnalyses.

Lemma multi_state_analysis_returns_a_record_iff_witness :
  is_Some (MultiStateAnalysis.analyze_state (H := idle_gerrychain) "test" 4 2 two_districts
                                            5 tt []).1.
Proof.
  apply (multi_state_analysis_returns_a_record_iff (H := idle_gerrychain)); [lia|].
  intros Hzero. vm_compute in Hzero. discriminate.
Defined.

Lemma single_state_analysis_returns_a_record_iff_witness :
  ~ is_Some (SingleStateAnalysis.analyze_state (H := idle_gerrychain) "test" 4 2
                                               two_districts 5 tt []).1.
Proof.
  intros Hsome.
  apply (single_state_analysis_returns_a_record_iff (H := idle_gerrychain)) in Hsome.
  destruct Hsome as [_ Hsteps]. lia.
Defined.

(** ** Comparisons of equal numbers *)

Lemma Qltb_compat (a a' b b' : Q) :
  (a == a')%Q -> (b == b')%Q -> Qltb a b = Qltb a' b'.
Proof. intros Ha Hb. unfold Qltb. rewrite Ha, Hb. reflexivity. Qed.

(** ** The gerrymandered map *)

Lemma count_residue_step (K c m : Z) :
  0 < K -> 0 <= c < K -> 0 <= m ->
  (m + 1) / K + (if c <? (m + 1) mod K then 1 else 0)
  = m / K + (if c <? m mod K then 1 else 0) + (if decide (m mod K = c) then 1 else 0).
Proof.
  intros HK Hc Hm.
  pose proof (Z.mod_pos_bound m K HK) as Hr.
  pose proof (Z.div_mod m K ltac:(lia)) as Hdm.
  destruct (decide (m mod K + 1 < K)) as [Hlt|Hge].
  - assert (Hq : (m + 1) / K = m / K).
    { symmetry. apply (Z.div_unique (m + 1) K (m / K) (m mod K + 1)); lia. }
    assert (Hr' : (m + 1) mod K = m mod K + 1).
    { symmetry. apply (Z.mod_unique (m + 1) K (m / K) (m mod K + 1)); lia. }
    rewrite Hq, Hr'.
    destruct (c <? m mod K + 1) eqn:E1, (c <? m mod K) eqn:E2, (decide (m mod K = c)); lia.
  - assert (Hq : (m + 1) / K = m / K + 1).
    { symmetry. apply (Z.div_unique (m + 1) K (m / K + 1) 0); lia. }
    assert (Hr' : (m + 1) mod K = 0).
    { symmetry. apply (Z.mod_unique (m + 1) K (m / K + 1) 0); lia. }
    rewrite Hq, Hr'.
    destruct (c <? 0) eqn:E1, (c <? m mod K) eqn:E2, (decide (m mod K = c)); lia.
Qed.

Lemma count_residue (K c : Z) (m : nat) :
  0 < K -> 0 <= c < K ->
  Z.of_nat (length (filter (fun j => Z.of_nat j mod K = c) (seq 0 m)))
  = Z.of_nat m / K + (if c <? Z.of_nat m mod K then 1 else 0).
Proof.
  intros HK Hc. induction m as [|m IH].
  - cbn. rewrite Z.div_0_l, Zmod_0_l by lia. destruct (c <? 0) eqn:E; lia.
  - rewrite seq_S, filter_app, length_app, Nat2Z.inj_add, IH. cbn [Nat.add].
    replace (Z.of_nat (S m)) with (Z.of_nat m + 1) by lia.
    rewrite count_residue_step by lia.
    f_equal. rewrite filter_cons, filter_nil.
    destruct (decide (Z.of_nat m mod K = c)); reflexivity.
Qed.

Lemma filter_length_by_index {A} (P : A -> Prop) `{!forall x, Decision (P x)}
    (Q : nat -> Prop) `{!forall j, Decision (Q j)} (l : list A) (o : nat) :
  (forall j x, l !! j = Some x -> (P x <-> Q (o + j)%nat)) ->
  length (filter P l) = length (filter Q (seq o (length l))).
Proof.
  revert o. induction l as [|x l IH]; intros o Hl; [reflexivity|].
  cbn [length seq]. rewrite !filter_cons.
  pose proof (Hl 0%nat x eq_refl) as Hhead. rewrite Nat.add_0_r in Hhead.
  assert (IH' : length (filter P l) = length (filter Q (seq (S o) (length l)))).
  { apply IH. intros j y Hj. rewrite (Hl (S j) y Hj). f_equiv. lia. }
  destruct (decide (P x)) as [Hp|Hp], (decide (Q o)) as [Hq|Hq]; cbn [length];
    rewrite ?IH'; tauto || reflexivity.
Qed.

Section GerrymanderedMapProperties.
Import GerrymanderedMap.

Lemma list_index_Some {A} (l : list A) (i : Z) :
  0 <= i < len l -> list_index l i = Some (Z.to_nat i).
Proof.
  intros Hi. unfold list_index.
  destruct (i <? 0) eqn:E; [lia|].
  replace ((0 <=? i) && (i <? len l)) with true by lia. reflexivity.
Qed.

Lemma iadd_Some (l : list Z) (i v : Z) :
  0 <= i < len l ->
  exists x, l !! Z.to_nat i = Some x /\ iadd l i v = Some (<[Z.to_nat i := x + v]> l).
Proof.
  intros Hi. unfold iadd. rewrite list_index_Some by exact Hi. cbn.
  destruct (lookup_lt_is_Some_2 l (Z.to_nat i)) as [x Hx]; [unfold len in Hi; lia|].
  exists x. rewrite Hx. cbn. auto.
Qed.

Lemma getitem_Some (l : list Z) (i : Z) :
  0 <= i < len l -> getitem l i = l !! Z.to_nat i.
Proof.
  intros Hi. unfold getitem. rewrite list_index_Some by exact Hi. reflexivity.
Qed.

Lemma assign_Some (n : nat) (nd k p dv rv : Z) (d : Districts) :
  sized n d -> 0 <= k < Z.of_nat n ->
  exists d' x,
    assign nd k p dv rv d = Some d'
    /\ sized n d'
    /\ assignment d' = <[nd := k]> (assignment d)
    /\ district_populations d !! Z.to_nat k = Some x
    /\ district_populations d' = <[Z.to_nat k := x + p]> (district_populations d).
Proof.
  intros (Hp & Hd & Hr) Hk. unfold assign.
  destruct (iadd_Some (district_populations d) k p) as (x & Hx & ->); [unfold len; lia|].
  destruct (iadd_Some (district_dem_votes d) k dv) as (y & Hy & ->); [unfold len; lia|].
  destruct (iadd_Some (district_rep_votes d) k rv) as (z & Hz & ->); [unfold len; lia|].
  cbn. eexists _, x. split; [reflexivity|]. unfold sized. cbn.
  rewrite !length_insert. auto.
Qed.

Lemma fold_left_Zadd (l : list Z) (a : Z) :
  fold_left Z.add l a = a + foldr Z.add 0 l.
Proof.
  revert a. induction l as [|x l IH]; intros a; cbn; [lia|]. rewrite IH. lia.
Qed.

(** The packing loop takes a prefix of [nodes_data] into district 0. *)
Lemma pack_spec (n : nat) (target_pop : Q) (nodes_data : list NodeData) (d : Districts)
    (p0 : Z) :
  sized n d -> (0 < n)%nat ->
  district_populations d !! 0%nat = Some p0 ->
  exists packed rest d',
    nodes_data = packed ++ rest
    /\ pack target_pop nodes_data d = Some d'
    /\ sized n d'
    /\ district_populations d' !! 0%nat
       = Some (p0 + foldr Z.add 0 (population <$> packed))
    /\ (forall k, k ∈ node <$> packed -> assignment d' !! k = Some 0)
    /\ (forall k, k ∉ node <$> packed -> assignment d' !! k = assignment d !! k)
    /\ (rest = []
        \/ Qltb (inject_Z (p0 + foldr Z.add 0 (population <$> packed)))
                (target_pop * (13 # 10)) = false)
    /\ (packed = []
        \/ Qltb (inject_Z p0) (target_pop * (13 # 10)) = true).
Proof.
  revert d p0. induction nodes_data as [|x l IH]; intros d p0 Hs Hn Hp0.
  - exists [], [], d. cbn. rewrite Z.add_0_r.
    split; [reflexivity|]. split; [reflexivity|]. split; [exact Hs|]. split; [exact Hp0|].
    split; [intros k Hk; apply elem_of_nil in Hk; destruct Hk|].
    split; [reflexivity|]. split; left; reflexivity.
  - cbn [pack]. rewrite getitem_Some by (unfold len; destruct Hs as [-> _]; lia).
    change (Z.to_nat 0) with 0%nat. rewrite Hp0. cbn [mbind option_bind].
    destruct (Qltb (inject_Z p0) (target_pop * (13 # 10))) eqn:E.
    + destruct (assign_Some n (node x) 0 (population x) (dem_votes x) (rep_votes x) d Hs)
        as (d1 & y & -> & Hs1 & Ha1 & Hy & Hp1); [lia|].
      change (Z.to_nat 0) with 0%nat in Hy, Hp1. rewrite Hp0 in Hy. injection Hy as <-.
      cbn [mbind option_bind].
      destruct (IH d1 (p0 + population x)) as (packed & rest & d' & -> & Hd' & Hs' & Hp' & Hin & Hout & Hstop & _);
        [exact Hs1|exact Hn| |].
      { rewrite Hp1. apply list_lookup_insert_eq. destruct Hs as [-> _]. exact Hn. }
      exists (x :: packed), rest, d'. cbn [fmap list_fmap foldr].
      split; [reflexivity|]. split; [exact Hd'|]. split; [exact Hs'|].
      split; [rewrite Hp'; f_equal; lia|].
      split.
      { intros k Hk. destruct (decide (k ∈ node <$> packed)) as [Hkp|Hkp]; [auto|].
        rewrite (Hout k Hkp), Ha1. apply elem_of_cons in Hk as [->|Hk]; [|contradiction].
        apply lookup_insert_eq. }
      split.
      { intros k Hk. apply not_elem_of_cons in Hk as [Hne Hk].
        rewrite (Hout k Hk), Ha1. apply lookup_insert_ne. congruence. }
      split.
      { destruct Hstop as [->|Hstop]; [left; reflexivity|right].
        rewrite <- Hstop. f_equal. f_equal. lia. }
      right. reflexivity.
    + exists [], (x :: l), d. cbn. rewrite Z.add_0_r.
      split; [reflexivity|]. split; [reflexivity|]. split; [exact Hs|]. split; [exact Hp0|].
      split; [intros k Hk; apply elem_of_nil in Hk; destruct Hk|].
      split; [reflexivity|]. split; [right; exact E|left; reflexivity].
Qed.


Lemma insert_reverse_perm (x : NodeData) (l : list NodeData) :
  insert_reverse x l ≡ₚ x :: l.
Proof.
  induction l as [|y l IH]; cbn; [reflexivity|].
  destruct (Qltb (dem_percentage x) (dem_percentage y)); [|reflexivity].
  rewrite IH. apply Permutation_swap.
Qed.

Lemma sort_reverse_perm (l : list NodeData) : sort_reverse l ≡ₚ l.
Proof.
  induction l as [|x l IH]; cbn; [reflexivity|].
  rewrite insert_reverse_perm. f_equiv. exact IH.
Qed.

Lemma insert_reverse_sorted (x : NodeData) (l : list NodeData) :
  StronglySorted (fun a b => (dem_percentage b <= dem_percentage a)%Q) l ->
  StronglySorted (fun a b => (dem_percentage b <= dem_percentage a)%Q) (insert_reverse x l).
Proof.
  induction 1 as [|y l Hl IH Hy]; cbn.
  - repeat constructor.
  - destruct (Qltb (dem_percentage x) (dem_percentage y)) eqn:E.
    + constructor; [exact IH|].
      rewrite insert_reverse_perm. constructor; [|exact Hy].
      apply Qltb_lt in E. apply Qlt_le_weak. exact E.
    + apply Qltb_ge in E. constructor; [constructor; assumption|].
      constructor; [exact E|].
      eapply Forall_impl; [exact Hy|]. cbn. intros z Hz. eapply Qle_trans; eassumption.
Qed.

Lemma sort_reverse_sorted (l : list NodeData) :
  StronglySorted (fun a b => (dem_percentage b <= dem_percentage a)%Q) (sort_reverse l).
Proof.
  induction l as [|x l IH]; cbn; [constructor|]. apply insert_reverse_sorted, IH.
Qed.

Lemma graph_node_is_Some (graph : City) (k : Z) :
  k ∈ graph.*1 -> is_Some (graph_node graph k).
Proof.
  induction graph as [|[n b] graph IH]; cbn; intros Hk.
  - apply elem_of_nil in Hk. destruct Hk.
  - case_bool_decide; [eauto|]. apply elem_of_cons in Hk as [->|Hk]; [congruence|auto].
Qed.

(** The second loop deals the remaining nodes out in turn. *)
Lemma spread_spec (n : nat) (graph : City) (num_districts i : Z) (remaining : list Z)
    (d : Districts) :
  sized n d -> Z.of_nat n = num_districts -> 2 <= num_districts -> 0 <= i ->
  (forall k, k ∈ remaining -> k ∈ graph.*1) ->
  exists d',
    spread graph num_districts i remaining d = Some d'
    /\ sized n d'
    /\ (forall k, k ∉ remaining -> assignment d' !! k = assignment d !! k)
    /\ (forall k, k ∈ remaining ->
          exists j, remaining !! j = Some k
                    /\ assignment d' !! k
                       = Some ((i + Z.of_nat j) mod (num_districts - 1) + 1)).
Proof.
  intros Hs Hn Hnum. revert i d Hs.
  induction remaining as [|x rest IH]; intros i d Hs Hi Hin.
  - exists d. cbn. split; [reflexivity|]. split; [exact Hs|]. split; [reflexivity|].
    intros k Hk. apply elem_of_nil in Hk. destruct Hk.
  - cbn [spread]. unfold py_mod.
    destruct (num_districts - 1 =? 0) eqn:E; [lia|]. cbn [mbind option_bind].
    destruct (graph_node_is_Some graph x) as [block ->]; [apply Hin; left|].
    cbn [mbind option_bind].
    pose proof (Z.mod_pos_bound i (num_districts - 1)) as Hm.
    destruct (assign_Some n x (i mod (num_districts - 1) + 1) (block_population block)
                (block_dem_votes block) (block_rep_votes block) d Hs)
      as (d1 & y & -> & Hs1 & Ha1 & _); [lia|].
    cbn [mbind option_bind].
    destruct (IH (i + 1) d1 Hs1) as (d' & -> & Hs' & Hout & Hin'); [lia| |].
    { intros k Hk. apply Hin. right. exact Hk. }
    exists d'. split; [reflexivity|]. split; [exact Hs'|]. split.
    + intros k Hk. apply not_elem_of_cons in Hk as [Hne Hk].
      rewrite (Hout k Hk), Ha1. apply lookup_insert_ne. congruence.
    + intros k Hk. destruct (decide (k ∈ rest)) as [Hr|Hr].
      * destruct (Hin' k Hr) as (j & Hj & Hv). exists (S j). split; [exact Hj|].
        rewrite Hv. replace (i + Z.of_nat (S j)) with (i + 1 + Z.of_nat j) by lia.
        reflexivity.
      * apply elem_of_cons in Hk as [->|Hk]; [|contradiction].
        exists 0%nat. split; [reflexivity|].
        rewrite (Hout x Hr), Ha1, lookup_insert_eq.
        replace (i + Z.of_nat 0) with i by lia. reflexivity.
Qed.


Lemma nodes_of_node_data (graph : City) : node <$> (node_data <$> graph) = graph.*1.
Proof. rewrite <- list_fmap_compose. reflexivity. Qed.

Lemma sorted_nodes_perm (graph : City) :
  node <$> sort_reverse (node_data <$> graph) ≡ₚ graph.*1.
Proof. rewrite sort_reverse_perm. rewrite nodes_of_node_data. reflexivity. Qed.

Lemma inject_Z_nonzero (z : Z) : z <> 0 -> ~ (inject_Z z == 0)%Q.
Proof. intros Hz Heq. apply Hz. unfold Qeq in Heq. cbn in Heq. lia. Qed.

Lemma sized_zeros (n : nat) :
  sized n {| assignment := ∅;
             district_populations := replicate n 0;
             district_dem_votes := replicate n 0;
             district_rep_votes := replicate n 0 |}.
Proof. unfold sized. cbn. rewrite length_replicate. auto. Qed.

(** With two districts or more neither loop can fail: the run in full. *)
Lemma create_gerrymandered_districts_spec (graph : City) (num_districts : Z) :
  2 <= num_districts ->
  exists packed rest d0 d,
    sort_reverse (node_data <$> graph) = packed ++ rest
    /\ create_gerrymandered_districts graph num_districts = Some d
    /\ (forall k, k ∈ node <$> packed -> assignment d0 !! k = Some 0)
    /\ (forall k, k ∉ node <$> packed -> assignment d0 !! k = None)
    /\ let remaining :=
         filter (fun k => assignment d0 !! k = None) (node <$> (packed ++ rest)) in
       (forall k, k ∉ remaining -> assignment d !! k = assignment d0 !! k)
       /\ (forall k, k ∈ remaining ->
             exists j, remaining !! j = Some k
                       /\ assignment d !! k
                          = Some (Z.of_nat j mod (num_districts - 1) + 1)).
Proof.
  intros Hn. unfold create_gerrymandered_districts.
  rewrite py_truediv_Some by (apply inject_Z_nonzero; lia). cbn [mbind option_bind].
  set (target_pop := (_ / _)%Q).
  destruct (pack_spec (Z.to_nat num_districts) target_pop
              (sort_reverse (node_data <$> graph)) _ 0 (sized_zeros _))
    as (packed & rest & d0 & Hsplit & -> & Hs0 & _ & Hin & Hout & _); [lia| |].
  { apply lookup_replicate_2. lia. }
  cbn [mbind option_bind]. rewrite Hsplit.
  destruct (spread_spec (Z.to_nat num_districts) graph num_districts 0
              (filter (fun k => assignment d0 !! k = None) (node <$> (packed ++ rest)))
              d0 Hs0)
    as (d & -> & _ & Hout' & Hin'); [lia|lia|lia| |].
  { intros k Hk. apply list_elem_of_filter in Hk as [_ Hk].
    rewrite <- Hsplit, sorted_nodes_perm in Hk. exact Hk. }
  exists packed, rest, d0, d. split; [reflexivity|]. split; [reflexivity|].
  split; [exact Hin|]. split.
  { intros k Hk. rewrite (Hout k Hk). apply lookup_empty. }
  split; [exact Hout'|].
  intros k Hk. destruct (Hin' k Hk) as (j & Hj & Hv). exists j. split; [exact Hj|].
  rewrite Hv. reflexivity.
Qed.

(** X20. With two districts or more, [create_gerrymandered_districts]
    always reaches the call of [Partition]: the assignment it hands over
    gives a district to every block of the city and to nothing else, and
    every district it uses is one of [0 .. num_districts - 1]. *)
Theorem gerrymandered_assignment_covers_the_city (graph : City) (num_districts : Z) :
  2 <= num_districts ->
  exists d,
    create_gerrymandered_districts graph num_districts = Some d
    /\ (forall k, k ∈ graph.*1 <-> is_Some (assignment d !! k))
    /\ (forall k district,
          assignment d !! k = Some district -> 0 <= district < num_districts).
Proof.
  intros Hn.
  destruct (create_gerrymandered_districts_spec graph num_districts Hn)
    as (packed & rest & d0 & d & Hsplit & Hd & Hin & Hout & Hkeep & Hdealt).
  cbv zeta in Hkeep, Hdealt.
  set (remaining := filter _ _) in Hkeep, Hdealt.
  exists d. split; [exact Hd|].
  assert (Hcases : forall k,
             ((k ∈ remaining) /\ exists j, assignment d !! k
                                        = Some (Z.of_nat j mod (num_districts - 1) + 1))
             \/ ((k ∉ remaining) /\ (k ∈ node <$> packed) /\ assignment d !! k = Some 0)
             \/ ((k ∉ remaining) /\ (k ∉ node <$> (packed ++ rest))
                 /\ assignment d !! k = None)).
  { intros k. destruct (decide (k ∈ remaining)) as [Hr|Hr].
    - left. split; [exact Hr|]. destruct (Hdealt k Hr) as (j & _ & Hv). eauto.
    - right. rewrite (Hkeep k Hr).
      destruct (decide (k ∈ node <$> packed)) as [Hp|Hp]; [left; auto|right].
      split; [exact Hr|]. split; [|auto].
      intros Hk. apply Hr. apply list_elem_of_filter. split; [auto|exact Hk]. }
  split.
  - intros k. rewrite <- sorted_nodes_perm, Hsplit.
    destruct (Hcases k) as [[Hr [j Hv]]|[(Hr & Hp & Hv)|(Hr & Hp & Hv)]]; rewrite Hv.
    + apply list_elem_of_filter in Hr as [_ Hr]. split; [eauto|auto].
    + split; [eauto|]. intros _. rewrite fmap_app. apply elem_of_app. left. exact Hp.
    + split; [contradiction|]. intros [? ?]. discriminate.
  - intros k district Hk.
    destruct (Hcases k) as [[Hr [j Hv]]|[(Hr & Hp & Hv)|(Hr & Hp & Hv)]];
      rewrite Hv in Hk; [|injection Hk as <-; lia|discriminate].
    injection Hk as <-.
    pose proof (Z.mod_pos_bound (Z.of_nat j) (num_districts - 1)). lia.
Qed.

Lemma gerrymandered_assignment_covers_the_city_witness :
  exists d,
    create_gerrymandered_districts example_city 3 = Some d
    /\ (forall k, k ∈ example_city.*1 <-> is_Some (assignment d !! k))
    /\ (forall k district, assignment d !! k = Some district -> 0 <= district < 3).
Proof. apply (gerrymandered_assignment_covers_the_city example_city 3). lia. Defined.


Lemma NoDup_fmap_elem_of {A B} (f : A -> B) (l1 l2 : list A) (x : A) :
  NoDup (f <$> (l1 ++ l2)) -> x ∈ l1 ++ l2 -> f x ∈ f <$> l1 -> x ∈ l1.
Proof.
  intros Hnd Hx Hfx. apply elem_of_app in Hx as [Hx|Hx]; [exact Hx|].
  rewrite fmap_app in Hnd. apply NoDup_app in Hnd as (_ & Hdisj & _).
  exfalso. apply (Hdisj (f x) Hfx). apply list_elem_of_fmap. eauto.
Qed.

(** X21. The packing: every block that ends up in district 0 has a
    Democratic share at least as high as every block that ends up in
    another district (a block without votes counts as share 0). *)
Theorem district_0_packs_the_most_democratic_blocks (graph : City) (num_districts : Z) :
  NoDup graph.*1 ->
  2 <= num_districts ->
  exists d,
    create_gerrymandered_districts graph num_districts = Some d
    /\ forall x y,
         x ∈ graph -> y ∈ graph ->
         assignment d !! x.1 = Some 0 ->
         assignment d !! y.1 <> Some 0 ->
         (dem_percentage (node_data y) <= dem_percentage (node_data x))%Q.
Proof.
  intros Hnd Hn.
  destruct (create_gerrymandered_districts_spec graph num_districts Hn)
    as (packed & rest & d0 & d & Hsplit & Hd & Hin & Hout & Hkeep & Hdealt).
  cbv zeta in Hkeep, Hdealt.
  set (remaining := filter _ _) in Hkeep, Hdealt.
  exists d. split; [exact Hd|]. intros x y Hx Hy Hx0 Hy0.
  assert (Hnd' : NoDup (node <$> (packed ++ rest))).
  { rewrite <- Hsplit, sorted_nodes_perm. exact Hnd. }
  assert (Hmem : forall e, e ∈ graph -> node_data e ∈ packed ++ rest).
  { intros e He. rewrite <- Hsplit, sort_reverse_perm. apply list_elem_of_fmap. eauto. }
  assert (Hzero : forall k, assignment d !! k = Some 0 <-> k ∈ node <$> packed).
  { intros k. destruct (decide (k ∈ remaining)) as [Hr|Hr].
    - destruct (Hdealt k Hr) as (j & _ & Hv). rewrite Hv.
      apply list_elem_of_filter in Hr as [Hnone _].
      pose proof (Z.mod_pos_bound (Z.of_nat j) (num_districts - 1)).
      split; [intros [=]; lia|]. intros Hp. rewrite (Hin k Hp) in Hnone. discriminate.
    - rewrite (Hkeep k Hr). split; [|apply Hin].
      intros Hv. destruct (decide (k ∈ node <$> packed)) as [Hp|Hp]; [exact Hp|].
      rewrite (Hout k Hp) in Hv. discriminate. }
  assert (Hxp : node_data x ∈ packed).
  { apply (NoDup_fmap_elem_of node packed rest); [exact Hnd'|auto|]. apply Hzero, Hx0. }
  assert (Hyr : node_data y ∈ rest).
  { destruct (elem_of_app packed rest (node_data y)) as [Hy' _].
    destruct (Hy' (Hmem y Hy)) as [Hp|Hr]; [|exact Hr].
    exfalso. apply Hy0. apply Hzero. apply list_elem_of_fmap.
    exists (node_data y). split; [reflexivity|exact Hp]. }
  pose proof (sort_reverse_sorted (node_data <$> graph)) as Hsorted.
  rewrite Hsplit in Hsorted.
  exact (StronglySorted_app_1_elem_of _ _ _ _ _ Hsorted Hxp Hyr).
Qed.

Lemma district_0_packs_the_most_democratic_blocks_witness :
  exists d,
    create_gerrymandered_districts example_city 3 = Some d
    /\ forall x y,
         x ∈ example_city -> y ∈ example_city ->
         assignment d !! x.1 = Some 0 ->
         assignment d !! y.1 <> Some 0 ->
         (dem_percentage (node_data y) <= dem_percentage (node_data x))%Q.
Proof.
  apply (district_0_packs_the_most_democratic_blocks example_city 3); [|lia].
  apply (bool_decide_unpack _). vm_compute. exact I.
Defined.


(** X22. The remaining blocks are dealt out in turn: among the districts
    [1 .. num_districts - 1] an earlier district never has fewer blocks
    than a later one, and never more than one block more, whatever the
    populations of the blocks. *)
Theorem later_districts_get_equally_many_blocks (graph : City) (num_districts : Z) :
  NoDup graph.*1 ->
  2 <= num_districts ->
  exists d,
    create_gerrymandered_districts graph num_districts = Some d
    /\ forall a b,
         1 <= a -> a <= b -> b < num_districts ->
         (blocks_in d graph b <= blocks_in d graph a <= blocks_in d graph b + 1)%nat.
Proof.
  intros Hnd Hn.
  destruct (create_gerrymandered_districts_spec graph num_districts Hn)
    as (packed & rest & d0 & d & Hsplit & Hd & Hin & Hout & Hkeep & Hdealt).
  cbv zeta in Hkeep, Hdealt.
  set (remaining := filter _ _) in Hkeep, Hdealt.
  exists d. split; [exact Hd|].
  assert (Hnd' : NoDup remaining).
  { apply NoDup_filter. rewrite <- Hsplit, sorted_nodes_perm. exact Hnd. }
  assert (Hcount : forall c, 1 <= c < num_districts ->
            Z.of_nat (blocks_in d graph c)
            = Z.of_nat (length remaining) / (num_districts - 1)
              + (if c - 1 <? Z.of_nat (length remaining) mod (num_districts - 1)
                 then 1 else 0)).
  { intros c Hc. unfold blocks_in.
    rewrite <- (count_residue (num_districts - 1) (c - 1) (length remaining)) by lia.
    f_equal.
    transitivity (length (filter (fun k => assignment d !! k = Some c) remaining)).
    - unfold remaining. rewrite list_filter_filter_l.
      + apply Permutation_length. apply filter_Permutation.
        rewrite <- Hsplit, sorted_nodes_perm. reflexivity.
      + intros k Hk. destruct (decide (k ∈ remaining)) as [Hr|Hr].
        * apply list_elem_of_filter in Hr as [Hr _]. exact Hr.
        * rewrite (Hkeep k Hr) in Hk.
          destruct (decide (k ∈ node <$> packed)) as [Hp|Hp]; [|auto].
          rewrite (Hin k Hp) in Hk. injection Hk as <-. lia.
    - apply filter_length_by_index. intros j k Hj. cbn [Nat.add].
      destruct (Hdealt k (list_elem_of_lookup_2 _ _ _ Hj)) as (j' & Hj' & ->).
      rewrite (NoDup_lookup _ _ _ _ Hnd' Hj Hj').
      split; [intros [=]; lia|intros ->; f_equal; lia]. }
  intros a b Ha Hab Hb.
  pose proof (Hcount a ltac:(lia)) as Hca. pose proof (Hcount b ltac:(lia)) as Hcb.
  destruct (a - 1 <? Z.of_nat (length remaining) mod (num_districts - 1)) eqn:Ea,
           (b - 1 <? Z.of_nat (length remaining) mod (num_districts - 1)) eqn:Eb; lia.
Qed.

Lemma later_districts_get_equally_many_blocks_witness :
  exists d,
    create_gerrymandered_districts example_city 3 = Some d
    /\ forall a b,
         1 <= a -> a <= b -> b < 3 ->
         (blocks_in d example_city b <= blocks_in d example_city a
          <= blocks_in d example_city b + 1)%nat.
Proof.
  apply (later_districts_get_equally_many_blocks example_city 3); [|lia].
  apply (bool_decide_unpack _). vm_compute. exact I.
Defined.


Lemma Qdiv_one (q : Q) : (q / inject_Z 1 == q)%Q.
Proof. unfold Qdiv. change (/ inject_Z 1)%Q with 1%Q. ring. Qed.

Lemma foldr_Zadd_perm (l1 l2 : list Z) :
  l1 ≡ₚ l2 -> foldr Z.add 0 l1 = foldr Z.add 0 l2.
Proof. induction 1; cbn; lia. Qed.

Lemma filter_nothing {A} (P : A -> Prop) `{!forall x, Decision (P x)} (l : list A) :
  (forall x, x ∈ l -> ~ P x) -> filter P l = [].
Proof.
  induction l as [|x l IH]; intros Hl; [reflexivity|].
  rewrite filter_cons_False by (apply Hl; left). apply IH. intros y Hy. apply Hl. right.
  exact Hy.
Qed.

Lemma total_pop_sorted (graph : City) :
  total_pop graph = foldr Z.add 0 (population <$> sort_reverse (node_data <$> graph)).
Proof.
  unfold total_pop. rewrite fold_left_Zadd, Z.add_0_l.
  transitivity (foldr Z.add 0 (population <$> (node_data <$> graph))).
  - rewrite <- list_fmap_compose. reflexivity.
  - apply foldr_Zadd_perm. rewrite sort_reverse_perm. reflexivity.
Qed.

Lemma foldr_Zadd_nonneg (l : list Z) : Forall (fun p => 0 <= p) l -> 0 <= foldr Z.add 0 l.
Proof. induction 1 as [|p l Hp _ IH]; cbn; lia. Qed.

Lemma sort_reverse_nil (l : list NodeData) : sort_reverse l = [] -> l = [].
Proof.
  intros Hnil. apply Permutation_nil_r. rewrite <- Hnil. symmetry. apply sort_reverse_perm.
Qed.

(** X23. When [create_gerrymandered_districts] fails.  For a city whose
    blocks have no negative population it reaches the call of
    [Partition] exactly when two districts or more are asked for, or the
    city is empty and the number of districts is not zero, or one
    district is asked for and somebody lives in the city.  Otherwise it
    raises: [ZeroDivisionError] for zero districts, [IndexError] for a
    negative number of districts, and for one district and a city
    without inhabitants the modulo by [num_districts - 1] divides by
    zero. *)
Theorem gerrymandered_districts_are_created_iff (graph : City) (num_districts : Z) :
  Forall (fun entry => 0 <= block_population entry.2) graph ->
  is_Some (create_gerrymandered_districts graph num_districts)
  <-> 2 <= num_districts
      \/ (graph = [] /\ num_districts <> 0)
      \/ (num_districts = 1 /\ 0 < total_pop graph).
Proof.
  intros Hpop. split.
  - intros Hsome.
    destruct (decide (2 <= num_districts)) as [|Hlt]; [left; assumption|right].
    destruct (decide (num_districts = 0)) as [->|Hne].
    { exfalso. unfold create_gerrymandered_districts in Hsome.
      rewrite py_truediv_None in Hsome by reflexivity. destruct Hsome as [? [=]]. }
    destruct graph as [|entry graph]; [left; auto|right].
    unfold create_gerrymandered_districts in Hsome.
    rewrite py_truediv_Some in Hsome by (apply inject_Z_nonzero; exact Hne).
    cbn [mbind option_bind] in Hsome.
    destruct (sort_reverse (node_data <$> entry :: graph)) as [|x l] eqn:Hsort.
    { apply sort_reverse_nil in Hsort. discriminate. }
    destruct (decide (num_districts = 1)) as [->|Hne1].
    + split; [reflexivity|].
      destruct (decide (0 < total_pop (entry :: graph))) as [|Hle]; [assumption|exfalso].
      cbn [pack district_populations] in Hsome.
      change (Z.to_nat 1) with 1%nat in Hsome. cbn [replicate] in Hsome.
      change (getitem [0] 0) with (Some 0) in Hsome. cbn [mbind option_bind] in Hsome.
      assert (E : Qltb (inject_Z 0)
                    (inject_Z (total_pop (entry :: graph)) / inject_Z 1 * (13 # 10)) = false).
      { apply Qltb_ge. rewrite Qdiv_one.
        assert (inject_Z (total_pop (entry :: graph)) <= inject_Z 0)%Q
          by (rewrite <- Zle_Qle; lia).
        change (inject_Z 0) with 0%Q in *. lra. }
      rewrite E in Hsome. cbn [mbind option_bind assignment fmap list_fmap] in Hsome.
      rewrite filter_cons_True in Hsome by apply lookup_empty.
      cbn in Hsome. destruct Hsome as [? [=]].
    + exfalso. assert (Hneg : num_districts < 0) by lia.
      cbn [pack district_populations] in Hsome.
      replace (Z.to_nat num_districts) with 0%nat in Hsome by lia.
      cbn in Hsome. destruct Hsome as [? [=]].
  - intros [Hn|[[-> Hne]|[-> Htotal]]].
    + destruct (create_gerrymandered_districts_spec graph num_districts Hn)
        as (_ & _ & _ & d & _ & -> & _). eauto.
    + unfold create_gerrymandered_districts.
      rewrite py_truediv_Some by (apply inject_Z_nonzero; exact Hne). cbn. eauto.
    + unfold create_gerrymandered_districts.
      rewrite py_truediv_Some by (apply inject_Z_nonzero; lia).
      cbn [mbind option_bind].
      set (target_pop := (_ / _)%Q).
      destruct (pack_spec 1 target_pop (sort_reverse (node_data <$> graph)) _ 0
                  (sized_zeros 1))
        as (packed & rest & d0 & Hsplit & Hpack & _ & _ & Hin & _ & Hstop & _);
        [lia|reflexivity|].
      change (Z.to_nat 1) with 1%nat. rewrite Hpack. cbn [mbind option_bind].
      assert (Hrest : rest = []).
      { destruct Hstop as [Hrest|Hfull]; [exact Hrest|exfalso].
        apply Qltb_ge in Hfull. unfold target_pop in Hfull. rewrite Qdiv_one in Hfull.
        pose proof (total_pop_sorted graph) as Hsum.
        rewrite Hsplit, fmap_app, foldr_app in Hsum.
        assert (Hrest : 0 <= foldr Z.add 0 (population <$> rest)).
        { apply foldr_Zadd_nonneg. apply Forall_fmap.
          assert (Hall : Forall (fun x => 0 <= population x) (packed ++ rest)).
          { rewrite <- Hsplit, sort_reverse_perm. apply Forall_fmap.
            eapply Forall_impl; [exact Hpop|]. auto. }
          apply Forall_app in Hall as [_ Hall]. exact Hall. }
        assert (Hle : foldr Z.add 0 (population <$> packed) <= total_pop graph).
        { rewrite Hsum.
          assert (Hshift : forall l a, foldr Z.add a l = a + foldr Z.add 0 l).
          { induction l as [|p l IH]; intros a; cbn; [lia|]. rewrite IH. lia. }
          rewrite (Hshift _ (foldr Z.add 0 (population <$> rest))). lia. }
        rewrite Z.add_0_l in Hfull.
        rewrite Zle_Qle in Hle.
        assert (0 < inject_Z (total_pop graph))%Q
          by (change 0%Q with (inject_Z 0); rewrite <- Zlt_Qlt; exact Htotal).
        lra. }
      subst rest. rewrite app_nil_r in Hsplit. rewrite Hsplit.
      assert (Hnone : filter (fun k => assignment d0 !! k = None) (node <$> packed) = []).
      { apply filter_nothing. intros k Hk. rewrite (Hin k Hk). discriminate. }
      rewrite Hnone. cbn. eauto.
Qed.

Lemma gerrymandered_districts_are_created_iff_witness :
  is_Some (create_gerrymandered_districts example_city 1)
  /\ create_gerrymandered_districts [(1, {| block_population := 0;
                                            block_dem_votes := 0;
                                            block_rep_votes := 0 |})] 1 = None.
Proof.
  split.
  - apply (gerrymandered_districts_are_created_iff example_city 1).
    + apply (bool_decide_unpack _). vm_compute. exact I.
    + right. right. split; reflexivity.
  - apply eq_None_not_Some. intros Hsome.
    apply (gerrymandered_districts_are_created_iff _ 1) in Hsome.
    + destruct Hsome as [Hn|[[Hg _]|[_ Hp]]]; [lia|discriminate|]. vm_compute in Hp.
      discriminate.
    + apply (bool_decide_unpack _). vm_compute. exact I.
Defined.

End GerrymanderedMapProperties.

(** ** The short ensembles *)


Lemma counting_loop (period : Z) (xs : list Partition) (i : Z) (state : list Z * list Line) :
  enumerate_fold
    (fun i partition state =>
       (state.1 ++ [dem_wins partition],
        if (i + 1) mod period =? 0 then state.2 ++ [StepLine (i + 1)] else state.2))
    i xs state
  = (state.1 ++ (dem_wins <$> xs),
     state.2 ++ (StepLine <$> filter (fun s => s mod period = 0) (seqZ (i + 1) (len xs)))).
Proof.
  revert i state. induction xs as [|x xs IH]; intros i [acc out].
  - cbn. rewrite !app_nil_r. reflexivity.
  - cbn [enumerate_fold]. rewrite IH. cbn [fst snd fmap list_fmap].
    unfold len. cbn [length]. rewrite (seqZ_cons (i + 1)) by lia.
    replace (Z.pred (Z.of_nat (S (length xs)))) with (Z.of_nat (length xs)) by lia.
    replace (Z.succ (i + 1)) with (i + 1 + 1) by lia.
    rewrite filter_cons. f_equal.
    + rewrite <- app_assoc. reflexivity.
    + destruct (decide ((i + 1) mod period = 0)) as [E|E].
      * rewrite E. cbn. rewrite <- app_assoc. reflexivity.
      * apply Z.eqb_neq in E. rewrite E. reflexivity.
Qed.

Section ShortEnsembles.
Context `{Gerrychain}.

(** X24. [run_mcmc_ensemble] (real_data_simple.py) and
    [run_mcmc_analysis] (gerrymandering_detection.py) cannot fail and
    return one value per step of the chain for every number of steps,
    also below ten, where [run_ensemble] of the single-state scripts
    returns None: the Democratic seat count of each state of the chain,
    in order.  On the same chain both return the same list; the first
    prints a line at every 20th step, the second at every 400th. *)
Theorem short_ensembles_record_every_step (initial_partition : Partition) (num_steps : Z)
    (rng : Rng) :
  let chain := {| proposal := propose_random_flip;
                  constraints := [single_flip_contiguous];
                  accept := fun _ _ => true;
                  initial_state := initial_partition;
                  total_steps := num_steps |} in
  let ensemble := RealDataSimpleEnsemble.run_mcmc_ensemble initial_partition num_steps rng in
  let analysis :=
    GerrymanderingDetectionEnsemble.run_mcmc_analysis initial_partition num_steps rng in
  ensemble.1 = dem_wins <$> chain_iter chain rng
  /\ analysis.1 = ensemble.1
  /\ len ensemble.1 = Z.max 0 num_steps
  /\ ensemble.2
     = RunningMCMC num_steps
       :: (StepLine <$> filter (fun s => s mod 20 = 0) (seqZ 1 (Z.max 0 num_steps)))
       ++ [EnsembleComplete]
  /\ analysis.2
     = RunningMCMC num_steps
       :: (StepLine <$> filter (fun s => s mod 400 = 0) (seqZ 1 (Z.max 0 num_steps))).
Proof.
  intros chain ensemble analysis.
  assert (Hlen : len (chain_iter chain rng) = Z.max 0 num_steps).
  { unfold len, chain_iter. rewrite chain_outputs_length. cbn. lia. }
  unfold ensemble, analysis, RealDataSimpleEnsemble.run_mcmc_ensemble,
    GerrymanderingDetectionEnsemble.run_mcmc_analysis.
  fold chain. unfold RealDataSimpleEnsemble.ensemble_step,
    GerrymanderingDetectionEnsemble.analysis_step.
  rewrite !counting_loop. cbn [fst snd app]. rewrite Hlen.
  split; [reflexivity|]. split; [reflexivity|].
  split; [unfold len; rewrite length_fmap; exact Hlen|].
  split; reflexivity.
Qed.
End ShortEnsembles.

(** ** The detection of the data columns *)

Lemma first_return_Some {A B} (f : A -> option B) (xs : list A) (b : B) :
  first_return f xs = Some b -> exists x, x ∈ xs /\ f x = Some b.
Proof.
  induction xs as [|x xs IH]; cbn; [discriminate|].
  destruct (f x) as [b'|] eqn:E.
  - intros [= <-]. exists x. split; [left|exact E].
  - intros Hb. destruct (IH Hb) as (y & Hy & Hfy). exists y. split; [right; exact Hy|exact Hfy].
Qed.

Lemma head_filter_elem_of {A} (P : A -> Prop) `{!forall x, Decision (P x)} (l : list A)
    (x : A) :
  head (filter P l) = Some x -> P x /\ x ∈ l.
Proof.
  intros Hx. apply (proj1 (list_elem_of_filter P l x)).
  destruct (filter P l) as [|y l']; [discriminate|].
  injection Hx as ->. left.
Qed.

Lemma cons_filter_elem_of {A} (P : A -> Prop) `{!forall x, Decision (P x)} (l l' : list A)
    (x : A) :
  filter P l = x :: l' -> P x /\ x ∈ l.
Proof. intros Hx. apply (proj1 (list_elem_of_filter P l x)). rewrite Hx. left. Qed.

Section DetectedColumns.
Import SingleStateV2Columns.

Lemma return_result_well_paired (columns : list string) (result returned : Columns)
    (dem rep : string) :
  (forall population, population_column result = Some population -> population ∈ columns) ->
  dem <> rep -> dem ∈ columns -> rep ∈ columns ->
  return_result result dem rep = Some returned ->
  well_paired columns returned.
Proof.
  intros Hpop Hne Hdem Hrep. unfold return_result. cbn.
  destruct (_ || _); [|discriminate]. intros [= <-].
  exists dem, rep. cbn. auto 10.
Qed.

Lemma find_population_elem_of (pop_candidates columns : list string) (population : string) :
  find_population pop_candidates columns = Some population -> population ∈ columns.
Proof. intros Hp. apply head_filter_elem_of in Hp as [_ Hp]. exact Hp. Qed.

(** X25. [detect_data_columns] of single_state_detection_v2.py never
    uses one column for both parties: a result it returns names two
    different columns of the first node's data as ['dem'] and ['rep']
    (and its population column, if any, is a column of the same data).
    In particular no result is returned without election columns. *)
Theorem detected_columns_are_two_different_columns (graph : list (list string))
    (result : Columns) :
  detect_data_columns graph = Some result ->
  exists columns rest, graph = columns :: rest /\ well_paired columns result.
Proof.
  destruct graph as [|columns rest]; [discriminate|]. intros Hr.
  exists columns, rest. split; [reflexivity|].
  cbn [detect_data_columns] in Hr. cbv zeta in Hr.
  set (result0 := {| population_column := _ |}) in Hr.
  assert (Hpop : forall population, population_column result0 = Some population ->
                                    population ∈ columns).
  { intros population. apply find_population_elem_of. }
  assert (Hgood : forall dem rep, dem <> rep -> dem ∈ columns -> rep ∈ columns ->
                    return_result result0 dem rep = Some result ->
                    well_paired columns result).
  { intros dem rep. apply return_result_well_paired. exact Hpop. }
  clearbody result0.
  (* Strategy 1 *)
  destruct (strategy_1 _ _ _) as [returned|] eqn:E1.
  { subst returned. unfold strategy_1 in E1.
    destruct (filter _ columns) as [|biden biden_cols] eqn:Eb in E1; [discriminate|].
    destruct (filter _ columns) as [|trump trump_cols] eqn:Et in E1; [discriminate|].
    pose proof (cons_filter_elem_of _ _ _ _ Eb) as [_ Hb].
    pose proof (cons_filter_elem_of _ _ _ _ Et) as [_ Ht].
    case_bool_decide as Hne; [|discriminate].
    destruct (filter _ (biden :: _)) as [|pres_b ?] eqn:Epb in E1;
      [injection E1 as E1; apply (Hgood biden trump); tauto|].
    destruct (filter _ (trump :: _)) as [|pres_t ?] eqn:Ept in E1;
      [injection E1 as E1; apply (Hgood biden trump); tauto|].
    case_bool_decide as Hne';
      [|injection E1 as E1; apply (Hgood biden trump); tauto].
    injection E1 as E1. apply (Hgood pres_b pres_t); [exact Hne'| | |exact E1].
    - apply cons_filter_elem_of in Epb as [_ Hin]. rewrite <- Eb in Hin.
      apply list_elem_of_filter in Hin as [_ Hin]. exact Hin.
    - apply cons_filter_elem_of in Ept as [_ Hin]. rewrite <- Et in Hin.
      apply list_elem_of_filter in Hin as [_ Hin]. exact Hin. }
  clear E1.
  (* Strategy 2 *)
  assert (H2 : forall P Q `{!forall x, Decision (P x)} `{!forall x, Decision (Q x)},
             strategy_2 result0 (filter P columns) (filter Q columns) = Some (Some result) ->
             well_paired columns result).
  { intros P Q ? ? E2. unfold strategy_2 in E2.
    destruct (filter P columns) as [|dem ?] eqn:Ed; [discriminate|].
    destruct (filter Q columns) as [|rep ?] eqn:Er; [discriminate|].
    apply cons_filter_elem_of in Ed as [_ Hd]. apply cons_filter_elem_of in Er as [_ Hr'].
    case_bool_decide as Hne; [|discriminate]. injection E2 as E2.
    apply (Hgood dem rep); assumption. }
  destruct (strategy_2 _ _ _) as [returned|] eqn:E2.
  { subst returned. exact (H2 _ _ _ _ E2). }
  clear E2.
  destruct (strategy_2 _ _ _) as [returned|] eqn:E2.
  { subst returned. exact (H2 _ _ _ _ E2). }
  clear E2 H2.
  (* Strategy 3 *)
  assert (Hloop : forall col variants,
             col ∈ columns ->
             rep_variant_loop result0 columns col variants = Some (Some result) ->
             well_paired columns result).
  { intros col variants Hcol Hv. unfold rep_variant_loop in Hv.
    apply first_return_Some in Hv as (rep_variant & _ & Hv).
    destruct (bool_decide (rep_variant ∈ columns)) eqn:Ein; [|discriminate].
    destruct (bool_decide (rep_variant <> col)) eqn:Ene; [|discriminate].
    apply bool_decide_eq_true in Ein, Ene. injection Hv as Hv.
    apply (Hgood col rep_variant); auto. }
  destruct (strategy_3 _ _) as [returned|] eqn:E3.
  { subst returned. unfold strategy_3 in E3.
    apply first_return_Some in E3 as (election_type & _ & E3). cbv zeta in E3.
    apply first_return_Some in E3 as (col & Hcol & E3).
    apply list_elem_of_filter in Hcol as [_ Hcol].
    destruct (_ && _); [exact (Hloop _ _ Hcol E3)|].
    destruct (contains "DEM" _); [exact (Hloop _ _ Hcol E3)|discriminate]. }
  clear E3.
  (* Strategy 4 *)
  destruct (strategy_4 _ _) as [returned|] eqn:E4; [|discriminate].
  subst returned. unfold strategy_4 in E4. cbv zeta in E4.
  apply first_return_Some in E4 as (dem_col & Hdem & E4).
  apply first_return_Some in E4 as (rep_col & Hrep & E4).
  apply list_elem_of_filter in Hdem as [_ Hdem].
  apply list_elem_of_filter in Hrep as [_ Hrep].
  case_bool_decide as Hne; [|discriminate].
  destruct (_ || _); [|discriminate]. injection E4 as E4.
  apply (Hgood dem_col rep_col); assumption.
Qed.
End DetectedColumns.


Lemma replace_from_absent (old new s : string) :
  contains old s = false -> replace_from old new 0 s = s.
Proof.
  induction s as [|c s IH]; [reflexivity|].
  cbn [contains replace_from]. intros Hc. apply orb_false_iff in Hc as [Hp Hc].
  cbn [String.prefix] in Hp |- *. rewrite Hp, (IH Hc). reflexivity.
Qed.

Lemma replace_absent (old new s : string) :
  contains old s = false -> replace old new s = s.
Proof. apply replace_from_absent. Qed.

Lemma contains_nonempty (sub s : string) :
  sub <> "" -> contains sub (upper s) = true -> s <> "".
Proof.
  intros Hsub Hc ->. cbn in Hc. rewrite orb_false_r in Hc.
  destruct sub; [congruence|discriminate].
Qed.

Lemma truthy_nonempty (s : string) : s <> "" -> truthy (Some s) = true.
Proof.
  intros Hs. cbn. apply negb_true_iff. apply String.eqb_neq. exact Hs.
Qed.

Lemma prefix_longer (a b s : string) :
  String.prefix a s = false -> String.prefix (a +:+ b) s = false.
Proof.
  revert s. induction a as [|c a IH]; intros s Hs; [destruct s; discriminate Hs|].
  change (String c a +:+ b) with (String c (a +:+ b)).
  destruct s as [|c' s]; [reflexivity|]. cbn [String.prefix] in Hs |- *.
  destruct (Ascii.ascii_dec c c'); [apply IH; exact Hs|reflexivity].
Qed.

Lemma contains_longer (a b s : string) :
  contains a s = false -> contains (a +:+ b) s = false.
Proof.
  induction s as [|c s IH]; cbn [contains]; intros Hs;
    apply orb_false_iff in Hs as [Hp Hs]; apply orb_false_iff.
  - split; [apply prefix_longer; exact Hp|reflexivity].
  - split; [apply prefix_longer; exact Hp|apply IH; exact Hs].
Qed.

(** X26. [detect_data_columns] of multi_state_detection.py and of
    single_state_detection.py can name one column for both parties.
    When the first column whose upper-cased name contains PRES and D has
    no capital D in its name (as pres16d), its variant
    [dem_col.replace('D', 'R')] is the column itself; it is found among
    the columns and taken as the Republican column.  (For
    single_state_detection.py: when no column names Trump or Romney, so
    that the strategies before this one do not apply.) *)
Theorem older_scripts_pair_a_column_with_itself (columns : list string)
    (rest : list (list string)) (col : string) :
  head (filter (fun c => contains "PRES" (upper c) && contains "D" (upper c)) columns)
  = Some col ->
  contains "D" col = false ->
  (forall population,
     find_population ["TOTPOP"; "POP"; "POPULATION"; "TOT_POP"; "PERSONS"] columns
     = Some population ->
     MultiStateColumns.detect_data_columns (columns :: rest)
     = Some {| population_column := Some population;
               dem_column := Some col;
               rep_column := Some col |})
  /\ ((forall c, c ∈ columns ->
         contains "TRU" (upper c) = false /\ contains "ROM" (upper c) = false) ->
      SingleStateColumns.detect_data_columns (columns :: rest)
      = Some {| population_column :=
                  find_population ["TOTPOP"; "POP"; "POPULATION"; "TOT_POP"; "PERSONS";
                                   "VAP"; "CVAP"] columns;
                dem_column := Some col;
                rep_column := Some col |}).
Proof.
  intros Hhead HnoD.
  destruct (filter _ columns) as [|col' candidates] eqn:Ecand in Hhead; [discriminate|].
  injection Hhead as ->.
  pose proof (cons_filter_elem_of _ _ _ _ Ecand) as [Hcol Hin].
  apply andb_prop_elim in Hcol as [Hpres _]. apply Is_true_true in Hpres.
  assert (Hne : col <> "") by (eapply contains_nonempty; [|exact Hpres]; discriminate).
  assert (Hrep1 : SingleStateColumns.rep_col_of columns col = Some col).
  { unfold SingleStateColumns.rep_col_of. rewrite (replace_absent "D" "R" col HnoD).
    rewrite filter_cons_True by exact Hin. reflexivity. }
  assert (Hrep2 : MultiStateColumns.rep_col_of columns col = Some col) by exact Hrep1.
  split.
  - intros population Hpop. cbn [MultiStateColumns.detect_data_columns]. cbv zeta.
    assert (Hpair : MultiStateColumns.election_columns columns = Some (col, col)).
    { unfold MultiStateColumns.election_columns. cbn [first_return]. cbv zeta.
      rewrite Ecand, Hrep2, (truthy_nonempty col Hne). reflexivity. }
    rewrite Hpair, Hpop. cbn [fmap option_fmap option_map fst snd population_column
                                dem_column rep_column].
    assert (Hpne : population <> "").
    { apply head_filter_elem_of in Hpop as [Hp _]. intros ->. exact Hp. }
    rewrite (truthy_nonempty population Hpne), (truthy_nonempty col Hne). reflexivity.
  - intros Hnames. cbn [SingleStateColumns.detect_data_columns]. cbv zeta.
    assert (Htrump : filter (fun c => contains "TRU" (upper c) || contains "TRUMP" (upper c))
                            columns = []).
    { apply filter_nothing. intros c Hc Htru. destruct (Hnames c Hc) as [Ht _].
      rewrite Ht in Htru. cbn [orb] in Htru.
      pose proof (contains_longer "TRU" "MP" _ Ht) as Hlong.
      change ("TRU" +:+ "MP") with "TRUMP" in Hlong. rewrite Hlong in Htru. exact Htru. }
    assert (Hromney : filter (fun c => contains "ROM" (upper c)) columns = []).
    { apply filter_nothing. intros c Hc Hrom. destruct (Hnames c Hc) as [_ Hr].
      rewrite Hr in Hrom. exact Hrom. }
    rewrite Htrump, Hromney.
    assert (E1 : forall result l, SingleStateColumns.strategy_1 result l [] = None)
      by (intros ? [|? ?]; reflexivity).
    assert (E2 : forall result l, SingleStateColumns.strategy_2 result l [] = None)
      by (intros ? [|? ?]; reflexivity).
    rewrite E1, !E2.
    unfold SingleStateColumns.strategy_3. cbn [first_return]. cbv zeta.
    rewrite Ecand, Hrep1, (truthy_nonempty col Hne).
    unfold SingleStateColumns.return_result.
    cbn [population_column dem_column]. rewrite (truthy_nonempty col Hne), orb_true_r.
    reflexivity.
Qed.

Lemma older_scripts_pair_a_column_with_itself_witness :
  MultiStateColumns.detect_data_columns [["GEOID"; "totpop"; "pres16d"; "pres16r"]]
  = Some {| population_column := Some "totpop";
            dem_column := Some "pres16d";
            rep_column := Some "pres16d" |}.
Proof.
  apply (proj1 (older_scripts_pair_a_column_with_itself
                  ["GEOID"; "totpop"; "pres16d"; "pres16r"] [] "pres16d"
                  eq_refl eq_refl)).
  reflexivity.
Defined.

Lemma detected_columns_are_two_different_columns_witness :
  exists columns rest,
    [["GEOID"; "totpop"; "pres16d"; "pres16r"]] = columns :: rest
    /\ well_paired columns {| population_column := Some "totpop";
                              dem_column := Some "pres16d";
                              rep_column := Some "pres16r" |}.
Proof.
  apply (detected_columns_are_two_different_columns
           [["GEOID"; "totpop"; "pres16d"; "pres16r"]]).
  reflexivity.
Defined.

(** ** The analysis of the enacted map in real_data_simple.py *)

Section RealDataSimpleFindings.
Import RealDataSimpleAnalysis.

Lemma count_districts_acc (partition : Partition) (acc : Z * Z) :
  fold_left
    (fun acc d =>
       if Qltb (rep_votes d) (dem_votes d) then (acc.1 + 1, acc.2) else (acc.1, acc.2 + 1))
    partition acc
  = (acc.1 + Z.of_nat (length (filter (fun d => (rep_votes d < dem_votes d)%Q) partition)),
     acc.2 + Z.of_nat (length (filter (fun d => ~ (rep_votes d < dem_votes d)%Q) partition))).
Proof.
  revert acc. induction partition as [|d p IH]; intros [a b]; cbn [fold_left].
  - cbn. f_equal; lia.
  - rewrite IH, !filter_cons. destruct (Qltb (rep_votes d) (dem_votes d)) eqn:E.
    + apply Qltb_lt in E. rewrite decide_True by exact E.
      rewrite decide_False by (intros Hn; exact (Hn E)). cbn [fst snd length]. f_equal; lia.
    + apply Qltb_ge in E. apply Qle_not_lt in E. rewrite decide_False by exact E.
      rewrite decide_True by exact E. cbn [fst snd length]. f_equal; lia.
Qed.

Lemma py_sum_shift (l : list Q) (a : Q) : (fold_left Qplus l a == a + py_sum l)%Q.
Proof.
  unfold py_sum. revert a. induction l as [|x l IH]; intros a; cbn [fold_left]; [ring|].
  rewrite (IH (a + x)%Q), (IH (0 + x)%Q). ring.
Qed.

Lemma py_sum_cons (x : Q) (l : list Q) : (py_sum (x :: l) == x + py_sum l)%Q.
Proof. unfold py_sum at 1. cbn [fold_left]. rewrite py_sum_shift. ring. Qed.

Lemma sweep_totals (partition : Partition) :
  (forall d, d ∈ partition -> (0 <= rep_votes d < dem_votes d)%Q) ->
  partition <> [] ->
  (0 <= py_sum (map rep_votes partition) < py_sum (map dem_votes partition))%Q.
Proof.
  intros Hall Hne. destruct partition as [|d p]; [congruence|]. clear Hne.
  revert d Hall. induction p as [|e p IH]; intros d Hall.
  - cbn [map]. rewrite !py_sum_cons. change (py_sum []) with 0%Q.
    pose proof (Hall d ltac:(left)). lra.
  - pose proof (Hall d ltac:(left)).
    pose proof (IH e ltac:(intros x Hx; apply Hall; right; exact Hx)) as IHe.
    cbn [map] in IHe |- *. rewrite (py_sum_cons (rep_votes d)), (py_sum_cons (dem_votes d)).
    lra.
Qed.

(** X27. [analyze_real_data] raises exactly when the partition has no
    district or no vote was cast: its vote shares and seat shares divide
    by the totals.  When the Democrats carry every district, it reports
    that the seat share differs significantly from the vote share
    exactly when they have less than nine times the Republican vote,
    that is a vote share below 90%. *)
Theorem analyze_real_data_findings (partition : Partition) :
  let total_dem := py_sum (map dem_votes partition) in
  let total_rep := py_sum (map rep_votes partition) in
  (is_Some (analyze_real_data partition)
   <-> partition <> [] /\ ~ (total_dem + total_rep == 0)%Q)
  /\ ((forall d, d ∈ partition -> (0 <= rep_votes d < dem_votes d)%Q) ->
      partition <> [] ->
      analyze_real_data partition
      = Some (if Qltb total_dem (9 * total_rep) then SeatShareDiffers else Proportional)).
Proof.
  intros total_dem total_rep.
  assert (Hlen : partition <> [] -> ~ (inject_Z (len partition) == 0)%Q).
  { intros Hne. apply inject_Z_nonzero. unfold len.
    destruct partition as [|d p]; [congruence|]. rewrite length_cons. lia. }
  split; [split|].
  - intros Hsome. unfold analyze_real_data in Hsome. fold total_dem total_rep in Hsome.
    destruct (Qeq_dec (total_dem + total_rep) 0) as [Hz|Hnz].
    { rewrite (py_truediv_None total_dem _ Hz) in Hsome.
      cbn [mbind option_bind] in Hsome.
      destruct Hsome as [? [=]]. }
    split; [|exact Hnz]. intros ->. apply Hnz. reflexivity.
  - intros [Hne Hnz]. unfold analyze_real_data. fold total_dem total_rep.
    rewrite !py_truediv_Some by (exact Hnz || exact (Hlen Hne)). cbn [mbind option_bind].
    destruct (Qltb _ _); eauto.
  - intros Hall Hne. unfold analyze_real_data. fold total_dem total_rep.
    destruct (sweep_totals partition Hall Hne) as [Hrep Hdem]. fold total_dem total_rep in Hrep, Hdem.
    assert (Hnz : ~ (total_dem + total_rep == 0)%Q) by lra.
    rewrite !py_truediv_Some by (exact Hnz || exact (Hlen Hne)). cbn [mbind option_bind].
    unfold count_districts. rewrite count_districts_acc. cbn [fst snd].
    assert (Hfilter : filter (fun d => (rep_votes d < dem_votes d)%Q) partition = partition).
    { clear -Hall. induction partition as [|d p IH]; [reflexivity|].
      rewrite filter_cons_True by (apply Hall; left). f_equal. apply IH.
      intros x Hx. apply Hall. right. exact Hx. }
    rewrite Hfilter, Z.add_0_l. fold (len partition).
    assert (Hseats : (inject_Z (len partition) / inject_Z (len partition) * 100 - 50 == 50)%Q).
    { field. exact (Hlen Hne). }
    assert (Hpos : (0 < total_dem + total_rep)%Q) by lra.
    assert (Hhalf : (1 # 2 <= total_dem / (total_dem + total_rep))%Q)
      by (apply Qle_shift_div_l; [exact Hpos|lra]).
    unfold py_abs.
    destruct (Qltb total_dem (9 * total_rep)) eqn:E.
    + apply Qltb_lt in E.
      assert (Hlt : (total_dem / (total_dem + total_rep) < 9 # 10)%Q)
        by (apply Qlt_shift_div_r; [exact Hpos|lra]).
      set (share := (total_dem / (total_dem + total_rep))%Q) in *.
      rewrite (Qltb_compat _ (share * 100 - 50 + 10) _ 50).
      * replace (Qltb (share * 100 - 50 + 10) 50) with true; [reflexivity|].
        symmetry. apply Qltb_lt. lra.
      * rewrite Qabs_pos by lra. reflexivity.
      * rewrite Hseats. reflexivity.
    + apply Qltb_ge in E.
      assert (Hge : (9 # 10 <= total_dem / (total_dem + total_rep))%Q)
        by (apply Qle_shift_div_l; [exact Hpos|lra]).
      set (share := (total_dem / (total_dem + total_rep))%Q) in *.
      rewrite (Qltb_compat _ (share * 100 - 50 + 10) _ 50).
      * replace (Qltb (share * 100 - 50 + 10) 50) with false; [reflexivity|].
        symmetry. apply Qltb_ge. lra.
      * rewrite Qabs_pos by lra. reflexivity.
      * rewrite Hseats. reflexivity.
Qed.

Lemma analyze_real_data_findings_witness :
  analyze_real_data
    [ {| district := 0; population := 100; dem_votes := 60; rep_votes := 40 |};
      {| district := 1; population := 100; dem_votes := 70; rep_votes := 30 |} ]
  = Some SeatShareDiffers.
Proof.
  apply (proj2 (analyze_real_data_findings
                  [ {| district := 0; population := 100; dem_votes := 60; rep_votes := 40 |};
                    {| district := 1; population := 100; dem_votes := 70;
                       rep_votes := 30 |} ])).
  - intros d Hd.
    repeat (apply elem_of_cons in Hd as [->|Hd]); [| |apply elem_of_nil in Hd; destruct Hd];
      cbn; lra.
  - discriminate.
Defined.
End RealDataSimpleFindings.
